(** * Budget simulation engine: daily simulator, reality projector, weekly aggregator

    Shallow embedding of [src/services/simulationEngine.ts] (the engine with
    observed-entry reconciliation), of the older engine in
    [src/unnamed/part_002] (no reconciliation) and of the records of
    [src/types.ts], followed by the properties of the specification; then
    of the state handlers and derived values of the application
    ([src/unnamed/part_000]) and of its older version ([src/App.tsx]), with
    their properties.

    Conventions.
    - A JavaScript [number] that carries money ([amount], [value],
      [initialBalance], the balances) is an element of an abstract type
      [num] with the operations the engine uses (class [Number]).  The
      structural theorems hold for every interpretation of these operations,
      IEEE doubles included; the theorems that need arithmetic laws name
      them ([ZeroLaws], [NumberLaws]).  [Exact.QcNumber] is the
      exact-arithmetic interpretation (rationals, [Math.round] as
      floor (x + 1/2)), [Binary64.FloatNumber] the interpretation by
      binary64 floating-point values.
    - A [number] that is only compared with a loop counter ([day],
      [dayOfMonth], [dayOfWeek], [year], [month]) is an integer [Z].  The
      day of an observed entry also starts the counter of the projection
      loop, which counts in doubles: [SimulationEngine] gives what the call
      computes when that loop ends, [Run] runs the loop step by step with
      the counter of [Counter], and the two agree when the observed days
      are safe integers (lemma [calculateDailySimulation_returns]).
    - The built-in [Date] is modelled from ECMAScript (section 21.4.1), with
      the local time zone offset taken as zero.
    - A state update passed to a React setter is the function from the
      previous state to the next one; what a handler reads from the page or
      the clock ([parseFloat] of an input, [confirm], [today.getDate()]) is
      an argument of that function. *)

From Stdlib Require Import ZArith List Bool Lia String Ascii.
From Stdlib Require Import QArith Qcanon Qround Lqa.
From Stdlib Require Import DecimalString.
From Stdlib Require DecimalZ.
From Stdlib Require Import Sorted.
From Stdlib Require Import Floats Uint63.
From Equations Require Import Equations.
Import ListNotations.

Local Open Scope Z_scope.

(* ===================================================================== *)
(** ** The built-in Date, after ECMAScript 21.4.1 *)
(* ===================================================================== *)

Module JSDate.

Definition msPerDay : Z := 86400000.

(** [DaysInYear(y)] *)
Definition DaysInYear (y : Z) : Z :=
  if negb (y mod 4 =? 0) then 365
  else if negb (y mod 100 =? 0) then 366
  else if negb (y mod 400 =? 0) then 365
  else 366.

(** [DayFromYear(y)]: the day number of the first day of year [y]. *)
Definition DayFromYear (y : Z) : Z :=
  365 * (y - 1970) + (y - 1969) / 4 - (y - 1901) / 100 + (y - 1601) / 400.

(** [YearFromTime] on day numbers: the largest [y] with
    [DayFromYear y <= day].  The quotient is off by at most one. *)
Definition YearFromDay (day : Z) : Z :=
  let y := 1970 + (400 * day) / 146097 in
  if day <? DayFromYear y then y - 1
  else if DayFromYear (y + 1) <=? day then y + 1
  else y.

Definition InLeapYearOf (y : Z) : Z :=
  if DaysInYear y =? 366 then 1 else 0.

(** [Day(t)], [WeekDay(t)] *)
Definition Day (t : Z) : Z := t / msPerDay.
Definition WeekDay (t : Z) : Z := (Day t + 4) mod 7.

Definition YearFromTime (t : Z) : Z := YearFromDay (Day t).
Definition InLeapYear (t : Z) : Z := InLeapYearOf (YearFromTime t).
Definition DayWithinYear (t : Z) : Z := Day t - DayFromYear (YearFromTime t).

(** [MonthFromTime(t)] *)
Definition MonthFromTime (t : Z) : Z :=
  let d := DayWithinYear t in
  let leap := InLeapYear t in
  if d <? 31 then 0
  else if d <? 59 + leap then 1
  else if d <? 90 + leap then 2
  else if d <? 120 + leap then 3
  else if d <? 151 + leap then 4
  else if d <? 181 + leap then 5
  else if d <? 212 + leap then 6
  else if d <? 243 + leap then 7
  else if d <? 273 + leap then 8
  else if d <? 304 + leap then 9
  else if d <? 334 + leap then 10
  else 11.

(** [DateFromTime(t)] *)
Definition DateFromTime (t : Z) : Z :=
  let d := DayWithinYear t in
  let leap := InLeapYear t in
  match MonthFromTime t with
  | 0 => d + 1
  | 1 => d - 30
  | 2 => d - 58 - leap
  | 3 => d - 89 - leap
  | 4 => d - 119 - leap
  | 5 => d - 150 - leap
  | 6 => d - 180 - leap
  | 7 => d - 211 - leap
  | 8 => d - 242 - leap
  | 9 => d - 272 - leap
  | 10 => d - 303 - leap
  | _ => d - 333 - leap
  end.

(** Day offset of the first day of month [mn] (0..11) inside its year. *)
Definition DaysBeforeMonth (mn leap : Z) : Z :=
  match mn with
  | 0 => 0
  | 1 => 31
  | 2 => 59 + leap
  | 3 => 90 + leap
  | 4 => 120 + leap
  | 5 => 151 + leap
  | 6 => 181 + leap
  | 7 => 212 + leap
  | 8 => 243 + leap
  | 9 => 273 + leap
  | 10 => 304 + leap
  | _ => 334 + leap
  end.

(** [MakeDay(year, month, date)]: months outside 0..11 carry into the
    year, the date is an offset from the first of the month. *)
Definition MakeDay (year month date : Z) : Z :=
  let ym := year + month / 12 in
  let mn := month mod 12 in
  DayFromYear ym + DaysBeforeMonth mn (InLeapYearOf ym) + date - 1.

(** [MakeDate(day, 0)] *)
Definition MakeDate (day : Z) : Z := day * msPerDay.

(** [TimeClip]: a time value beyond 8.64e15 ms is NaN. *)
Definition TimeClip (t : Z) : option Z :=
  if Z.abs t <=? 8640000000000000 then Some t else None.

(** A Date object is its time value; [None] is the invalid date. *)
Definition t := option Z.

(** [new Date(year, month, date)]: a year in 0..99 means 1900 + year. *)
Definition make (year month date : Z) : t :=
  let yr := if (0 <=? year) && (year <=? 99) then 1900 + year else year in
  TimeClip (MakeDate (MakeDay yr month date)).

(** [getDate()] and [getDay()]; [None] is NaN. *)
Definition getDate (d : t) : option Z := option_map DateFromTime d.
Definition getDay (d : t) : option Z := option_map WeekDay d.

End JSDate.

(** The Gregorian calendar, as the specification speaks of it. *)
Module Calendar.

Definition is_leap_year (y : Z) : bool :=
  (y mod 4 =? 0) && (negb (y mod 100 =? 0) || (y mod 400 =? 0)).

(** Number of days of month [m] (0 = January .. 11 = December). *)
Definition days_in_month (y m : Z) : Z :=
  match m with
  | 1 => if is_leap_year y then 29 else 28
  | 3 | 5 | 8 | 10 => 30
  | _ => 31
  end.

(** The weekday of day [d] of month [m]: 0 = Sunday .. 6 = Saturday, day
    number 0 (1 January 1970) being a Thursday. *)
Definition weekday (y m d : Z) : Z := (JSDate.MakeDay y m d + 4) mod 7.

(** A year and month the engine is used with: a month index 0..11, and a
    year that [Date] takes at face value (not 0..99) and whose months lie
    inside the range of time values. *)
Definition valid_year_month (y m : Z) : Prop :=
  0 <= m <= 11 /\ -271820 <= y <= 275759 /\ ~ (0 <= y <= 99).

End Calendar.

(* ===================================================================== *)
(** ** Numbers, errors and loops *)
(* ===================================================================== *)

(** The operations on JavaScript numbers that the engine uses. *)
Class Number (num : Type) : Type := {
  num_of_Z : Z -> num;            (* an integer literal *)
  add : num -> num -> num;        (* a + b *)
  neg : num -> num;               (* -a *)
  mul : num -> num -> num;        (* a * b *)
  div : num -> num -> num;        (* a / b *)
  Math_round : num -> num;        (* Math.round(a) *)
  Math_abs : num -> num;          (* Math.abs(a) *)
  gtb : num -> num -> bool;       (* a > b *)
  ltb : num -> num -> bool        (* a < b *)
}.

(** [Math.round(x * 100) / 100], the expression every stored field goes
    through. *)
Definition round2 {num} `{Number num} (x : num) : num :=
  div (Math_round (mul x (num_of_Z 100))) (num_of_Z 100).

(** The result of code that can throw: [TypeError] is what reducing an empty
    array without initial value, or reading a property of [undefined],
    raises. *)
Inductive result (A : Type) : Type :=
| Ok (a : A)
| TypeError.
Arguments Ok {A} a.
Arguments TypeError {A}.

Definition bind {A B} (c : result A) (k : A -> result B) : result B :=
  match c with
  | Ok a => k a
  | TypeError => TypeError
  end.

Notation "x <- c ;; k" := (bind c (fun x => k))
  (at level 61, c at next level, right associativity).

(** [for (let i = lo; i <= hi; i++) body], threading the variables the body
    assigns; [range lo hi] is the values [i] takes, in order. *)
Definition range (lo hi : Z) : list Z :=
  map (fun i => lo + Z.of_nat i) (seq 0 (Z.to_nat (hi - lo + 1))).

Definition for_range {S : Type} (lo hi : Z) (body : S -> Z -> S) (s : S) : S :=
  fold_left body (range lo hi) s.

(** [array.forEach((x, idx) => ...)], threading the variables the callback
    assigns. *)
Fixpoint forEach_from {A S : Type} (f : S -> A -> nat -> S) (l : list A)
  (idx : nat) (s : S) : S :=
  match l with
  | [] => s
  | x :: l' => forEach_from f l' (Datatypes.S idx) (f s x idx)
  end.

Definition forEach {A S : Type} (f : S -> A -> nat -> S) (l : list A) (s : S) : S :=
  forEach_from f l 0%nat s.

(** [array.reduce(f)] without initial value. *)
Definition Array_reduce {A : Type} (f : A -> A -> A) (l : list A) : result A :=
  match l with
  | [] => TypeError
  | x :: l' => Ok (fold_left f l' x)
  end.

(** [array.slice(i, j)] for indices inside [0, +oo). *)
Definition slice {A : Type} (i j : nat) (l : list A) : list A :=
  firstn (j - i) (skipn i l).

(** [`${n}`] for an integer. *)
Definition template_of_Z (n : Z) : string := NilZero.string_of_int (Z.to_int n).

(* ===================================================================== *)
(** ** src/types.ts *)
(* ===================================================================== *)

Module Types.

Inductive TransactionType : Set := INCOME | EXPENSE | SAVING.
Inductive SpendFrequency : Set := ONCE | WEEKLY.
Inductive WeeklyBehavior : Set := SMOOTH | LUMP_SUM.

Record Transaction (num : Type) : Type := mkTransaction {
  id : string;
  name : string;
  amount : num;
  type : TransactionType;
  dayOfMonth : Z;
  dayOfWeek : option Z;
  frequency : SpendFrequency;
  weeklyBehavior : option WeeklyBehavior;
  category : string
}.

Record SimulationPoint (num : Type) : Type := mkSimulationPoint {
  date : string;
  dayNumber : Z;
  balance : num;
  actualBalance : option num;
  dailyDelta : num;
  cumulativeIncome : num;
  cumulativeExpenses : num
}.

Record WeeklySimulationPoint (num : Type) : Type := mkWeeklySimulationPoint {
  weekLabel : string;
  w_balance : num;
  w_actualBalance : option num;
  income : num;
  expenses : num
}.

Record ActualEntry (num : Type) : Type := mkActualEntry {
  day : Z;
  value : num
}.

Arguments mkTransaction {num}.
Arguments id {num}. Arguments name {num}. Arguments amount {num}.
Arguments type {num}. Arguments dayOfMonth {num}. Arguments dayOfWeek {num}.
Arguments frequency {num}. Arguments weeklyBehavior {num}.
Arguments category {num}.
Arguments mkSimulationPoint {num}.
Arguments date {num}. Arguments dayNumber {num}. Arguments balance {num}.
Arguments actualBalance {num}. Arguments dailyDelta {num}.
Arguments cumulativeIncome {num}. Arguments cumulativeExpenses {num}.
Arguments mkWeeklySimulationPoint {num}.
Arguments weekLabel {num}. Arguments w_balance {num}.
Arguments w_actualBalance {num}. Arguments income {num}.
Arguments expenses {num}.
Arguments mkActualEntry {num}.
Arguments day {num}. Arguments value {num}.

Definition is_INCOME (k : TransactionType) : bool :=
  match k with INCOME => true | _ => false end.
Definition is_ONCE (f : SpendFrequency) : bool :=
  match f with ONCE => true | _ => false end.
Definition is_WEEKLY (f : SpendFrequency) : bool :=
  match f with WEEKLY => true | _ => false end.
Definition is_SMOOTH (b : option WeeklyBehavior) : bool :=
  match b with Some SMOOTH => true | _ => false end.

End Types.

(** The variables that the rule loop of one day assigns. *)
Record Accrual (num : Type) : Type := mkAccrual {
  acc_dailyDelta : num;
  acc_cumulativeIncome : num;
  acc_cumulativeExpenses : num
}.
Arguments mkAccrual {num}.
Arguments acc_dailyDelta {num}.
Arguments acc_cumulativeIncome {num}.
Arguments acc_cumulativeExpenses {num}.

(** The variables that the day loop assigns. *)
Record Locals (num : Type) : Type := mkLocals {
  l_plannedBalance : num;
  l_cumulativeIncome : num;
  l_cumulativeExpenses : num;
  l_points : list (Types.SimulationPoint num)
}.
Arguments mkLocals {num}.
Arguments l_plannedBalance {num}.
Arguments l_cumulativeIncome {num}.
Arguments l_cumulativeExpenses {num}.
Arguments l_points {num}.

(** [currentDayOfWeek === targetDow]; a NaN weekday equals nothing. *)
Definition dow_eq (dow : option Z) (target : Z) : bool :=
  match dow with
  | Some w => w =? target
  | None => false
  end.

(** [t.dayOfWeek ?? 1] *)
Definition dayOfWeek_or_1 {num} (t : Types.Transaction num) : Z :=
  match Types.dayOfWeek t with
  | Some w => w
  | None => 1
  end.

(** The rule loop of the planned trajectory; it is written the same in both
    engine files (simulationEngine.ts lines 42-69, part_002 lines 49-77). *)
Section RuleLoop.
Context {num : Type} `{Number num}.
Import Types.

(** [transactions.map(t => ...)]: the daily rate of a Weekly+Smooth rule,
    0 for the others. *)
Definition smoothRates (transactions : list (Transaction num)) : list num :=
  map (fun t =>
         if is_WEEKLY (frequency t) && is_SMOOTH (weeklyBehavior t)
         then div (amount t) (num_of_Z 7)
         else num_of_Z 0)
      transactions.

(** [dailyDelta += val; if (isIncome) cumulativeIncome += m;
    else cumulativeExpenses += m], the three statements of every firing
    branch. *)
Definition accrue (isIncome : bool) (val m : num) (a : Accrual num) : Accrual num :=
  {| acc_dailyDelta := add (acc_dailyDelta a) val;
     acc_cumulativeIncome :=
       if isIncome then add (acc_cumulativeIncome a) m else acc_cumulativeIncome a;
     acc_cumulativeExpenses :=
       if isIncome then acc_cumulativeExpenses a else add (acc_cumulativeExpenses a) m |}.

(** The callback of [transactions.forEach((t, idx) => ...)].  The index is
    always inside [rates], which has one entry per transaction; the default
    of [nth] is never read (lemma [nth_smoothRates]). *)
Definition rule_callback (rates : list num) (day : Z) (currentDayOfWeek : option Z)
  (a : Accrual num) (t : Transaction num) (idx : nat) : Accrual num :=
  let isIncome := is_INCOME (type t) in
  match frequency t with
  | ONCE =>
      if dayOfMonth t =? day then
        let val := if isIncome then amount t else neg (amount t) in
        accrue isIncome val (amount t) a
      else a
  | WEEKLY =>
      if is_SMOOTH (weeklyBehavior t) then
        let rate := nth idx rates (num_of_Z 0) in
        let val := if isIncome then rate else neg rate in
        accrue isIncome val rate a
      else
        let targetDow := dayOfWeek_or_1 t in
        if dow_eq currentDayOfWeek targetDow then
          let val := if isIncome then amount t else neg (amount t) in
          accrue isIncome val (amount t) a
        else a
  end.

(** One day of rules: [dailyDelta] starts at 0, the running totals come
    from the days before. *)
Definition apply_rules (year month : Z) (transactions : list (Transaction num))
  (rates : list num) (day : Z) (cumI cumE : num) : Accrual num :=
  let currentDate := JSDate.make year month day in
  let currentDayOfWeek := JSDate.getDay currentDate in
  forEach (rule_callback rates day currentDayOfWeek) transactions
    {| acc_dailyDelta := num_of_Z 0;
       acc_cumulativeIncome := cumI;
       acc_cumulativeExpenses := cumE |}.

End RuleLoop.

(* ===================================================================== *)
(** ** src/services/simulationEngine.ts *)
(* ===================================================================== *)

Module SimulationEngine.
Section Engine.
Context {num : Type} `{Number num}.
Import Types.

(** [actualEntries.length > 0 ? actualEntries.reduce(...) : null] *)
Definition latestActual_of (actualEntries : list (ActualEntry num))
  : result (option (ActualEntry num)) :=
  if (0 <? List.length actualEntries)%nat then
    e <- Array_reduce
           (fun prev current => if day prev >? day current then prev else current)
           actualEntries ;;
    Ok (Some e)
  else Ok None.

(** The callback of the rule loop inside the projection (lines 88-95). *)
Definition projection_callback (d : Z) (dDow : option Z)
  (projectedDeltaSinceReal : num) (t : Transaction num) (idx : nat) : num :=
  let isInc := is_INCOME (type t) in
  if is_ONCE (frequency t) && (dayOfMonth t =? d) then
    add projectedDeltaSinceReal (if isInc then amount t else neg (amount t))
  else if is_WEEKLY (frequency t) then
    if is_SMOOTH (weeklyBehavior t) then
      add projectedDeltaSinceReal
        (if isInc then div (amount t) (num_of_Z 7)
         else neg (div (amount t) (num_of_Z 7)))
    else if dow_eq dDow (dayOfWeek_or_1 t) then
      add projectedDeltaSinceReal (if isInc then amount t else neg (amount t))
    else projectedDeltaSinceReal
  else projectedDeltaSinceReal.

(** The projected delta from the day after the latest real point up to
    [day] (lines 84-96): the value that the loop leaves when it ends, which
    it does when [latestDay] is a safe integer.  [Run.projectedDelta] is the
    loop with its counter. *)
Definition projectedDelta (year month : Z) (transactions : list (Transaction num))
  (latestDay day : Z) : num :=
  for_range (latestDay + 1) day
    (fun projectedDeltaSinceReal d =>
       let dDate := JSDate.make year month d in
       let dDow := JSDate.getDay dDate in
       forEach (projection_callback d dDow) transactions projectedDeltaSinceReal)
    (num_of_Z 0).

(** The reality trajectory of one day (lines 77-101). *)
Definition actualValue_of (year month : Z) (transactions : list (Transaction num))
  (actualEntries : list (ActualEntry num))
  (latestActual : option (ActualEntry num)) (day : Z) : option num :=
  let matchingActual := find (fun e => Types.day e =? day) actualEntries in
  match matchingActual with
  | Some m => Some (value m)
  | None =>
      match latestActual with
      | Some latest =>
          if day >? Types.day latest then
            Some (add (value latest)
                    (projectedDelta year month transactions (Types.day latest) day))
          else None
      | None => None
      end
  end.

(** The body of the day loop (lines 38-111). *)
Definition day_body (year month : Z) (transactions : list (Transaction num))
  (actualEntries : list (ActualEntry num))
  (latestActual : option (ActualEntry num)) (rates : list num)
  (st : Locals num) (day : Z) : Locals num :=
  let a := apply_rules year month transactions rates day
             (l_cumulativeIncome st) (l_cumulativeExpenses st) in
  let plannedBalance' := add (l_plannedBalance st) (acc_dailyDelta a) in
  let actualValue :=
    actualValue_of year month transactions actualEntries latestActual day in
  {| l_plannedBalance := plannedBalance';
     l_cumulativeIncome := acc_cumulativeIncome a;
     l_cumulativeExpenses := acc_cumulativeExpenses a;
     l_points :=
       l_points st ++
       [ {| date := template_of_Z day;
            dayNumber := day;
            balance := round2 plannedBalance';
            actualBalance := option_map round2 actualValue;
            dailyDelta := round2 (acc_dailyDelta a);
            cumulativeIncome := round2 (acc_cumulativeIncome a);
            cumulativeExpenses := round2 (acc_cumulativeExpenses a) |} ] |}.

Definition calculateDailySimulation (initialBalance : num) (year month : Z)
  (transactions : list (Transaction num))
  (actualEntries : list (ActualEntry num))
  : result (list (SimulationPoint num)) :=
  let daysInMonth := JSDate.getDate (JSDate.make year (month + 1) 0) in
  let st0 := {| l_plannedBalance := initialBalance;
                l_cumulativeIncome := num_of_Z 0;
                l_cumulativeExpenses := num_of_Z 0;
                l_points := [] |} in
  latestActual <- latestActual_of actualEntries ;;
  let rates := smoothRates transactions in
  let body := day_body year month transactions actualEntries latestActual rates in
  (* [day <= daysInMonth] is false for every day when the date is invalid *)
  let st := match daysInMonth with
            | Some n => for_range 1 n body st0
            | None => st0
            end in
  Ok (l_points st).

(** One weekly point out of the chunk that starts at [i] (lines 122-134). *)
Definition weekly_point (dailyPoints : list (SimulationPoint num))
  (i currentWeekIndex : nat) : result (WeeklySimulationPoint num) :=
  let chunk := slice i (i + 7) dailyPoints in
  let weekIncome :=
    fold_left (fun sum p => add sum (if gtb (dailyDelta p) (num_of_Z 0)
                                     then dailyDelta p else num_of_Z 0))
      chunk (num_of_Z 0) in
  let weekExpense :=
    fold_left (fun sum p => add sum (if ltb (dailyDelta p) (num_of_Z 0)
                                     then Math_abs (dailyDelta p) else num_of_Z 0))
      chunk (num_of_Z 0) in
  match nth_error chunk (List.length chunk - 1) with
  | None => TypeError
  | Some lastPoint =>
      Ok {| weekLabel := ("Week " ++ template_of_Z (Z.of_nat currentWeekIndex))%string;
            w_balance := balance lastPoint;
            w_actualBalance := actualBalance lastPoint;
            income := round2 weekIncome;
            expenses := round2 weekExpense |}
  end.

(** [for (let i = 0; i < dailyPoints.length; i += 7)] *)
Equations? weekly_loop (dailyPoints : list (SimulationPoint num))
  (i currentWeekIndex : nat) (weeklyPoints : list (WeeklySimulationPoint num))
  : result (list (WeeklySimulationPoint num))
  by wf (List.length dailyPoints - i)%nat Peano.lt :=
  weekly_loop dailyPoints i currentWeekIndex weeklyPoints
    with lt_dec i (List.length dailyPoints) => {
    | left _ with weekly_point dailyPoints i currentWeekIndex => {
        | Ok w => weekly_loop dailyPoints (i + 7)%nat (currentWeekIndex + 1)%nat
                    (weeklyPoints ++ [w]);
        | TypeError => TypeError };
    | right _ => Ok weeklyPoints }.
Proof. lia. Qed.

Definition aggregateToWeekly (dailyPoints : list (SimulationPoint num))
  : result (list (WeeklySimulationPoint num)) :=
  weekly_loop dailyPoints 0%nat 1%nat [].

End Engine.
End SimulationEngine.

(* ===================================================================== *)
(** ** src/unnamed/part_002: the engine without observed entries *)
(* ===================================================================== *)

Module Part002.
Section Engine.
Context {num : Type} `{Number num}.
Import Types.

(** The body of the day loop (lines 45-87); the point it pushes has no
    [actualBalance]. *)
Definition day_body (year month : Z) (transactions : list (Transaction num))
  (rates : list num) (st : Locals num) (day : Z) : Locals num :=
  let a := apply_rules year month transactions rates day
             (l_cumulativeIncome st) (l_cumulativeExpenses st) in
  let currentBalance' := add (l_plannedBalance st) (acc_dailyDelta a) in
  {| l_plannedBalance := currentBalance';
     l_cumulativeIncome := acc_cumulativeIncome a;
     l_cumulativeExpenses := acc_cumulativeExpenses a;
     l_points :=
       l_points st ++
       [ {| date := template_of_Z day;
            dayNumber := day;
            balance := round2 currentBalance';
            actualBalance := None;
            dailyDelta := round2 (acc_dailyDelta a);
            cumulativeIncome := round2 (acc_cumulativeIncome a);
            cumulativeExpenses := round2 (acc_cumulativeExpenses a) |} ] |}.

Definition calculateDailySimulation (initialBalance : num) (year month : Z)
  (transactions : list (Transaction num)) : list (SimulationPoint num) :=
  let daysInMonth := JSDate.getDate (JSDate.make year (month + 1) 0) in
  let st0 := {| l_plannedBalance := initialBalance;
                l_cumulativeIncome := num_of_Z 0;
                l_cumulativeExpenses := num_of_Z 0;
                l_points := [] |} in
  let rates := smoothRates transactions in
  let body := day_body year month transactions rates in
  let st := match daysInMonth with
            | Some n => for_range 1 n body st0
            | None => st0
            end in
  l_points st.

(** Counts how many times a specific weekday occurs in a given month
    (lines 13-22). *)
Definition countWeekdayOccurrences (year month dayOfWeek : Z) : Z :=
  let daysInMonth := JSDate.getDate (JSDate.make year (month + 1) 0) in
  match daysInMonth with
  | Some n =>
      for_range 1 n
        (fun count d =>
           if dow_eq (JSDate.getDay (JSDate.make year month d)) dayOfWeek
           then count + 1 else count)
        0
  | None => 0
  end.

(** One weekly point out of the chunk that starts at [i] (lines 98-109); it
    has no [actualBalance]. *)
Definition weekly_point (dailyPoints : list (SimulationPoint num))
  (i currentWeekIndex : nat) : result (WeeklySimulationPoint num) :=
  let chunk := slice i (i + 7) dailyPoints in
  let weekIncome :=
    fold_left (fun sum p => add sum (if gtb (dailyDelta p) (num_of_Z 0)
                                     then dailyDelta p else num_of_Z 0))
      chunk (num_of_Z 0) in
  let weekExpense :=
    fold_left (fun sum p => add sum (if ltb (dailyDelta p) (num_of_Z 0)
                                     then Math_abs (dailyDelta p) else num_of_Z 0))
      chunk (num_of_Z 0) in
  match nth_error chunk (List.length chunk - 1) with
  | None => TypeError
  | Some lastPoint =>
      Ok {| weekLabel := ("Week " ++ template_of_Z (Z.of_nat currentWeekIndex))%string;
            w_balance := balance lastPoint;
            w_actualBalance := None;
            income := round2 weekIncome;
            expenses := round2 weekExpense |}
  end.

(** [for (let i = 0; i < dailyPoints.length; i += 7)] *)
Equations? weekly_loop (dailyPoints : list (SimulationPoint num))
  (i currentWeekIndex : nat) (weeklyPoints : list (WeeklySimulationPoint num))
  : result (list (WeeklySimulationPoint num))
  by wf (List.length dailyPoints - i)%nat Peano.lt :=
  weekly_loop dailyPoints i currentWeekIndex weeklyPoints
    with lt_dec i (List.length dailyPoints) => {
    | left _ with weekly_point dailyPoints i currentWeekIndex => {
        | Ok w => weekly_loop dailyPoints (i + 7)%nat (currentWeekIndex + 1)%nat
                    (weeklyPoints ++ [w]);
        | TypeError => TypeError };
    | right _ => Ok weeklyPoints }.
Proof. lia. Qed.

Definition aggregateToWeekly (dailyPoints : list (SimulationPoint num))
  : result (list (WeeklySimulationPoint num)) :=
  weekly_loop dailyPoints 0%nat 1%nat [].

End Engine.
End Part002.

(* ===================================================================== *)
(** ** Exact arithmetic: numbers as rationals *)
(* ===================================================================== *)

Module Exact.

Definition Qc_of_Z (z : Z) : Qc := Q2Qc (inject_Z z).

(** [Math.round]: the nearest integer, a tie going up (towards +oo). *)
Definition Qc_round (x : Qc) : Qc := Qc_of_Z (Qfloor (x + Q2Qc (1 # 2))%Qc).

Definition Qc_ltb (a b : Qc) : bool := negb (Qle_bool b a).

Definition Qc_abs (x : Qc) : Qc := if Qc_ltb x (Qc_of_Z 0) then Qcopp x else x.

#[global] Instance QcNumber : Number Qc := {|
  num_of_Z := Qc_of_Z;
  add := Qcplus;
  neg := Qcopp;
  mul := Qcmult;
  div := Qcdiv;
  Math_round := Qc_round;
  Math_abs := Qc_abs;
  gtb := fun a b => Qc_ltb b a;
  ltb := Qc_ltb
|}.

(** Rounding to the nearest integer, a tie going away from zero. *)
Definition round_half_away (x : Qc) : Qc :=
  if Qc_ltb x (Qc_of_Z 0)
  then Qcopp (Qc_of_Z (Qfloor (Qcopp x + Q2Qc (1 # 2))%Qc))
  else Qc_of_Z (Qfloor (x + Q2Qc (1 # 2))%Qc).

(** Rounding to the nearest integer, a tie going to the even neighbour
    (banker's rounding). *)
Definition round_half_even (x : Qc) : Qc :=
  let f := Qfloor x in
  let r := (x - Qc_of_Z f)%Qc in
  if Qc_ltb r (Q2Qc (1 # 2)) then Qc_of_Z f
  else if Qc_ltb (Q2Qc (1 # 2)) r then Qc_of_Z (f + 1)
  else if Z.even f then Qc_of_Z f else Qc_of_Z (f + 1).

(** Rounding to 2 decimal places with a given rounding to integers. *)
Definition to_2_places (rnd : Qc -> Qc) (x : Qc) : Qc :=
  (rnd (x * Qc_of_Z 100) / Qc_of_Z 100)%Qc.

(** A decimal literal with [k] thousandths. *)
Definition milli (k : Z) : Qc := Q2Qc (k # 1000).

End Exact.

(* ===================================================================== *)
(** ** IEEE arithmetic: numbers as binary64 floating-point values *)
(* ===================================================================== *)

Module Binary64.

Local Open Scope float_scope.

Definition two52 : float := 4503599627370496.

(** The Number value of an integer literal (exact below 2^53). *)
Definition float_of_Z (z : Z) : float :=
  match z with
  | Z0 => 0
  | Zpos _ => PrimFloat.of_uint63 (Uint63.of_Z z)
  | Zneg p => - PrimFloat.of_uint63 (Uint63.of_Z (Zpos p))
  end.

(** The floor of a value below 2^52 in magnitude: adding and subtracting 2^52
    rounds the magnitude to an integer, which is then corrected downwards. *)
Definition float_floor (x : float) : float :=
  let a := PrimFloat.abs x in
  let t := (a + two52) - two52 in
  let tr := if PrimFloat.ltb a t then t - 1 else t in
  if PrimFloat.ltb x 0
  then (if PrimFloat.eqb tr a then - tr else - tr - 1)
  else tr.

(** [Math.round]: the integral value closest to [x], a tie going towards
    plus infinity; the result is -0 when [x] is -0 or lies in [-0.5, 0); a
    value of magnitude 2^52 or more, an infinity or NaN is returned as it
    is. *)
Definition float_round (x : float) : float :=
  if PrimFloat.ltb (PrimFloat.abs x) two52
  then let f := float_floor x in
       let r := if PrimFloat.leb 0.5 (x - f) then f + 1 else f in
       if PrimFloat.eqb r 0 && PrimFloat.ltb (1 / x) 0 then - 0 else r
  else x.

#[global] Instance FloatNumber : Number float := {|
  num_of_Z := float_of_Z;
  add := PrimFloat.add;
  neg := PrimFloat.opp;
  mul := PrimFloat.mul;
  div := PrimFloat.div;
  Math_round := float_round;
  Math_abs := PrimFloat.abs;
  gtb := fun a b => PrimFloat.ltb b a;
  ltb := PrimFloat.ltb
|}.

(** The decimal literal with [k] thousandths. *)
Definition milli (k : Z) : float := float_of_Z k / 1000.

(** [a === b] on numbers. *)
Definition same (a b : float) : bool := PrimFloat.eqb a b.

Definition same_opt (a : option float) (b : float) : bool :=
  match a with
  | Some x => same x b
  | None => false
  end.

(** The rules of the runs, and the points of a result. *)
Definition smooth_income_1 : Types.Transaction float :=
  Types.mkTransaction "r1" "allowance" (milli 1000) Types.INCOME 1 None
    Types.WEEKLY (Some Types.SMOOTH) "Other".

Definition once_expense_0375 : Types.Transaction float :=
  Types.mkTransaction "r2" "fee" (milli 375) Types.EXPENSE 1 None
    Types.ONCE None "Other".

Definition points {A : Type} (r : result (list A)) : list A :=
  match r with
  | Ok pts => pts
  | TypeError => []
  end.

End Binary64.

(* ===================================================================== *)
(** ** The specification's reading of the engine *)
(* ===================================================================== *)

(** The laws of arithmetic that some properties rest on.  Adding 0 changes
    nothing and 0 rounds to 0; IEEE doubles satisfy this up to the sign of
    zero. *)
Class ZeroLaws (num : Type) `{Number num} : Prop := {
  add_0_r : forall a : num, add a (num_of_Z 0) = a;
  round2_0 : round2 (num_of_Z 0) = num_of_Z 0
}.

(** Addition is moreover associative, as in exact arithmetic; floating-point
    addition is not. *)
Class NumberLaws (num : Type) `{Number num} : Prop := {
  number_zero_laws :: ZeroLaws num;
  add_assoc : forall a b c : num, add a (add b c) = add (add a b) c
}.

Section Reading.
Context {num : Type} `{Number num}.
Import Types.
Variables (year month : Z) (transactions : list (Transaction num)).

(** Whether rule [t] fires on day [d]: a Once rule on its day of the month,
    a Weekly+Smooth rule every day, any other Weekly rule when the weekday
    of [(year, month, d)] is its day of the week (Monday when it has
    none). *)
Definition fires (t : Transaction num) (d : Z) : bool :=
  match frequency t with
  | ONCE => dayOfMonth t =? d
  | WEEKLY =>
      if is_SMOOTH (weeklyBehavior t) then true
      else dow_eq (JSDate.getDay (JSDate.make year month d)) (dayOfWeek_or_1 t)
  end.

(** The unsigned magnitude of a firing: [amount / 7] for Weekly+Smooth,
    [amount] otherwise. *)
Definition magnitude (t : Transaction num) : num :=
  if is_WEEKLY (frequency t) && is_SMOOTH (weeklyBehavior t)
  then div (amount t) (num_of_Z 7)
  else amount t.

(** The signed contribution: plus for Income, minus for Expense and
    Saving. *)
Definition contribution (t : Transaction num) : num :=
  if is_INCOME (type t) then magnitude t else neg (magnitude t).

(** Adding the contributions of the rules that fire on day [d], in rule
    order, to [s]. *)
Definition delta_step (d : Z) (s : num) : num :=
  fold_left (fun s t => if fires t d then add s (contribution t) else s)
    transactions s.

(** The net movement of day [d], before rounding. *)
Definition rawDelta (d : Z) : num := delta_step d (num_of_Z 0).

Definition income_step (d : Z) (s : num) : num :=
  fold_left (fun s t => if fires t d && is_INCOME (type t)
                        then add s (magnitude t) else s)
    transactions s.

Definition expense_step (d : Z) (s : num) : num :=
  fold_left (fun s t => if fires t d && negb (is_INCOME (type t))
                        then add s (magnitude t) else s)
    transactions s.

(** The running totals through day [d], before rounding. *)
Definition rawCumulativeIncome (d : Z) : num :=
  for_range 1 d (fun s k => income_step k s) (num_of_Z 0).

Definition rawCumulativeExpenses (d : Z) : num :=
  for_range 1 d (fun s k => expense_step k s) (num_of_Z 0).

(** The planned balance at the end of day [d], before rounding. *)
Definition rawBalance (initialBalance : num) (d : Z) : num :=
  for_range 1 d (fun b k => add b (rawDelta k)) initialBalance.

(** The sum of the daily deltas of the days [k] with [l < k <= d]. *)
Definition sum_deltas (l d : Z) : num :=
  for_range (l + 1) d (fun s k => add s (rawDelta k)) (num_of_Z 0).

(** The contributions of the days [k] with [l < k <= d], accumulated one
    firing at a time. *)
Definition running_delta (l d : Z) : num :=
  for_range (l + 1) d (fun s k => delta_step k s) (num_of_Z 0).

(** The first entry, in list order, observed on day [d]. *)
Definition first_on (actualEntries : list (ActualEntry num)) (d : Z)
  : option (ActualEntry num) :=
  find (fun e => day e =? d) actualEntries.

(** The entry with the greatest day; among several such, the last one in
    list order. *)
Fixpoint latest_entry (actualEntries : list (ActualEntry num))
  : option (ActualEntry num) :=
  match actualEntries with
  | [] => None
  | e :: rest =>
      match latest_entry rest with
      | Some e' => if day e' >=? day e then Some e' else Some e
      | None => Some e
      end
  end.

(** The value projected from entry [l] to day [d], before rounding: the
    entry's value plus the contributions of the days after it. *)
Definition projected_from (l : ActualEntry num) (d : Z) : num :=
  add (value l) (running_delta (day l) d).

(** The reality value of day [d] before rounding, by the policy of the
    specification. *)
Definition rawActual (actualEntries : list (ActualEntry num)) (d : Z)
  : option num :=
  match first_on actualEntries d with
  | Some e => Some (value e)
  | None =>
      match latest_entry actualEntries with
      | Some l => if day l <? d then Some (projected_from l d) else None
      | None => None
      end
  end.

(** The point of day [d]. *)
Definition point_of (initialBalance : num)
  (actualEntries : list (ActualEntry num)) (d : Z) : SimulationPoint num :=
  {| date := template_of_Z d;
     dayNumber := d;
     balance := round2 (rawBalance initialBalance d);
     actualBalance := option_map round2 (rawActual actualEntries d);
     dailyDelta := round2 (rawDelta d);
     Types.cumulativeIncome := round2 (rawCumulativeIncome d);
     Types.cumulativeExpenses := round2 (rawCumulativeExpenses d) |}.

End Reading.

(** Weekly aggregation: the chunk of week [k] (0-based) and its sums. *)
Section WeeklyReading.
Context {num : Type} `{Number num}.
Import Types.

Definition chunk_at (dailyPoints : list (SimulationPoint num)) (k : nat)
  : list (SimulationPoint num) :=
  firstn 7 (skipn (7 * k) dailyPoints).

(** The sum of [dailyDelta] over the days where it is positive. *)
Definition sum_positive (chunk : list (SimulationPoint num)) : num :=
  fold_left add
    (map dailyDelta (filter (fun p => gtb (dailyDelta p) (num_of_Z 0)) chunk))
    (num_of_Z 0).

(** The sum of [abs dailyDelta] over the days where it is negative. *)
Definition sum_negative_abs (chunk : list (SimulationPoint num)) : num :=
  fold_left add
    (map (fun p => Math_abs (dailyDelta p))
       (filter (fun p => ltb (dailyDelta p) (num_of_Z 0)) chunk))
    (num_of_Z 0).

(** Number of weekly points for [n] daily points: ceil (n / 7). *)
Definition week_count (n : nat) : nat := ((n + 6) / 7)%nat.

(** The weekly point of week [k] (0-based), given the last point of its
    chunk. *)
Definition week_reading (dailyPoints : list (SimulationPoint num)) (k : nat)
  (lastPoint : SimulationPoint num) : WeeklySimulationPoint num :=
  {| weekLabel := ("Week " ++ template_of_Z (Z.of_nat (k + 1)))%string;
     w_balance := balance lastPoint;
     w_actualBalance := actualBalance lastPoint;
     income := round2 (sum_positive (chunk_at dailyPoints k));
     expenses := round2 (sum_negative_abs (chunk_at dailyPoints k)) |}.

(** The index in the month of the last point of week [k]. *)
Definition last_index (n k : nat) : nat := Nat.min (7 * k + 6) (n - 1).

(** The weekly points still to come when the loop is at week [k]. *)
Definition weeks_from (dailyPoints : list (SimulationPoint num)) (k c : nat)
  : list (WeeklySimulationPoint num) :=
  flat_map
    (fun j => match nth_error dailyPoints (last_index (List.length dailyPoints) j) with
              | Some lastPoint => [week_reading dailyPoints j lastPoint]
              | None => []
              end)
    (seq k c).

End WeeklyReading.

(* ===================================================================== *)
(** ** The projection loop, counter and all *)
(* ===================================================================== *)

(** The day of an observed entry is a JavaScript number, and the projection
    loop [for (let d = latestActual.day + 1; d <= day; d++)] counts in
    doubles: [latestActual.day + 1] and [d++] are rounded to the nearest
    double.  Integers up to 2^53 in magnitude are doubles and adding 1 is
    exact; far below [-2^53] adding 1 rounds back to the same double and the
    loop never ends.  [for_range], which [SimulationEngine.projectedDelta]
    uses, is what the loop computes when it ends. *)
Module Counter.

Definition two53 : Z := 2 ^ 53.

(** [Number.isSafeInteger(z)] for an integer [z]. *)
Definition isSafeInteger (z : Z) : bool := (- two53 <? z) && (z <? two53).

(** The double nearest to the integer [z]: the integers with a 53-bit
    significand are doubles, the others are rounded to the nearest such, a
    tie going to the even significand.  (Magnitudes that would round to
    Infinity are not reached by adding 1 to a double.) *)
Definition to_double (z : Z) : Z :=
  let a := Z.abs z in
  if a <? two53 then z
  else
    let ulp := 2 ^ (Z.log2 a - 52) in
    let q := a / ulp in
    let r := a mod ulp in
    let up := if 2 * r <? ulp then false
              else if ulp <? 2 * r then true
              else Z.odd q in
    Z.sgn z * ((if up then q + 1 else q) * ulp).

(** [d + 1], and the new value of [d] after [d++], for a double [d] of
    integral value. *)
Definition succ (d : Z) : Z := to_double (d + 1).

End Counter.

(** Every observed day is a safe integer; the days that the application
    logs are day numbers of the month. *)
Definition safe_days {num : Type} (actualEntries : list (Types.ActualEntry num)) : Prop :=
  forallb (fun e => Counter.isSafeInteger (Types.day e)) actualEntries = true.

(** simulationEngine.ts with the projection loop run step by step:
    [fuel] bounds the number of iterations of one run of the loop, and
    [None] says that the loop was still running when the bound was
    reached. *)
Module Run.
Section Engine.
Context {num : Type} `{Number num}.
Import Types.

(** The loop of lines 85-96 with the counter at [d]. *)
Fixpoint projection_loop (fuel : nat) (year month : Z)
  (transactions : list (Transaction num)) (day d : Z)
  (projectedDeltaSinceReal : num) {struct fuel} : option num :=
  if d <=? day then
    match fuel with
    | O => None
    | S fuel' =>
        let dDate := JSDate.make year month d in
        let dDow := JSDate.getDay dDate in
        projection_loop fuel' year month transactions day (Counter.succ d)
          (forEach (SimulationEngine.projection_callback d dDow) transactions
             projectedDeltaSinceReal)
    end
  else Some projectedDeltaSinceReal.

(** Lines 84-96. *)
Definition projectedDelta (fuel : nat) (year month : Z)
  (transactions : list (Transaction num)) (latestDay day : Z) : option num :=
  projection_loop fuel year month transactions day (Counter.succ latestDay)
    (num_of_Z 0).

(** The reality trajectory of one day (lines 77-101); the inner option is
    [actualValue], [undefined] or a number. *)
Definition actualValue_of (fuel : nat) (year month : Z)
  (transactions : list (Transaction num))
  (actualEntries : list (ActualEntry num))
  (latestActual : option (ActualEntry num)) (day : Z) : option (option num) :=
  let matchingActual := find (fun e => Types.day e =? day) actualEntries in
  match matchingActual with
  | Some m => Some (Some (value m))
  | None =>
      match latestActual with
      | Some latest =>
          if day >? Types.day latest then
            match projectedDelta fuel year month transactions (Types.day latest) day with
            | Some projectedDeltaSinceReal =>
                Some (Some (add (value latest) projectedDeltaSinceReal))
            | None => None
            end
          else Some None
      | None => Some None
      end
  end.

(** The body of the day loop (lines 38-111). *)
Definition day_body (fuel : nat) (year month : Z)
  (transactions : list (Transaction num))
  (actualEntries : list (ActualEntry num))
  (latestActual : option (ActualEntry num)) (rates : list num)
  (running : option (Locals num)) (day : Z) : option (Locals num) :=
  match running with
  | None => None
  | Some st =>
      let a := apply_rules year month transactions rates day
                 (l_cumulativeIncome st) (l_cumulativeExpenses st) in
      let plannedBalance' := add (l_plannedBalance st) (acc_dailyDelta a) in
      match actualValue_of fuel year month transactions actualEntries latestActual day with
      | None => None
      | Some actualValue =>
          Some {| l_plannedBalance := plannedBalance';
                  l_cumulativeIncome := acc_cumulativeIncome a;
                  l_cumulativeExpenses := acc_cumulativeExpenses a;
                  l_points :=
                    l_points st ++
                    [ {| date := template_of_Z day;
                         dayNumber := day;
                         balance := round2 plannedBalance';
                         actualBalance := option_map round2 actualValue;
                         dailyDelta := round2 (acc_dailyDelta a);
                         cumulativeIncome := round2 (acc_cumulativeIncome a);
                         cumulativeExpenses := round2 (acc_cumulativeExpenses a) |} ] |}
      end
  end.

Definition calculateDailySimulation (fuel : nat) (initialBalance : num)
  (year month : Z) (transactions : list (Transaction num))
  (actualEntries : list (ActualEntry num))
  : option (result (list (SimulationPoint num))) :=
  let daysInMonth := JSDate.getDate (JSDate.make year (month + 1) 0) in
  let st0 := {| l_plannedBalance := initialBalance;
                l_cumulativeIncome := num_of_Z 0;
                l_cumulativeExpenses := num_of_Z 0;
                l_points := [] |} in
  match SimulationEngine.latestActual_of actualEntries with
  | TypeError => Some TypeError
  | Ok latestActual =>
      let rates := smoothRates transactions in
      let body := day_body fuel year month transactions actualEntries latestActual rates in
      let running := match daysInMonth with
                     | Some n => for_range 1 n body (Some st0)
                     | None => Some st0
                     end in
      option_map (fun st => Ok (l_points st)) running
  end.

End Engine.
End Run.

Section Returning.
Context {num : Type} `{Number num}.
Import Types.

(** The call returns [r] (or throws, when [r] is [TypeError]): every run
    that is given enough steps ends with [r]. *)
Definition returns (initialBalance : num) (year month : Z)
  (transactions : list (Transaction num)) (actualEntries : list (ActualEntry num))
  (r : result (list (SimulationPoint num))) : Prop :=
  exists fuel, forall fuel', (fuel <= fuel')%nat ->
    Run.calculateDailySimulation fuel' initialBalance year month transactions
      actualEntries = Some r.

(** The call does not return: no number of steps is enough. *)
Definition never_returns (initialBalance : num) (year month : Z)
  (transactions : list (Transaction num)) (actualEntries : list (ActualEntry num))
  : Prop :=
  forall fuel,
    Run.calculateDailySimulation fuel initialBalance year month transactions
      actualEntries = None.

End Returning.

(** The sentences of the specification that read a stored field as the
    unrounded quantity, as they are written. *)
Section UnroundedReadings.
Context {num : Type} `{Number num}.
Import Types Calendar.

(** "With no rules, every point's balance == initialBalance and
    dailyDelta == 0." *)
Definition zero_rule_identity_unrounded : Prop :=
  forall (ib : num) year month (actualEntries : list (ActualEntry num)),
    valid_year_month year month ->
    exists pts,
      SimulationEngine.calculateDailySimulation ib year month [] actualEntries = Ok pts
      /\ Forall (fun p => balance p = ib /\ dailyDelta p = num_of_Z 0) pts.

(** "The dailyDelta stored in the d-th point equals the sum over all rules
    of their signed contribution on day d." *)
Definition daily_delta_unrounded : Prop :=
  forall (ib : num) year month transactions (actualEntries : list (ActualEntry num)) d,
    valid_year_month year month -> 1 <= d <= days_in_month year month ->
    exists pts p,
      SimulationEngine.calculateDailySimulation ib year month transactions actualEntries
      = Ok pts
      /\ nth_error pts (Z.to_nat (d - 1)) = Some p
      /\ dailyDelta p = rawDelta year month transactions d.

(** The four planned fields of every point are the images of the unrounded
    quantities under [rnd]. *)
Definition stored_with (rnd : num -> num) : Prop :=
  forall (ib : num) year month transactions (actualEntries : list (ActualEntry num)) d,
    valid_year_month year month -> 1 <= d <= days_in_month year month ->
    exists pts p,
      SimulationEngine.calculateDailySimulation ib year month transactions actualEntries
      = Ok pts
      /\ nth_error pts (Z.to_nat (d - 1)) = Some p
      /\ balance p = rnd (rawBalance year month transactions ib d)
      /\ dailyDelta p = rnd (rawDelta year month transactions d)
      /\ Types.cumulativeIncome p = rnd (rawCumulativeIncome year month transactions d)
      /\ Types.cumulativeExpenses p = rnd (rawCumulativeExpenses year month transactions d).

(** "If an observed entry exists for d, actualBalance(d) is its value;
    else if d > latest.day, latest.value plus the sum of the daily deltas of
    the days k in (latest.day, d]; else absent; absent everywhere without
    entries." *)
Definition reality_policy_unrounded : Prop :=
  forall (ib : num) year month transactions (actualEntries : list (ActualEntry num)) d,
    valid_year_month year month -> 1 <= d <= days_in_month year month ->
    exists pts p,
      SimulationEngine.calculateDailySimulation ib year month transactions actualEntries
      = Ok pts
      /\ nth_error pts (Z.to_nat (d - 1)) = Some p
      /\ (forall e, first_on actualEntries d = Some e ->
                    actualBalance p = Some (value e))
      /\ (first_on actualEntries d = None ->
          forall l, latest_entry actualEntries = Some l ->
            (day l < d ->
             actualBalance p
             = Some (add (value l) (sum_deltas year month transactions (day l) d)))
            /\ (d < day l -> actualBalance p = None))
      /\ (actualEntries = [] -> actualBalance p = None).

(** "The actualBalance reported for day d is the value of the first entry in
    list order with day == d; the anchor of the projection is the last entry
    in list order among those with the maximum day." *)
Definition duplicate_resolution_unrounded : Prop :=
  (forall (ib : num) year month transactions (pre post : list (ActualEntry num)) e d,
      valid_year_month year month -> 1 <= d <= days_in_month year month ->
      day e = d -> (forall x, In x pre -> day x <> d) ->
      (exists x, In x post /\ day x = d) ->
      exists pts p,
        SimulationEngine.calculateDailySimulation ib year month transactions
          (pre ++ e :: post) = Ok pts
        /\ nth_error pts (Z.to_nat (d - 1)) = Some p
        /\ actualBalance p = Some (value e))
  /\ (forall (ib : num) year month transactions (pre post : list (ActualEntry num)) l d,
      valid_year_month year month -> 1 <= d <= days_in_month year month ->
      (forall x, In x pre -> day x <= day l) ->
      (forall x, In x post -> day x < day l) ->
      day l < d ->
      exists pts p,
        SimulationEngine.calculateDailySimulation ib year month transactions
          (pre ++ l :: post) = Ok pts
        /\ nth_error pts (Z.to_nat (d - 1)) = Some p
        /\ actualBalance p = Some (projected_from year month transactions l d)).

(** "ceil(n/7) weekly points; balance and actualBalance of the chunk's last
    point; income the sum of the positive daily deltas of the chunk,
    expenses the sum of the absolute values of the negative ones." *)
Definition weekly_unrounded : Prop :=
  forall dailyPoints : list (SimulationPoint num),
    dailyPoints <> [] ->
    exists ws,
      SimulationEngine.aggregateToWeekly dailyPoints = Ok ws
      /\ List.length ws = week_count (List.length dailyPoints)
      /\ (forall k, (k < week_count (List.length dailyPoints))%nat ->
            exists w lastPoint,
              nth_error ws k = Some w
              /\ nth_error dailyPoints (last_index (List.length dailyPoints) k)
                 = Some lastPoint
              /\ weekLabel w = ("Week " ++ template_of_Z (Z.of_nat (k + 1)))%string
              /\ w_balance w = balance lastPoint
              /\ w_actualBalance w = actualBalance lastPoint
              /\ income w = sum_positive (chunk_at dailyPoints k)
              /\ expenses w = sum_negative_abs (chunk_at dailyPoints k)).

End UnroundedReadings.

(** "On the anchor day actualBalance = latest.value exactly; for every
    d > latest.day, actualBalance(d) - actualBalance(d-1) == dailyDelta(d)",
    the daily delta being the stored one or the unrounded one. *)
Definition anchor_contract_unrounded : Prop :=
  forall (ib : Qc) year month transactions
         (actualEntries : list (Types.ActualEntry Qc)) l,
    Calendar.valid_year_month year month ->
    latest_entry actualEntries = Some l ->
    1 <= Types.day l <= Calendar.days_in_month year month ->
    exists pts,
      SimulationEngine.calculateDailySimulation ib year month transactions actualEntries
      = Ok pts
      /\ (exists p,
            nth_error pts (Z.to_nat (Types.day l - 1)) = Some p
            /\ Types.actualBalance p = Some (Types.value l))
      /\ (forall d, Types.day l < d <= Calendar.days_in_month year month ->
            exists p q a b,
              nth_error pts (Z.to_nat (d - 1)) = Some p
              /\ nth_error pts (Z.to_nat (d - 1 - 1)) = Some q
              /\ Types.actualBalance p = Some a
              /\ Types.actualBalance q = Some b
              /\ ((a - b)%Qc = Types.dailyDelta p
                  \/ (a - b)%Qc = rawDelta year month transactions d)).

(** "Rounded to 2 decimal places using either round-half-away-from-zero or
    banker's rounding, applied consistently for all values." *)
Definition rounds_half_away_or_half_even : Prop :=
  stored_with (Exact.to_2_places Exact.round_half_away)
  \/ stored_with (Exact.to_2_places Exact.round_half_even).

(** Rules and entries of the examples. *)
Module Examples.
Import Types Exact.

Definition smooth_income_1 : Transaction Qc :=
  mkTransaction "r1" "allowance" (milli 1000) INCOME 1 None WEEKLY (Some SMOOTH) "Other".

Definition once_expense_0375 : Transaction Qc :=
  mkTransaction "r2" "fee" (milli 375) EXPENSE 1 None ONCE None "Other".

Definition lump_income_50 : Transaction Qc :=
  mkTransaction "r3" "pay" (milli 50000) INCOME 1 None WEEKLY (Some LUMP_SUM) "Work".

Definition entry_10_1000 : ActualEntry Qc := mkActualEntry 10 (milli 1000000).

(** A daily point with a delta of 0.125. *)
Definition point_0125 : SimulationPoint Qc :=
  mkSimulationPoint "1" 1 (milli 125) None (milli 125) (milli 125) (milli 0).

Definition entry_1_0125 : ActualEntry Qc := mkActualEntry 1 (milli 125).

Definition entry_1_5 : ActualEntry Qc := mkActualEntry 1 (milli 5000).

End Examples.

(** The rule with Monday written in where it has no day of the week. *)
Definition monday_by_default {num : Type} (t : Types.Transaction num)
  : Types.Transaction num :=
  match Types.dayOfWeek t with
  | Some _ => t
  | None =>
      Types.mkTransaction (Types.id t) (Types.name t) (Types.amount t) (Types.type t)
        (Types.dayOfMonth t) (Some 1) (Types.frequency t) (Types.weeklyBehavior t)
        (Types.category t)
  end.

(** The planned fields of a point: everything but [actualBalance]. *)
Definition planned_fields {num : Type} (p : Types.SimulationPoint num)
  : string * Z * num * num * num * num :=
  (Types.date p, Types.dayNumber p, Types.balance p, Types.dailyDelta p,
   Types.cumulativeIncome p, Types.cumulativeExpenses p).

Section StepAgreement.
Context {num : Type} `{Number num}.
Import Types.

(** Two rule lists that fire alike on the days up to [n] give the same
    steps on these days. *)
Definition same_steps (year year' month : Z) (l l' : list (Transaction num)) (n : Z)
  : Prop :=
  forall d s, d <= n ->
    delta_step year month l d s = delta_step year' month l' d s
    /\ income_step year month l d s = income_step year' month l' d s
    /\ expense_step year month l d s = expense_step year' month l' d s.

End StepAgreement.

(** A whole number of cents, in exact arithmetic. *)
Definition is_cents (x : Qc) : Prop :=
  exists k : Z, x = (Exact.Qc_of_Z k / Exact.Qc_of_Z 100)%Qc.

(** The weekly point with its [actualBalance] left out. *)
Definition without_actualBalance {num : Type} (w : Types.WeeklySimulationPoint num)
  : Types.WeeklySimulationPoint num :=
  Types.mkWeeklySimulationPoint (Types.weekLabel w) (Types.w_balance w) None
    (Types.income w) (Types.expenses w).

(** The number of days [d] in 1..n whose weekday, [offset + d] modulo 7, is
    [w]. *)
Definition count_from_offset (offset n w : Z) : Z :=
  for_range 1 n (fun count d => if (offset + d) mod 7 =? w then count + 1 else count) 0.

(** The days of 1..n on which rule [t] fires. *)
Definition firing_days {num : Type} `{Number num} (year month : Z)
  (t : Types.Transaction num) (n : Z) : list Z :=
  filter (fires year month t) (range 1 n).

(* ===================================================================== *)
(** ** JavaScript objects used as maps *)
(* ===================================================================== *)

(** A [Record<string, V>] as the application uses it: the own properties,
    each key once, in insertion order.  The application reads such an object
    by key and through [Object.keys(...).sort()] only, so the place of a key
    among the others is never observed where a sum in exact arithmetic or a
    lookup is taken.  Its keys are month keys ([`${year}_${month}`]) or
    category labels of the form (["Housing"], ["Saving: Food"], ...): ASCII
    strings, none of which is an array index or names a property that an
    object inherits.  For a key that does name one ([constructor],
    [__proto__], ...) the object reads the inherited value, which this model
    does not hold; the properties about category labels assume keys that
    name none ([plain_key]). *)
Module JSObject.

Definition t (V : Type) : Type := list (string * V).

(** [o[k]]; [None] is [undefined]. *)
Fixpoint get {V : Type} (k : string) (o : t V) : option V :=
  match o with
  | [] => None
  | (k', v) :: o' => if String.eqb k' k then Some v else get k o'
  end.

(** [{ ...o, [k]: v }], and [o[k] = v] on a fresh copy of [o]: a key that is
    there keeps its place, a new key goes last. *)
Fixpoint set {V : Type} (k : string) (v : V) (o : t V) : t V :=
  match o with
  | [] => [(k, v)]
  | (k', v') :: o' =>
      if String.eqb k' k then (k', v) :: o' else (k', v') :: set k v o'
  end.

(** [delete o[k]] on a fresh copy of [o]. *)
Definition delete {V : Type} (k : string) (o : t V) : t V :=
  filter (fun kv => negb (String.eqb (fst kv) k)) o.

(** [Object.keys(o)] *)
Definition keys {V : Type} (o : t V) : list string := map fst o.

(** Every key occurs once, as in any object. *)
Definition well_formed {V : Type} (o : t V) : Prop := NoDup (keys o).

End JSObject.

(* ===================================================================== *)
(** ** Array and value helpers of the application *)
(* ===================================================================== *)

(** [x || []] for an array or [undefined]; an array is always truthy. *)
Definition or_empty {A : Type} (x : option (list A)) : list A :=
  match x with
  | Some l => l
  | None => []
  end.

(** [array.findIndex(f)]; [None] is -1. *)
Fixpoint findIndex {A : Type} (f : A -> bool) (l : list A) : option nat :=
  match l with
  | [] => None
  | x :: l' => if f x then Some 0%nat else option_map S (findIndex f l')
  end.

(** [array[index] = x] for an index inside the array, the only case the
    application reaches (the index comes from [findIndex]). *)
Fixpoint assign_at {A : Type} (index : nat) (x : A) (l : list A) : list A :=
  match l, index with
  | [], _ => []
  | _ :: l', O => x :: l'
  | y :: l', S i => y :: assign_at i x l'
  end.

(** [array.pop()] read as a value: the last element, [undefined] for the
    empty array. *)
Definition pop {A : Type} (l : list A) : option A :=
  nth_error l (List.length l - 1).

(** [array.sort()] on strings: ascending by code units.  The order is total
    and antisymmetric, so the result does not depend on the sorting
    algorithm; insertion is the one written here. *)
Fixpoint sort_insert (k : string) (l : list string) : list string :=
  match l with
  | [] => [k]
  | x :: l' => if String.leb k x then k :: l else x :: sort_insert k l'
  end.

Definition Array_sort (l : list string) : list string :=
  fold_right sort_insert [] l.

(** The truth value of a number: false for 0, -0 and NaN, which are the
    numbers neither above nor below 0. *)
Definition ToBoolean {num : Type} `{Number num} (x : num) : bool :=
  gtb x (num_of_Z 0) || ltb x (num_of_Z 0).

(** [x || 0] for a number or [undefined]. *)
Definition or_0 {num : Type} `{Number num} (x : option num) : num :=
  match x with
  | Some v => if ToBoolean v then v else num_of_Z 0
  | None => num_of_Z 0
  end.

(** [a - b], which for numbers is [a + (-b)]. *)
Definition subtract {num : Type} `{Number num} (a b : num) : num := add a (neg b).

Definition is_EXPENSE (k : Types.TransactionType) : bool :=
  match k with Types.EXPENSE => true | _ => false end.
Definition is_SAVING (k : Types.TransactionType) : bool :=
  match k with Types.SAVING => true | _ => false end.

(** [Object.entries(o)], and [Object.values(o)] as its second components. *)
Definition Object_entries {V : Type} (o : JSObject.t V) : list (string * V) := o.

(* ===================================================================== *)
(** ** src/unnamed/part_000: the application state and its handlers *)
(* ===================================================================== *)

Module App.

(** The [action] argument of [propagateChanges]. *)
Inductive Action : Set := ACTION_add | ACTION_edit | ACTION_delete.

Definition is_delete (a : Action) : bool :=
  match a with ACTION_delete => true | _ => false end.

(** [`${selectedYear}_${selectedMonth}`] *)
Definition monthKey (selectedYear selectedMonth : Z) : string :=
  (template_of_Z selectedYear ++ "_" ++ template_of_Z selectedMonth)%string.

(** [selectedYear === currentYear && selectedMonth === currentMonthIdx] *)
Definition isCurrentMonth (currentYear currentMonthIdx selectedYear selectedMonth : Z)
  : bool :=
  (selectedYear =? currentYear) && (selectedMonth =? currentMonthIdx).

Section App.
Context {num : Type} `{Number num}.
Import Types.

(** The body of the inner loop of [propagateChanges] (lines 90-102) for the
    month [(y, m)].  No array is stored under two keys, so the assignment
    [currentList[index] = ...] shows under this key only; it also changes
    the array that the previous state holds, which is not read again. *)
Definition propagate_month (action : Action) (tx : Transaction num)
  (nextMap : JSObject.t (list (Transaction num))) (y m : Z)
  : JSObject.t (list (Transaction num)) :=
  let key := monthKey y m in
  let currentList := or_empty (JSObject.get key nextMap) in
  if is_delete action then
    JSObject.set key
      (filter (fun item => negb (String.eqb (id item) (id tx))) currentList)
      nextMap
  else
    match findIndex (fun item => String.eqb (id item) (id tx)) currentList with
    | Some index => JSObject.set key (assign_at index tx currentList) nextMap
    | None => JSObject.set key (currentList ++ [tx]) nextMap
    end.

(** The state update of [propagateChanges] (lines 81-108). *)
Definition propagateChanges (currentYear selectedYear selectedMonth : Z)
  (action : Action) (tx : Transaction num)
  (prev : JSObject.t (list (Transaction num)))
  : JSObject.t (list (Transaction num)) :=
  let endYear := currentYear + 1 in
  for_range selectedYear endYear
    (fun nextMap y =>
       let startM := if y =? selectedYear then selectedMonth else 0 in
       for_range startM 11
         (fun nextMap m => propagate_month action tx nextMap y m) nextMap)
    prev.

(** [{ id } as Transaction]: the other fields are [undefined] in the
    source, and the delete branch reads none of them. *)
Definition only_id (i : string) : Transaction num :=
  {| id := i; name := ""; amount := num_of_Z 0; type := EXPENSE;
     dayOfMonth := 0; dayOfWeek := None; frequency := ONCE;
     weeklyBehavior := None; category := "" |}.

(** [handleDelete] (lines 171-176); [confirmed] is the answer to
    [confirm(...)]. *)
Definition handleDelete (currentYear selectedYear selectedMonth : Z)
  (confirmed : bool) (i : string)
  (prev : JSObject.t (list (Transaction num)))
  : JSObject.t (list (Transaction num)) :=
  if confirmed
  then propagateChanges currentYear selectedYear selectedMonth ACTION_delete (only_id i) prev
  else prev.

(** The [onSubmit] callback of the form (lines 441-444); [editing] says
    whether [editingTransaction] is set. *)
Definition onSubmit (currentYear selectedYear selectedMonth : Z)
  (editing : bool) (t : Transaction num)
  (prev : JSObject.t (list (Transaction num)))
  : JSObject.t (list (Transaction num)) :=
  propagateChanges currentYear selectedYear selectedMonth
    (if editing then ACTION_edit else ACTION_add) t prev.

(** [transactionsMap[monthKey] || []] (line 112) *)
Definition transactions (transactionsMap : JSObject.t (list (Transaction num)))
  (key : string) : list (Transaction num) :=
  or_empty (JSObject.get key transactionsMap).

(** [actualEntries[monthKey] || []] (line 61) *)
Definition currentActuals (actualEntries : JSObject.t (list (ActualEntry num)))
  (key : string) : list (ActualEntry num) :=
  or_empty (JSObject.get key actualEntries).

(** The greatest key of [transactionsMap] below [key] in string order
    (lines 118-119); [None] is [undefined]. *)
Definition prevKey (transactionsMap : JSObject.t (list (Transaction num)))
  (key : string) : option string :=
  let allKeys := Array_sort (JSObject.keys transactionsMap) in
  pop (filter (fun k => String.ltb k key) allKeys).

(** [initialBalance] (lines 114-126).  The empty string is the one falsy
    key. *)
Definition initialBalance (initialBalancesMap : JSObject.t num)
  (transactionsMap : JSObject.t (list (Transaction num))) (key : string) : num :=
  match JSObject.get key initialBalancesMap with
  | Some b => b
  | None =>
      match prevKey transactionsMap key with
      | Some k =>
          if String.eqb k "" then num_of_Z 0
          else or_0 (JSObject.get k initialBalancesMap)
      | None => num_of_Z 0
      end
  end.

(** The [onChange] handler of the balance input (line 263); [val] is the
    result of [parseFloat], [None] standing for NaN. *)
Definition setInitialBalance (key : string) (val : option num)
  (p : JSObject.t num) : JSObject.t num :=
  JSObject.set key (or_0 val) p.

(** The state update of [handleUpdateActual] (lines 150-158); [val] is the
    result of [parseFloat], [None] standing for NaN, [currentMonth] is the
    value of [isCurrentMonth], [key] that of [monthKey] and [todayDate] that
    of [today.getDate()]. *)
Definition handleUpdateActual (currentMonth : bool) (todayDate : Z) (key : string)
  (val : option num) (prev : JSObject.t (list (ActualEntry num)))
  : JSObject.t (list (ActualEntry num)) :=
  match val with
  | None => prev
  | Some v =>
      if negb currentMonth then prev
      else
        let existing := or_empty (JSObject.get key prev) in
        let updated :=
          filter (fun e => negb (day e =? todayDate)) existing
          ++ [ {| day := todayDate; value := v |} ] in
        JSObject.set key updated prev
  end.

(** The state update of [handleClearActuals] (lines 160-169). *)
Definition handleClearActuals (confirmed : bool) (key : string)
  (prev : JSObject.t (list (ActualEntry num)))
  : JSObject.t (list (ActualEntry num)) :=
  if confirmed then JSObject.delete key prev else prev.

(** [simulationData] (line 128) *)
Definition simulationData (initialBalancesMap : JSObject.t num)
  (transactionsMap : JSObject.t (list (Transaction num)))
  (actualEntries : JSObject.t (list (ActualEntry num)))
  (selectedYear selectedMonth : Z) : result (list (SimulationPoint num)) :=
  let key := monthKey selectedYear selectedMonth in
  SimulationEngine.calculateDailySimulation
    (initialBalance initialBalancesMap transactionsMap key)
    selectedYear selectedMonth
    (transactions transactionsMap key)
    (currentActuals actualEntries key).

(** [transactions.filter(keep).reduce((sum, t) => sum + t.amount, 0)] *)
Definition sum_amounts (keep : Transaction num -> bool)
  (transactions : list (Transaction num)) : num :=
  fold_left (fun sum t => add sum (amount t)) (filter keep transactions) (num_of_Z 0).

(** The object that [totals] returns. *)
Record Totals : Type := mkTotals {
  plannedEndBalance : num;
  realityEndBalance : num;
  wealthGrowth : num;
  totalIncome : num;
  surplus : num;
  dailyFlex : num;
  daysInMonth : nat
}.

(** [totals] (lines 131-148).  [simulationData[simulationData.length - 1]]
    is [undefined] for the empty array. *)
Definition totals (simulationData : list (SimulationPoint num))
  (transactions : list (Transaction num)) : Totals :=
  let lastPoint := nth_error simulationData (List.length simulationData - 1) in
  let totalIncome := sum_amounts (fun t => is_INCOME (type t)) transactions in
  let totalExpenses := sum_amounts (fun t => is_EXPENSE (type t)) transactions in
  let totalSavings := sum_amounts (fun t => is_SAVING (type t)) transactions in
  let wealthGrowth := subtract totalIncome totalExpenses in
  let surplus := subtract (subtract totalIncome totalExpenses) totalSavings in
  {| plannedEndBalance := or_0 (option_map balance lastPoint);
     realityEndBalance :=
       match lastPoint with
       | Some p =>
           match actualBalance p with
           | Some a => a
           | None => balance p
           end
       | None => num_of_Z 0
       end;
     wealthGrowth := wealthGrowth;
     totalIncome := totalIncome;
     surplus := surplus;
     dailyFlex :=
       div surplus
         (num_of_Z (Z.of_nat (if Nat.eqb (List.length simulationData) 0
                              then 30 else List.length simulationData)));
     daysInMonth := List.length simulationData |}.

(** [categoryAnalysis] (lines 182-190): the pairs of [data] and [total]. *)
Definition categoryAnalysis (transactions : list (Transaction num))
  : list (string * num) * num :=
  let split :=
    forEach
      (fun (split : JSObject.t num) t (_ : nat) =>
         if is_INCOME (type t) then split
         else JSObject.set (category t)
                (add (or_0 (JSObject.get (category t) split)) (amount t)) split)
      transactions [] in
  let data := Object_entries split in
  (data, fold_left (fun a b => add a (snd b)) data (num_of_Z 0)).

End App.
End App.

(* ===================================================================== *)
(** ** src/App.tsx: the older application, one rule list for all months *)
(* ===================================================================== *)

Module OldApp.
Section OldApp.
Context {num : Type} `{Number num}.
Import Types.

(** [simulationData] (lines 53-55), with the engine of part_002. *)
Definition simulationData (initialBalance : num) (selectedYear selectedMonth : Z)
  (transactions : list (Transaction num)) : list (SimulationPoint num) :=
  Part002.calculateDailySimulation initialBalance selectedYear selectedMonth transactions.

(** [totals] (lines 61-67): [endBalance], [totalIncome], [totalExpense]. *)
Definition totals (simulationData : list (SimulationPoint num)) : num * num * num :=
  let lastPoint := nth_error simulationData (List.length simulationData - 1) in
  let endBalance := or_0 (option_map balance lastPoint) in
  let totalIncome := or_0 (option_map cumulativeIncome lastPoint) in
  let totalExpense := or_0 (option_map cumulativeExpenses lastPoint) in
  (endBalance, totalIncome, totalExpense).

(** [t.dayOfWeek ?? 0] *)
Definition dayOfWeek_or_0 (t : Transaction num) : Z :=
  match dayOfWeek t with
  | Some w => w
  | None => 0
  end.

(** [actualMonthlyAmount] of a rule (lines 76-86). *)
Definition actualMonthlyAmount (selectedYear selectedMonth : Z) (daysInMonth : nat)
  (t : Transaction num) : num :=
  match frequency t with
  | ONCE => amount t
  | WEEKLY =>
      if is_SMOOTH (weeklyBehavior t)
      then mul (div (amount t) (num_of_Z 7)) (num_of_Z (Z.of_nat daysInMonth))
      else
        let occurrences :=
          Part002.countWeekdayOccurrences selectedYear selectedMonth (dayOfWeek_or_0 t) in
        mul (amount t) (num_of_Z occurrences)
  end.

(** The key of a rule in [split] (line 88). *)
Definition split_key (t : Transaction num) : string :=
  if is_SAVING (type t) then ("Saving: " ++ category t)%string else category t.

(** [categoryAnalysis] (lines 69-96): the pairs of [data] and
    [totalAllocation]. *)
Definition categoryAnalysis (simulationData : list (SimulationPoint num))
  (selectedYear selectedMonth : Z) (transactions : list (Transaction num))
  : list (string * num) * num :=
  let daysInMonth := List.length simulationData in
  let split :=
    forEach
      (fun (split : JSObject.t num) t (_ : nat) =>
         if is_INCOME (type t) then split
         else
           let key := split_key t in
           JSObject.set key
             (add (or_0 (JSObject.get key split))
                (actualMonthlyAmount selectedYear selectedMonth daysInMonth t))
             split)
      transactions [] in
  let data := Object_entries split in
  let totalAllocation :=
    fold_left (fun a b => add a b) (map snd (Object_entries split)) (num_of_Z 0) in
  (data, totalAllocation).

(** The state update of [handleDelete] (lines 105-109). *)
Definition handleDelete (confirmed : bool) (i : string)
  (prev : list (Transaction num)) : list (Transaction num) :=
  if confirmed
  then filter (fun t => negb (String.eqb (id t) i)) prev
  else prev.

(** The state update of [onSubmit] (lines 359-363); [editing] says whether
    [editingTransaction] is set. *)
Definition onSubmit (editing : bool) (t : Transaction num)
  (prev : list (Transaction num)) : list (Transaction num) :=
  if editing
  then map (fun item => if String.eqb (id item) (id t) then t else item) prev
  else prev ++ [t].

End OldApp.
End OldApp.

(** The months that [propagateChanges] rewrites: from the selected month to
    December of the year after the current one. *)
Definition in_window (currentYear selectedYear selectedMonth y m : Z) : Prop :=
  selectedYear <= y <= currentYear + 1
  /\ (if y =? selectedYear then selectedMonth else 0) <= m <= 11.

(** The keys of these months, in the order of the loops. *)
Definition window_keys (currentYear selectedYear selectedMonth : Z) : list string :=
  flat_map
    (fun y => map (App.monthKey y)
                (range (if y =? selectedYear then selectedMonth else 0) 11))
    (range selectedYear (currentYear + 1)).

(** What [propagateChanges] stores for a month whose list was
    [currentList]. *)
Definition update_list {num : Type} (action : App.Action) (tx : Types.Transaction num)
  (currentList : list (Types.Transaction num)) : list (Types.Transaction num) :=
  if App.is_delete action then
    filter (fun item => negb (String.eqb (Types.id item) (Types.id tx))) currentList
  else
    match findIndex (fun item => String.eqb (Types.id item) (Types.id tx)) currentList with
    | Some index => assign_at index tx currentList
    | None => currentList ++ [tx]
    end.

(** The identifiers of a rule list. *)
Definition ids {num : Type} (l : list (Types.Transaction num)) : list string :=
  map Types.id l.

(** The days of an entry list. *)
Definition days {num : Type} (l : list (Types.ActualEntry num)) : list Z :=
  map Types.day l.

(** The rules with another identifier than [i], in order. *)
Definition others {num : Type} (i : string) (l : list (Types.Transaction num))
  : list (Types.Transaction num) :=
  filter (fun item => negb (String.eqb (Types.id item) i)) l.

(** The place of a month among the months of its year when keys are
    compared as strings: ["10"] and ["11"] come before ["2"]. *)
Definition key_rank (m : Z) : Z :=
  if m =? 10 then 2
  else if m =? 11 then 3
  else if m <=? 1 then m
  else m + 2.

(** An object whose keys are all keys of months, January (0) to
    December (11), as [propagateChanges] creates them. *)
Definition month_keys_only {V : Type} (o : JSObject.t V) : Prop :=
  forall k, In k (JSObject.keys o) ->
    exists y m, k = App.monthKey y m /\ 0 <= m <= 11.

(** Sample states of the application, in exact arithmetic. *)
Module AppExamples.

(** A rent of 900 on day 5. *)
Definition rent : Types.Transaction Qc :=
  Types.mkTransaction "r1" "rent" (Exact.milli 900000) Types.EXPENSE 5 None
    Types.ONCE None "Housing".

(** The same rule with the amount edited to 950. *)
Definition rent_950 : Types.Transaction Qc :=
  Types.mkTransaction "r1" "rent" (Exact.milli 950000) Types.EXPENSE 5 None
    Types.ONCE None "Housing".

(** A rule map with the rent in February 2024. *)
Definition rules_feb : JSObject.t (list (Types.Transaction Qc)) :=
  [(App.monthKey 2024 1, [rent])].

(** A rule map with the rent in February and in December 2024. *)
Definition rules_feb_dec : JSObject.t (list (Types.Transaction Qc)) :=
  [(App.monthKey 2024 1, [rent]); (App.monthKey 2024 11, [rent])].

(** A log with the balance 1000 on day 10 of February 2024. *)
Definition log_feb : JSObject.t (list (Types.ActualEntry Qc)) :=
  [(App.monthKey 2024 1, [Examples.entry_10_1000])].

(** A balance map with 2500 for December 2024. *)
Definition balances_dec : JSObject.t Qc :=
  [(App.monthKey 2024 11, Exact.milli 2500000)].

End AppExamples.

(** The callback of a grouping loop:
    [if (skip) return; split[key] = (split[key] || 0) + value]. *)
Definition group_step {T num : Type} `{Number num}
  (skip : T -> bool) (kf : T -> string) (vf : T -> num)
  (split : JSObject.t num) (t : T) (_ : nat) : JSObject.t num :=
  if skip t then split
  else JSObject.set (kf t) (add (or_0 (JSObject.get (kf t) split)) (vf t)) split.

(** The sum of [f] over a list, in exact arithmetic. *)
Definition total_of {A : Type} (f : A -> Qc) (l : list A) : Qc :=
  fold_right (fun x s => (f x + s)%Qc) 0%Qc l.

(** What rule [t] moves over the days 1..n: its magnitude times the number
    of these days on which it fires. *)
Definition month_amount (year month n : Z) (t : Types.Transaction Qc) : Qc :=
  (magnitude t
   * Exact.Qc_of_Z (Z.of_nat (List.length (firing_days year month t n))))%Qc.

(** The same with its sign: plus for Income, minus for Expense and Saving. *)
Definition signed_month_amount (year month n : Z) (t : Types.Transaction Qc) : Qc :=
  if Types.is_INCOME (Types.type t) then month_amount year month n t
  else (- month_amount year month n t)%Qc.

(** A rule that fires once in a month of [n] days: a Once rule whose day is
    one of 1..n. *)
Definition once_in_month {num : Type} (n : Z) (t : Types.Transaction num) : Prop :=
  Types.frequency t = Types.ONCE /\ 1 <= Types.dayOfMonth t <= n.

(** A rule that the allocation chart of the older application and its
    engine count alike in a month of [n] days: a Once rule whose day is one
    of 1..n, a Smooth rule, or a Weekly rule with a day of the week. *)
Definition counted_alike {num : Type} (n : Z) (t : Types.Transaction num) : Prop :=
  match Types.frequency t with
  | Types.ONCE => 1 <= Types.dayOfMonth t <= n
  | Types.WEEKLY =>
      Types.is_SMOOTH (Types.weeklyBehavior t) = true \/ Types.dayOfWeek t <> None
  end.

(** "No exceptions under any well-typed input; it always returns a full
    sequence of length daysInMonth", for any observed-entry list, as it is
    written. *)
Definition length_invariant_any_entries {num : Type} `{Number num} : Prop :=
  forall (ib : num) year month (transactions : list (Types.Transaction num))
         (actualEntries : list (Types.ActualEntry num)),
    Calendar.valid_year_month year month ->
    exists pts,
      returns ib year month transactions actualEntries (Ok pts)
      /\ Z.of_nat (List.length pts) = Calendar.days_in_month year month.

(** The running total [s] after one pass of the rule loop on day [k] over
    the rules [pre], a rule that adds [c] when the weekday of day [k] is
    Monday and nothing otherwise, and the rules [post]. *)
Definition with_monday_rule {num : Type} `{Number num} (year month : Z)
  (pre post : list (Types.Transaction num)) (c : num) (k : Z) (s : num) : num :=
  delta_step year month post k
    (if Calendar.weekday year month k =? 1
     then add (delta_step year month pre k s) c
     else delta_step year month pre k s).

(** The four planned fields of every point that the call returns are the
    images of the unrounded quantities under [rnd]. *)
Definition stored_as {num : Type} `{Number num} (rnd : num -> num) : Prop :=
  forall (ib : num) year month (transactions : list (Types.Transaction num))
         (actualEntries : list (Types.ActualEntry num)) d,
    Calendar.valid_year_month year month ->
    1 <= d <= Calendar.days_in_month year month ->
    safe_days actualEntries ->
    exists pts p,
      returns ib year month transactions actualEntries (Ok pts)
      /\ nth_error pts (Z.to_nat (d - 1)) = Some p
      /\ Types.balance p = rnd (rawBalance year month transactions ib d)
      /\ Types.dailyDelta p = rnd (rawDelta year month transactions d)
      /\ Types.cumulativeIncome p = rnd (rawCumulativeIncome year month transactions d)
      /\ Types.cumulativeExpenses p
         = rnd (rawCumulativeExpenses year month transactions d).

(** The property names that an object literal inherits from
    [Object.prototype].  Reading one of them on [{}] gives the inherited
    value and not [undefined], and an assignment to [__proto__] creates no
    property; [JSObject] holds the own properties, and is the object as the
    code sees it for every other key. *)
Definition inherited_names : list string :=
  ["constructor"; "__defineGetter__"; "__defineSetter__"; "hasOwnProperty";
   "__lookupGetter__"; "__lookupSetter__"; "isPrototypeOf";
   "propertyIsEnumerable"; "toString"; "valueOf"; "__proto__";
   "toLocaleString"]%string.

(** A key that names no inherited property. *)
Definition plain_key (k : string) : bool :=
  negb (existsb (String.eqb k) inherited_names).

(** The rules that are not Incomes are filed under plain keys. *)
Definition plain_keys {num : Type} (kf : Types.Transaction num -> string)
  (transactions : list (Types.Transaction num)) : Prop :=
  forall t, In t transactions -> Types.is_INCOME (Types.type t) = false ->
            plain_key (kf t) = true.

(* ===================================================================== *)
(** ** The calendar and the built-in Date *)
(* ===================================================================== *)

Section CalendarFacts.
Import JSDate Calendar.

Lemma DayFromYear_succ y : DayFromYear (y + 1) = DayFromYear y + DaysInYear y.
Proof.
  unfold DayFromYear, DaysInYear.
  destruct (Z.eqb_spec (y mod 4) 0), (Z.eqb_spec (y mod 100) 0),
    (Z.eqb_spec (y mod 400) 0); cbn [negb];
    Z.div_mod_to_equations; lia.
Qed.

Lemma DayFromYear_mono y1 y2 : y1 <= y2 -> DayFromYear y1 <= DayFromYear y2.
Proof. unfold DayFromYear. intros. Z.div_mod_to_equations. lia. Qed.

Lemma DaysInYear_cases y : DaysInYear y = 365 \/ DaysInYear y = 366.
Proof.
  unfold DaysInYear.
  destruct (y mod 4 =? 0), (y mod 100 =? 0), (y mod 400 =? 0); cbn; auto.
Qed.

(** [YearFromDay] is the year whose day range holds the day. *)
Lemma YearFromDay_spec day :
  DayFromYear (YearFromDay day) <= day < DayFromYear (YearFromDay day + 1).
Proof.
  unfold YearFromDay.
  set (y := 1970 + 400 * day / 146097).
  assert (Hlo : DayFromYear (y - 1) <= day).
  { unfold DayFromYear, y. Z.div_mod_to_equations. lia. }
  assert (Hhi : day < DayFromYear (y + 2)).
  { unfold DayFromYear, y. Z.div_mod_to_equations. lia. }
  destruct (Z.ltb_spec day (DayFromYear y)).
  - replace (y - 1 + 1) with y by lia. lia.
  - destruct (Z.leb_spec (DayFromYear (y + 1)) day).
    + replace (y + 1 + 1) with (y + 2) by lia. lia.
    + lia.
Qed.

Lemma YearFromDay_unique y day :
  DayFromYear y <= day < DayFromYear (y + 1) -> YearFromDay day = y.
Proof.
  intros H. pose proof (YearFromDay_spec day) as S.
  destruct (Z.lt_trichotomy (YearFromDay day) y) as [L | [E | G]]; auto.
  - pose proof (DayFromYear_mono (YearFromDay day + 1) y ltac:(lia)). lia.
  - pose proof (DayFromYear_mono (y + 1) (YearFromDay day) ltac:(lia)). lia.
Qed.

End CalendarFacts.

Section DateFacts.
Import JSDate Calendar.

Lemma Day_MakeDate d : Day (MakeDate d) = d.
Proof. unfold Day, MakeDate, msPerDay. apply Z.div_mul. lia. Qed.

Lemma InLeapYearOf_is_leap y :
  InLeapYearOf y = if is_leap_year y then 1 else 0.
Proof.
  unfold InLeapYearOf, DaysInYear, is_leap_year.
  destruct (y mod 4 =? 0), (y mod 100 =? 0), (y mod 400 =? 0); reflexivity.
Qed.

Lemma DaysInYear_leap y : DaysInYear y = 365 + InLeapYearOf y.
Proof.
  unfold InLeapYearOf. destruct (DaysInYear_cases y) as [E | E]; rewrite E; reflexivity.
Qed.

Lemma MakeDay_month_index y m d :
  0 <= m <= 11 ->
  MakeDay y m d = DayFromYear y + DaysBeforeMonth m (InLeapYearOf y) + d - 1.
Proof.
  intros Hm. unfold MakeDay.
  rewrite (Z.div_small m 12), (Z.mod_small m 12), Z.add_0_r by lia. reflexivity.
Qed.

(** A day of month [m] lies inside year [y]. *)
Lemma MakeDay_within_year y m d :
  0 <= m <= 11 -> 1 <= d <= days_in_month y m ->
  DayFromYear y <= MakeDay y m d < DayFromYear (y + 1).
Proof.
  intros Hm Hd. rewrite MakeDay_month_index by assumption.
  rewrite DayFromYear_succ, DaysInYear_leap.
  revert Hd. unfold days_in_month. rewrite InLeapYearOf_is_leap.
  assert (C : m = 0 \/ m = 1 \/ m = 2 \/ m = 3 \/ m = 4 \/ m = 5 \/ m = 6 \/
              m = 7 \/ m = 8 \/ m = 9 \/ m = 10 \/ m = 11) by lia.
  repeat (destruct C as [C | C]; [subst m; destruct (is_leap_year y); cbn [DaysBeforeMonth]; lia |]).
  subst m; destruct (is_leap_year y); cbn [DaysBeforeMonth]; lia.
Qed.

Lemma YearFromTime_MakeDay y m d :
  0 <= m <= 11 -> 1 <= d <= days_in_month y m ->
  YearFromTime (MakeDate (MakeDay y m d)) = y.
Proof.
  intros Hm Hd. unfold YearFromTime. rewrite Day_MakeDate.
  apply YearFromDay_unique, MakeDay_within_year; assumption.
Qed.

Lemma DayWithinYear_MakeDay y m d :
  0 <= m <= 11 -> 1 <= d <= days_in_month y m ->
  DayWithinYear (MakeDate (MakeDay y m d))
  = DaysBeforeMonth m (InLeapYearOf y) + d - 1.
Proof.
  intros Hm Hd. unfold DayWithinYear.
  rewrite YearFromTime_MakeDay, Day_MakeDate, MakeDay_month_index by assumption.
  lia.
Qed.

Ltac split_ltb :=
  repeat match goal with
    | |- (if ?a <? ?b then _ else _) = _ => destruct (Z.ltb_spec a b); try lia
    end.

(** Decoding a time value built by [MakeDay] gives the month back. *)
Lemma MonthFromTime_MakeDay y m d :
  0 <= m <= 11 -> 1 <= d <= days_in_month y m ->
  MonthFromTime (MakeDate (MakeDay y m d)) = m.
Proof.
  intros Hm Hd. unfold MonthFromTime, InLeapYear.
  rewrite YearFromTime_MakeDay, DayWithinYear_MakeDay by assumption.
  revert Hd. unfold days_in_month. rewrite InLeapYearOf_is_leap.
  assert (C : m = 0 \/ m = 1 \/ m = 2 \/ m = 3 \/ m = 4 \/ m = 5 \/ m = 6 \/
              m = 7 \/ m = 8 \/ m = 9 \/ m = 10 \/ m = 11) by lia.
  repeat (destruct C as [C | C];
          [subst m; destruct (is_leap_year y); cbn [DaysBeforeMonth]; intros; split_ltb |]).
  subst m; destruct (is_leap_year y); cbn [DaysBeforeMonth]; intros; split_ltb.
Qed.

(** ... and the day of the month. *)
Lemma DateFromTime_MakeDay y m d :
  0 <= m <= 11 -> 1 <= d <= days_in_month y m ->
  DateFromTime (MakeDate (MakeDay y m d)) = d.
Proof.
  intros Hm Hd. unfold DateFromTime, InLeapYear.
  rewrite MonthFromTime_MakeDay, YearFromTime_MakeDay, DayWithinYear_MakeDay
    by assumption.
  assert (C : m = 0 \/ m = 1 \/ m = 2 \/ m = 3 \/ m = 4 \/ m = 5 \/ m = 6 \/
              m = 7 \/ m = 8 \/ m = 9 \/ m = 10 \/ m = 11) by lia.
  repeat (destruct C as [C | C]; [subst m; cbn [DaysBeforeMonth]; lia |]).
  subst m; cbn [DaysBeforeMonth]; lia.
Qed.

Lemma days_in_month_range y m : 28 <= days_in_month y m <= 31.
Proof.
  unfold days_in_month.
  destruct m as [| [p | p |] |]; try (cbn; lia);
    repeat (destruct p as [p | p |]; try (cbn; lia));
    destruct (is_leap_year y); cbn [DaysBeforeMonth]; lia.
Qed.

(** Day 0 of the next month is the last day of this month. *)
Lemma MakeDay_day0_next y m :
  0 <= m <= 11 ->
  MakeDay y (m + 1) 0 = MakeDay y m (days_in_month y m).
Proof.
  intros Hm. rewrite (MakeDay_month_index y m) by assumption.
  destruct (Z.eq_dec m 11) as [-> | Hne].
  - unfold MakeDay. change ((11 + 1) / 12) with 1. change ((11 + 1) mod 12) with 0.
    rewrite DayFromYear_succ, DaysInYear_leap.
    cbn [DaysBeforeMonth days_in_month]. lia.
  - rewrite MakeDay_month_index by lia.
    unfold days_in_month. rewrite InLeapYearOf_is_leap.
    assert (C : m = 0 \/ m = 1 \/ m = 2 \/ m = 3 \/ m = 4 \/ m = 5 \/ m = 6 \/
                m = 7 \/ m = 8 \/ m = 9 \/ m = 10) by lia.
    repeat (destruct C as [C | C]; [subst m; destruct (is_leap_year y); cbn [DaysBeforeMonth Z.add Pos.add Pos.succ]; lia |]).
    subst m; destruct (is_leap_year y); cbn [DaysBeforeMonth Z.add Pos.add Pos.succ]; lia.
Qed.

Lemma DayFromYear_bounds y :
  -271820 <= y <= 275759 ->
  -100000000 <= DayFromYear y /\ DayFromYear (y + 1) <= 100000000.
Proof. unfold DayFromYear. intros. Z.div_mod_to_equations. lia. Qed.

Lemma face_value_year y :
  ~ (0 <= y <= 99) -> (if (0 <=? y) && (y <=? 99) then 1900 + y else y) = y.
Proof.
  intros H. destruct (Z.leb_spec 0 y), (Z.leb_spec y 99); cbn; try reflexivity. lia.
Qed.

(** Every day of a valid month is a valid date, at face value. *)
Lemma make_valid y m d :
  valid_year_month y m -> 1 <= d <= days_in_month y m ->
  make y m d = Some (MakeDate (MakeDay y m d)).
Proof.
  intros (Hm & Hy & Hq) Hd. unfold make. rewrite face_value_year by assumption.
  pose proof (MakeDay_within_year y m d Hm Hd).
  pose proof (DayFromYear_bounds y Hy).
  unfold TimeClip, MakeDate, msPerDay.
  destruct (Z.leb_spec (Z.abs (MakeDay y m d * 86400000)) 8640000000000000);
    [reflexivity | lia].
Qed.

Lemma make_day0_next y m :
  valid_year_month y m ->
  make y (m + 1) 0 = make y m (days_in_month y m).
Proof.
  intros (Hm & Hy & Hq). unfold make. rewrite face_value_year by assumption.
  rewrite MakeDay_day0_next by assumption. reflexivity.
Qed.

(** [new Date(year, month + 1, 0).getDate()] is the length of the month. *)
Lemma getDate_day0_next y m :
  valid_year_month y m ->
  getDate (make y (m + 1) 0) = Some (days_in_month y m).
Proof.
  intros V. pose proof (days_in_month_range y m).
  rewrite make_day0_next, make_valid by (assumption || lia). cbn.
  rewrite DateFromTime_MakeDay; [reflexivity | apply V | lia].
Qed.

(** [new Date(year, month, d).getDay()] on a day of the month. *)
Lemma getDay_in_month y m d :
  valid_year_month y m -> 1 <= d <= days_in_month y m ->
  getDay (make y m d) = Some ((MakeDay y m d + 4) mod 7).
Proof.
  intros V Hd. rewrite make_valid by assumption. cbn.
  unfold WeekDay. rewrite Day_MakeDate. reflexivity.
Qed.

(** Sanity checks against the calendar: 29 February 2024 was a Thursday,
    1 January 1970 a Thursday, 1 January 2000 a Saturday. *)
Example getDay_2024_02_29 : getDay (make 2024 1 29) = Some 4.
Proof. reflexivity. Qed.
Example getDay_1970_01_01 : getDay (make 1970 0 1) = Some 4.
Proof. reflexivity. Qed.
Example getDay_2000_01_01 : getDay (make 2000 0 1) = Some 6.
Proof. reflexivity. Qed.
Example getDate_feb_2024 : getDate (make 2024 2 0) = Some 29.
Proof. reflexivity. Qed.
Example getDate_feb_2025 : getDate (make 2025 2 0) = Some 28.
Proof. reflexivity. Qed.
Example getDate_dec_2025 : getDate (make 2025 12 0) = Some 31.
Proof. reflexivity. Qed.
(** A two-digit year is a year of the 20th century: February of year 0 is
    February 1900, which has 28 days. *)
Example getDate_feb_year0 : getDate (make 0 2 0) = Some 28.
Proof. reflexivity. Qed.
(** Beyond the range of time values the date is invalid. *)
Example getDate_out_of_range : getDate (make 300000 1 0) = None.
Proof. reflexivity. Qed.

End DateFacts.

(* ===================================================================== *)
(** ** Loops *)
(* ===================================================================== *)

Section RangeFacts.

Lemma range_nil lo hi : hi < lo -> range lo hi = [].
Proof.
  intros Hlt. unfold range. replace (Z.to_nat (hi - lo + 1)) with 0%nat by lia.
  reflexivity.
Qed.

Lemma range_snoc lo hi : lo <= hi + 1 -> range lo (hi + 1) = range lo hi ++ [hi + 1].
Proof.
  intros Hle. unfold range.
  replace (Z.to_nat (hi + 1 - lo + 1)) with (Datatypes.S (Z.to_nat (hi - lo + 1))) by lia.
  rewrite seq_S, map_app. cbn [map Nat.add]. do 2 f_equal. lia.
Qed.

Lemma length_range lo hi : List.length (range lo hi) = Z.to_nat (hi - lo + 1).
Proof. unfold range. rewrite length_map, length_seq. reflexivity. Qed.

Lemma nth_error_range lo hi d :
  lo <= d <= hi -> nth_error (range lo hi) (Z.to_nat (d - lo)) = Some d.
Proof.
  intros Hd. unfold range. rewrite nth_error_map, nth_error_seq.
  destruct (Nat.ltb_spec (Z.to_nat (d - lo)) (Z.to_nat (hi - lo + 1))); [| lia].
  cbn. f_equal. lia.
Qed.

Lemma in_range lo hi d : In d (range lo hi) <-> lo <= d <= hi.
Proof.
  unfold range. rewrite in_map_iff. split.
  - intros (i & <- & Hi). apply in_seq in Hi. lia.
  - intros Hd. exists (Z.to_nat (d - lo)). split; [lia |]. apply in_seq. lia.
Qed.

Lemma for_range_nil {S : Type} lo hi (body : S -> Z -> S) s :
  hi < lo -> for_range lo hi body s = s.
Proof. intros Hlt. unfold for_range. rewrite range_nil by assumption. reflexivity. Qed.

Lemma for_range_snoc {S : Type} lo hi (body : S -> Z -> S) s :
  lo <= hi + 1 ->
  for_range lo (hi + 1) body s = body (for_range lo hi body s) (hi + 1).
Proof.
  intros Hle. unfold for_range. rewrite range_snoc by assumption.
  rewrite fold_left_app. reflexivity.
Qed.

(** Induction over the upper bound of a loop that starts at [lo]. *)
Lemma upper_bound_ind (lo : Z) (P : Z -> Prop) :
  (forall hi, hi < lo -> P hi) ->
  (forall hi, lo <= hi + 1 -> P hi -> P (hi + 1)) ->
  forall hi, P hi.
Proof.
  intros Hbase Hstep hi.
  destruct (Z.lt_ge_cases hi lo) as [Hlt | Hge]; [auto |].
  replace hi with (lo - 1 + Z.of_nat (Z.to_nat (hi - lo + 1))) by lia.
  induction (Z.to_nat (hi - lo + 1)) as [| k IH].
  - apply Hbase. lia.
  - replace (lo - 1 + Z.of_nat (Datatypes.S k)) with (lo - 1 + Z.of_nat k + 1) by lia.
    apply Hstep; [lia | exact IH].
Qed.

End RangeFacts.

Section RuleLoopFacts.
Context {num : Type} `{Number num}.
Import Types.
Variables (year month : Z).

Lemma nth_smoothRates (pre l : list (Transaction num)) (t : Transaction num) :
  nth (List.length pre) (smoothRates (pre ++ t :: l)) (num_of_Z 0)
  = if is_WEEKLY (frequency t) && is_SMOOTH (weeklyBehavior t)
    then div (amount t) (num_of_Z 7) else num_of_Z 0.
Proof.
  unfold smoothRates. rewrite map_app. cbn [map].
  rewrite app_nth2; rewrite length_map; [| lia].
  rewrite Nat.sub_diag. reflexivity.
Qed.

(** One step of the rule loop, in the three variables it assigns. *)
Lemma rule_callback_reading (pre l : list (Transaction num)) t day a :
  rule_callback (smoothRates (pre ++ t :: l)) day
    (JSDate.getDay (JSDate.make year month day)) a t (List.length pre)
  = {| acc_dailyDelta :=
         if fires year month t day
         then add (acc_dailyDelta a) (contribution t) else acc_dailyDelta a;
       acc_cumulativeIncome :=
         if fires year month t day && is_INCOME (type t)
         then add (acc_cumulativeIncome a) (magnitude t)
         else acc_cumulativeIncome a;
       acc_cumulativeExpenses :=
         if fires year month t day && negb (is_INCOME (type t))
         then add (acc_cumulativeExpenses a) (magnitude t)
         else acc_cumulativeExpenses a |}.
Proof.
  unfold rule_callback, fires, contribution, magnitude, accrue.
  rewrite nth_smoothRates.
  destruct a as [dd ci ce]. cbn [acc_dailyDelta acc_cumulativeIncome acc_cumulativeExpenses].
  destruct (frequency t); cbn [is_WEEKLY andb].
  - destruct (dayOfMonth t =? day), (is_INCOME (type t)); reflexivity.
  - destruct (is_SMOOTH (weeklyBehavior t)).
    + destruct (is_INCOME (type t)); reflexivity.
    + destruct (dow_eq _ _), (is_INCOME (type t)); reflexivity.
Qed.

Lemma forEach_rule_callback (l pre : list (Transaction num)) day a :
  forEach_from
    (rule_callback (smoothRates (pre ++ l)) day
       (JSDate.getDay (JSDate.make year month day)))
    l (List.length pre) a
  = {| acc_dailyDelta := delta_step year month l day (acc_dailyDelta a);
       acc_cumulativeIncome := income_step year month l day (acc_cumulativeIncome a);
       acc_cumulativeExpenses :=
         expense_step year month l day (acc_cumulativeExpenses a) |}.
Proof.
  revert pre a. induction l as [| t l IH]; intros pre a.
  - destruct a; reflexivity.
  - cbn [forEach_from]. rewrite rule_callback_reading.
    replace (pre ++ t :: l) with ((pre ++ [t]) ++ l) by (rewrite <- app_assoc; reflexivity).
    replace (Datatypes.S (List.length pre)) with (List.length (pre ++ [t]))
      by (rewrite length_app; cbn; lia).
    rewrite IH. reflexivity.
Qed.

(** The rule loop of one day computes the day's delta and extends the two
    running totals. *)
Lemma apply_rules_reading (transactions : list (Transaction num)) day cumI cumE :
  apply_rules year month transactions (smoothRates transactions) day cumI cumE
  = {| acc_dailyDelta := rawDelta year month transactions day;
       acc_cumulativeIncome := income_step year month transactions day cumI;
       acc_cumulativeExpenses := expense_step year month transactions day cumE |}.
Proof.
  unfold apply_rules, forEach.
  exact (forEach_rule_callback transactions [] day _).
Qed.

(** The rule loop inside the projection evaluates the rules the same
    way. *)
Lemma forEach_projection_callback (l : list (Transaction num)) d idx s :
  forEach_from
    (SimulationEngine.projection_callback d (JSDate.getDay (JSDate.make year month d)))
    l idx s
  = delta_step year month l d s.
Proof.
  revert idx s. induction l as [| t l IH]; intros idx s; [reflexivity |].
  cbn [forEach_from]. rewrite IH. unfold delta_step. cbn [fold_left]. f_equal.
  unfold SimulationEngine.projection_callback, fires, contribution, magnitude.
  destruct (frequency t); cbn [is_ONCE is_WEEKLY andb].
  - destruct (dayOfMonth t =? d), (is_INCOME (type t)); reflexivity.
  - destruct (is_SMOOTH (weeklyBehavior t)).
    + destruct (is_INCOME (type t)); reflexivity.
    + destruct (dow_eq _ _), (is_INCOME (type t)); reflexivity.
Qed.

Lemma projectedDelta_reading (transactions : list (Transaction num)) l d :
  SimulationEngine.projectedDelta year month transactions l d
  = running_delta year month transactions l d.
Proof.
  unfold SimulationEngine.projectedDelta, running_delta, for_range.
  generalize (num_of_Z 0). induction (range (l + 1) d) as [| k ks IH]; intros s.
  - reflexivity.
  - cbn [fold_left]. unfold forEach at 2. rewrite forEach_projection_callback. apply IH.
Qed.

End RuleLoopFacts.

Section ObservedFacts.
Context {num : Type} `{Number num}.
Import Types.

(** The reduction keeps the later of two entries of the same day. *)
Lemma reduce_latest (l : list (ActualEntry num)) (x : ActualEntry num) :
  Some (fold_left (fun prev current => if day prev >? day current then prev else current)
          l x)
  = latest_entry (x :: l).
Proof.
  revert x. induction l as [| a l IH]; intros x; [reflexivity |].
  cbn [fold_left]. rewrite IH.
  cbn [latest_entry]. destruct (latest_entry l) as [e |].
  - destruct (Z.gtb_spec (day x) (day a)), (Z.geb_spec (day e) (day a)),
      (Z.geb_spec (day e) (day x));
      try reflexivity; try lia;
      repeat match goal with
        | |- context [?p >=? ?q] => destruct (Z.geb_spec p q); try lia
        end; reflexivity.
  - destruct (Z.gtb_spec (day x) (day a)), (Z.geb_spec (day a) (day x));
      try reflexivity; lia.
Qed.

(** The latest entry never throws: the reduction runs on a non-empty
    array only. *)
Lemma latestActual_of_reading (actualEntries : list (ActualEntry num)) :
  SimulationEngine.latestActual_of actualEntries = Ok (latest_entry actualEntries).
Proof.
  unfold SimulationEngine.latestActual_of.
  destruct actualEntries as [| x l]; [reflexivity |].
  cbn [List.length Nat.ltb Nat.leb Array_reduce bind].
  f_equal. apply reduce_latest.
Qed.

Lemma actualValue_of_reading year month transactions
  (actualEntries : list (ActualEntry num)) d :
  SimulationEngine.actualValue_of year month transactions actualEntries
    (latest_entry actualEntries) d
  = rawActual year month transactions actualEntries d.
Proof.
  unfold SimulationEngine.actualValue_of, rawActual, first_on.
  destruct (find _ actualEntries); [reflexivity |].
  destruct (latest_entry actualEntries) as [l |]; [| reflexivity].
  rewrite projectedDelta_reading, Z.gtb_ltb. reflexivity.
Qed.

End ObservedFacts.

Section DayLoopFacts.
Context {num : Type} `{Number num}.
Import Types.
Variables (year month : Z) (transactions : list (Transaction num)).

Lemma rawBalance_succ ib d :
  1 <= d + 1 ->
  rawBalance year month transactions ib (d + 1)
  = add (rawBalance year month transactions ib d)
        (rawDelta year month transactions (d + 1)).
Proof. intros Hd. unfold rawBalance. rewrite for_range_snoc by assumption. reflexivity. Qed.

Lemma rawCumulativeIncome_succ d :
  1 <= d + 1 ->
  rawCumulativeIncome year month transactions (d + 1)
  = income_step year month transactions (d + 1)
      (rawCumulativeIncome year month transactions d).
Proof.
  intros Hd. unfold rawCumulativeIncome. rewrite for_range_snoc by assumption.
  reflexivity.
Qed.

Lemma rawCumulativeExpenses_succ d :
  1 <= d + 1 ->
  rawCumulativeExpenses year month transactions (d + 1)
  = expense_step year month transactions (d + 1)
      (rawCumulativeExpenses year month transactions d).
Proof.
  intros Hd. unfold rawCumulativeExpenses. rewrite for_range_snoc by assumption.
  reflexivity.
Qed.

(** The state of the day loop after day [n], and the points pushed so far. *)
Lemma day_loop_reading ib (actualEntries : list (ActualEntry num)) n :
  for_range 1 n
    (SimulationEngine.day_body year month transactions actualEntries
       (latest_entry actualEntries) (smoothRates transactions))
    {| l_plannedBalance := ib; l_cumulativeIncome := num_of_Z 0;
       l_cumulativeExpenses := num_of_Z 0; l_points := [] |}
  = {| l_plannedBalance := rawBalance year month transactions ib n;
       l_cumulativeIncome := rawCumulativeIncome year month transactions n;
       l_cumulativeExpenses := rawCumulativeExpenses year month transactions n;
       l_points := map (point_of year month transactions ib actualEntries) (range 1 n) |}.
Proof.
  pattern n. apply (upper_bound_ind 1); clear n.
  - intros n Hn. unfold rawBalance, rawCumulativeIncome, rawCumulativeExpenses.
    rewrite !for_range_nil, range_nil by assumption. reflexivity.
  - intros n Hn IH. rewrite for_range_snoc, IH by assumption.
    unfold SimulationEngine.day_body.
    cbn [l_plannedBalance l_cumulativeIncome l_cumulativeExpenses l_points].
    rewrite apply_rules_reading, actualValue_of_reading.
    cbn [acc_dailyDelta acc_cumulativeIncome acc_cumulativeExpenses].
    rewrite range_snoc, map_app by assumption. cbn [map].
    set (pts := map _ (range 1 n)). unfold point_of.
    rewrite rawBalance_succ, rawCumulativeIncome_succ, rawCumulativeExpenses_succ
      by assumption.
    reflexivity.
Qed.

Lemma day_loop_reading_002 ib n :
  for_range 1 n
    (Part002.day_body year month transactions (smoothRates transactions))
    {| l_plannedBalance := ib; l_cumulativeIncome := num_of_Z 0;
       l_cumulativeExpenses := num_of_Z 0; l_points := [] |}
  = {| l_plannedBalance := rawBalance year month transactions ib n;
       l_cumulativeIncome := rawCumulativeIncome year month transactions n;
       l_cumulativeExpenses := rawCumulativeExpenses year month transactions n;
       l_points := map (point_of year month transactions ib []) (range 1 n) |}.
Proof.
  pattern n. apply (upper_bound_ind 1); clear n.
  - intros n Hn. unfold rawBalance, rawCumulativeIncome, rawCumulativeExpenses.
    rewrite !for_range_nil, range_nil by assumption. reflexivity.
  - intros n Hn IH. rewrite for_range_snoc, IH by assumption.
    unfold Part002.day_body.
    cbn [l_plannedBalance l_cumulativeIncome l_cumulativeExpenses l_points].
    rewrite apply_rules_reading.
    cbn [acc_dailyDelta acc_cumulativeIncome acc_cumulativeExpenses].
    rewrite range_snoc, map_app by assumption. cbn [map].
    set (pts := map _ (range 1 n)). unfold point_of.
    rewrite rawBalance_succ, rawCumulativeIncome_succ, rawCumulativeExpenses_succ
      by assumption.
    reflexivity.
Qed.

(** The simulator returns, without throwing, the points of the days
    1 .. daysInMonth; none when the date is invalid. *)
Lemma calculateDailySimulation_reading ib (actualEntries : list (ActualEntry num)) :
  SimulationEngine.calculateDailySimulation ib year month transactions actualEntries
  = Ok (match JSDate.getDate (JSDate.make year (month + 1) 0) with
        | Some n => map (point_of year month transactions ib actualEntries) (range 1 n)
        | None => []
        end).
Proof.
  unfold SimulationEngine.calculateDailySimulation.
  rewrite latestActual_of_reading. cbn [bind].
  destruct (JSDate.getDate _) as [n |]; [| reflexivity].
  rewrite day_loop_reading. reflexivity.
Qed.

Lemma calculateDailySimulation_reading_002 ib :
  Part002.calculateDailySimulation ib year month transactions
  = match JSDate.getDate (JSDate.make year (month + 1) 0) with
    | Some n => map (point_of year month transactions ib []) (range 1 n)
    | None => []
    end.
Proof.
  unfold Part002.calculateDailySimulation.
  destruct (JSDate.getDate _) as [n |]; [| reflexivity].
  rewrite day_loop_reading_002. reflexivity.
Qed.

(** In a valid month the points are those of the calendar days. *)
Lemma calculateDailySimulation_valid ib (actualEntries : list (ActualEntry num)) :
  Calendar.valid_year_month year month ->
  SimulationEngine.calculateDailySimulation ib year month transactions actualEntries
  = Ok (map (point_of year month transactions ib actualEntries)
          (range 1 (Calendar.days_in_month year month))).
Proof.
  intros V. rewrite calculateDailySimulation_reading, getDate_day0_next by assumption.
  reflexivity.
Qed.

Lemma nth_error_points ib (actualEntries : list (ActualEntry num)) n d :
  1 <= d <= n ->
  nth_error (map (point_of year month transactions ib actualEntries) (range 1 n))
    (Z.to_nat (d - 1))
  = Some (point_of year month transactions ib actualEntries d).
Proof.
  intros Hd. rewrite nth_error_map, nth_error_range by assumption. reflexivity.
Qed.

End DayLoopFacts.

(* ===================================================================== *)
(** ** Exact arithmetic *)
(* ===================================================================== *)

Section ExactFacts.
Import Exact.

#[global] Instance QcZeroLaws : ZeroLaws Qc.
Proof.
  split.
  - intros a. apply Qcplus_0_r.
  - apply Qc_is_canon. reflexivity.
Qed.

#[global] Instance QcLaws : NumberLaws Qc.
Proof.
  split.
  - exact QcZeroLaws.
  - intros a b c. apply Qcplus_assoc.
Qed.

(** Two rationals with different reduced fractions are different. *)
Lemma Qc_neq (a b : Qc) : Qeq_bool a b = false -> a <> b.
Proof.
  intros Hne Heq. rewrite Heq in Hne.
  rewrite (proj2 (Qeq_bool_iff b b) (Qeq_refl b)) in Hne. discriminate.
Qed.

End ExactFacts.

Section PointFacts.
Context {num : Type} `{Number num}.
Import Types Calendar.

(** The point of a day of a valid month. *)
Lemma calculateDailySimulation_point ib year month transactions
  (actualEntries : list (ActualEntry num)) d :
  valid_year_month year month -> 1 <= d <= days_in_month year month ->
  exists pts,
    SimulationEngine.calculateDailySimulation ib year month transactions actualEntries
    = Ok pts
    /\ nth_error pts (Z.to_nat (d - 1))
       = Some (point_of year month transactions ib actualEntries d).
Proof.
  intros V Hd. eexists. split; [apply calculateDailySimulation_valid, V |].
  apply nth_error_points, Hd.
Qed.

(** If the simulator returns [pts], its point of day [d] is known. *)
Lemma point_of_result ib year month transactions
  (actualEntries : list (ActualEntry num)) d pts p :
  valid_year_month year month -> 1 <= d <= days_in_month year month ->
  SimulationEngine.calculateDailySimulation ib year month transactions actualEntries
  = Ok pts ->
  nth_error pts (Z.to_nat (d - 1)) = Some p ->
  p = point_of year month transactions ib actualEntries d.
Proof.
  intros V Hd Hpts Hp.
  rewrite calculateDailySimulation_valid in Hpts by exact V.
  injection Hpts as <-. rewrite nth_error_points in Hp by exact Hd.
  injection Hp as <-. reflexivity.
Qed.

Lemma dow_eq_in_month year month d w :
  valid_year_month year month -> 1 <= d <= days_in_month year month ->
  dow_eq (JSDate.getDay (JSDate.make year month d)) w = (weekday year month d =? w).
Proof.
  intros V Hd. rewrite getDay_in_month by assumption. reflexivity.
Qed.

Lemma stored_with_round2 : stored_with round2.
Proof.
  intros ib year month transactions actualEntries d V Hd.
  destruct (calculateDailySimulation_point ib year month transactions actualEntries d V Hd)
    as (pts & Hpts & Hp).
  exists pts, (point_of year month transactions ib actualEntries d).
  repeat split; assumption.
Qed.

End PointFacts.

Lemma valid_2024 m : 0 <= m <= 11 -> Calendar.valid_year_month 2024 m.
Proof. unfold Calendar.valid_year_month. lia. Qed.

(* ===================================================================== *)
(** ** Sums under the laws of exact arithmetic, and observed entries *)
(* ===================================================================== *)

Section LawFacts.
Context {num : Type} `{NumberLaws num}.
Import Types.
Variables (year month : Z) (transactions : list (Transaction num)).

Lemma fold_cond_add {A : Type} (c : A -> bool) (g : A -> num) (l : list A) (s x : num) :
  fold_left (fun s t => if c t then add s (g t) else s) l (add s x)
  = add s (fold_left (fun s t => if c t then add s (g t) else s) l x).
Proof.
  revert x. induction l as [| t l IH]; intros x; [reflexivity |].
  cbn [fold_left]. destruct (c t).
  - rewrite <- add_assoc. apply IH.
  - apply IH.
Qed.

(** Adding the firings of a day to a running value adds the day's delta. *)
Lemma delta_step_add d s :
  delta_step year month transactions d s
  = add s (rawDelta year month transactions d).
Proof.
  unfold rawDelta, delta_step.
  rewrite <- fold_cond_add, add_0_r. reflexivity.
Qed.

Lemma running_delta_nil l d : d <= l -> running_delta year month transactions l d = num_of_Z 0.
Proof. intros Hd. unfold running_delta. apply for_range_nil. lia. Qed.

Lemma running_delta_succ l d :
  l <= d ->
  running_delta year month transactions l (d + 1)
  = add (running_delta year month transactions l d)
        (rawDelta year month transactions (d + 1)).
Proof.
  intros Hd. unfold running_delta. rewrite for_range_snoc by lia.
  apply delta_step_add.
Qed.

(** The projection's running accumulation is the sum of the daily deltas. *)
Lemma running_delta_sum l d :
  running_delta year month transactions l d = sum_deltas year month transactions l d.
Proof.
  pattern d. apply (upper_bound_ind (l + 1)); clear d.
  - intros d Hd. unfold running_delta, sum_deltas.
    rewrite !for_range_nil by assumption. reflexivity.
  - intros d Hd IH. rewrite running_delta_succ by lia.
    unfold sum_deltas. rewrite for_range_snoc by assumption.
    fold (sum_deltas year month transactions l d). rewrite IH. reflexivity.
Qed.

End LawFacts.

Section NoRuleFacts.
Context {num : Type} `{ZeroLaws num}.
Import Types.

Lemma rawBalance_no_rules year month (ib : num) d :
  rawBalance year month [] ib d = ib.
Proof.
  pattern d. apply (upper_bound_ind 1); clear d.
  - intros d Hd. unfold rawBalance. apply for_range_nil. assumption.
  - intros d Hd IH. rewrite rawBalance_succ, IH by assumption.
    unfold rawDelta, delta_step. cbn [fold_left]. apply add_0_r.
Qed.

End NoRuleFacts.

Section EntryFacts.
Context {num : Type}.
Import Types.

Lemma latest_entry_In (l : list (ActualEntry num)) e :
  latest_entry l = Some e -> In e l.
Proof.
  revert e. induction l as [| a l IH]; intros e; cbn [latest_entry]; [discriminate |].
  destruct (latest_entry l) as [e' |].
  - destruct (day e' >=? day a); intros [= <-]; [right; apply IH; reflexivity | left; reflexivity].
  - intros [= <-]. left. reflexivity.
Qed.

Lemma latest_entry_none (l : list (ActualEntry num)) :
  latest_entry l = None -> l = [].
Proof.
  destruct l as [| a l]; [reflexivity |]. cbn [latest_entry].
  destruct (latest_entry l) as [e' |]; [destruct (day e' >=? day a) |]; discriminate.
Qed.

(** No entry is later than the latest one. *)
Lemma latest_entry_max (l : list (ActualEntry num)) e :
  latest_entry l = Some e -> forall x, In x l -> day x <= day e.
Proof.
  revert e. induction l as [| a l IH]; intros e He x Hx; [destruct Hx |].
  cbn [latest_entry] in He. destruct (latest_entry l) as [e' |] eqn:El.
  - specialize (IH e' eq_refl).
    destruct (Z.geb_spec (day e') (day a)); injection He as <-; destruct Hx as [<- | Hx].
    + lia.
    + apply IH, Hx.
    + lia.
    + specialize (IH x Hx). lia.
  - apply latest_entry_none in El. subst l. injection He as <-.
    destruct Hx as [<- | []]. lia.
Qed.

(** The latest entry is the last one, in list order, among the entries of
    the greatest day. *)
Lemma latest_entry_split (pre post : list (ActualEntry num)) e :
  (forall x, In x pre -> day x <= day e) ->
  (forall x, In x post -> day x < day e) ->
  latest_entry (pre ++ e :: post) = Some e.
Proof.
  intros Hpre Hpost.
  assert (Hhere : latest_entry (e :: post) = Some e).
  { cbn [latest_entry]. destruct (latest_entry post) as [e' |] eqn:El; [| reflexivity].
    apply latest_entry_In in El. specialize (Hpost e' El).
    destruct (Z.geb_spec (day e') (day e)); [lia | reflexivity]. }
  induction pre as [| a pre IH]; [exact Hhere |].
  cbn [app latest_entry]. rewrite IH by (intros x Hx; apply Hpre; right; exact Hx).
  specialize (Hpre a (or_introl eq_refl)).
  destruct (Z.geb_spec (day e) (day a)); [reflexivity | lia].
Qed.

(** Every non-empty list splits around its latest entry in that way. *)
Lemma latest_entry_split_inv (l : list (ActualEntry num)) e :
  latest_entry l = Some e ->
  exists pre post, l = pre ++ e :: post
    /\ (forall x, In x pre -> day x <= day e)
    /\ (forall x, In x post -> day x < day e).
Proof.
  revert e. induction l as [| a l IH]; intros e He; [discriminate |].
  cbn [latest_entry] in He. destruct (latest_entry l) as [e' |] eqn:El.
  - destruct (Z.geb_spec (day e') (day a)); injection He as <-.
    + destruct (IH e' eq_refl) as (pre & post & -> & Hpre & Hpost).
      exists (a :: pre), post. repeat split; [| exact Hpost].
      intros x [<- | Hx]; [lia | apply Hpre, Hx].
    + exists [], l. repeat split; [intros x [] |].
      intros x Hx. pose proof (latest_entry_max l e' El x Hx). lia.
  - apply latest_entry_none in El. subst l. injection He as <-.
    exists [], []. repeat split; intros x [].
Qed.

Lemma first_on_split (pre post : list (ActualEntry num)) e d :
  (forall x, In x pre -> day x <> d) -> day e = d ->
  first_on (pre ++ e :: post) d = Some e.
Proof.
  intros Hpre He. unfold first_on. induction pre as [| a pre IH]; cbn [app find].
  - rewrite (proj2 (Z.eqb_eq _ _) He). reflexivity.
  - rewrite (proj2 (Z.eqb_neq _ _) (Hpre a (or_introl eq_refl))).
    apply IH. intros x Hx. apply Hpre. right. exact Hx.
Qed.

Lemma first_on_none (l : list (ActualEntry num)) d :
  (forall x, In x l -> day x <> d) -> first_on l d = None.
Proof.
  intros Hl. unfold first_on. induction l as [| a l IH]; [reflexivity |].
  cbn [find]. rewrite (proj2 (Z.eqb_neq _ _) (Hl a (or_introl eq_refl))).
  apply IH. intros x Hx. apply Hl. right. exact Hx.
Qed.

Lemma first_on_some (l : list (ActualEntry num)) d e :
  first_on l d = Some e -> In e l /\ day e = d.
Proof.
  unfold first_on. intros Hf. apply find_some in Hf.
  destruct Hf as [Hin Hd]. split; [exact Hin | apply Z.eqb_eq, Hd].
Qed.

(** No entry is observed after the latest one. *)
Lemma first_on_after_latest (l : list (ActualEntry num)) e d :
  latest_entry l = Some e -> day e < d -> first_on l d = None.
Proof.
  intros He Hd. apply first_on_none. intros x Hx.
  pose proof (latest_entry_max l e He x Hx). lia.
Qed.

(** An entry that is alone on the greatest day is the latest entry, and the
    first one found on its day. *)
Lemma latest_entry_unique (l : list (ActualEntry num)) e :
  In e l ->
  (forall x, In x l -> day x <= day e) ->
  (forall x, In x l -> day x = day e -> x = e) ->
  latest_entry l = Some e /\ first_on l (day e) = Some e.
Proof.
  intros Hin Hmax Huniq. split.
  - destruct (latest_entry l) as [e' |] eqn:El.
    + f_equal. apply Huniq; [apply latest_entry_In, El |].
      pose proof (latest_entry_max l e' El e Hin).
      pose proof (Hmax e' (latest_entry_In l e' El)). lia.
    + apply latest_entry_none in El. subst l. destruct Hin.
  - destruct (first_on l (day e)) as [e' |] eqn:Ef.
    + f_equal. apply first_on_some in Ef. apply Huniq; apply Ef.
    + unfold first_on in Ef. apply (find_none _ _ Ef) in Hin.
      apply Z.eqb_neq in Hin. contradiction.
Qed.

End EntryFacts.

(* ===================================================================== *)
(** ** Facts about the projection loop *)
(* ===================================================================== *)

Section CounterFacts.
Import Counter.

Lemma to_double_safe z : Z.abs z < two53 -> to_double z = z.
Proof.
  intros Hz. unfold to_double. cbv zeta.
  destruct (Z.ltb_spec (Z.abs z) two53) as [_ | Hge]; [reflexivity | lia].
Qed.

Lemma succ_safe d : - two53 < d -> d < two53 - 1 -> succ d = d + 1.
Proof. intros Hlo Hhi. apply to_double_safe. lia. Qed.

(** Sixteen doubles apart: 1 is absorbed. *)
Lemma succ_stuck : succ (- 10 ^ 17) = - 10 ^ 17.
Proof. vm_compute. reflexivity. Qed.

Lemma range_cons lo hi : lo <= hi -> range lo hi = lo :: range (lo + 1) hi.
Proof.
  intros Hle. unfold range.
  replace (Z.to_nat (hi - lo + 1)) with (S (Z.to_nat (hi - (lo + 1) + 1))) by lia.
  cbn [seq map]. f_equal; [lia |].
  rewrite <- seq_shift, map_map. apply map_ext. intros i. lia.
Qed.

Lemma for_range_ext_in {S : Type} lo hi (f g : S -> Z -> S) s :
  (forall s k, lo <= k <= hi -> f s k = g s k) ->
  for_range lo hi f s = for_range lo hi g s.
Proof.
  intros Hfg. unfold for_range.
  assert (Hin : forall k, In k (range lo hi) -> lo <= k <= hi)
    by (intros k; apply in_range).
  revert s. induction (range lo hi) as [| k ks IH]; intros s; [reflexivity |].
  cbn [fold_left]. rewrite Hfg by (apply Hin; left; reflexivity).
  apply IH. intros k' Hk'. apply Hin. right. exact Hk'.
Qed.

(** The day of the month that [getDate] gives is one of 1..31, whatever the
    date. *)
Lemma DateFromTime_range t : 1 <= JSDate.DateFromTime t <= 31.
Proof.
  pose proof (YearFromDay_spec (JSDate.Day t)) as Hy.
  rewrite DayFromYear_succ, DaysInYear_leap in Hy.
  unfold JSDate.DateFromTime, JSDate.MonthFromTime, JSDate.InLeapYear,
    JSDate.DayWithinYear, JSDate.YearFromTime. cbv zeta.
  set (d := JSDate.Day t - JSDate.DayFromYear (JSDate.YearFromDay (JSDate.Day t))).
  set (leap := JSDate.InLeapYearOf (JSDate.YearFromDay (JSDate.Day t))) in *.
  assert (Hleap : leap = 0 \/ leap = 1)
    by (unfold leap, JSDate.InLeapYearOf; destruct (_ =? 366); auto).
  assert (Hd : 0 <= d < 365 + leap) by (unfold d; lia).
  repeat match goal with
         | |- context [?a <? ?b] => destruct (Z.ltb_spec a b)
         end; lia.
Qed.

Lemma getDate_range d n : JSDate.getDate d = Some n -> 1 <= n <= 31.
Proof.
  destruct d as [t |]; [| discriminate]. cbn. intros [= <-]. apply DateFromTime_range.
Qed.

Lemma for_range_cons {S : Type} lo hi (body : S -> Z -> S) s :
  lo <= hi -> for_range lo hi body s = for_range (lo + 1) hi body (body s lo).
Proof. intros Hle. unfold for_range. rewrite range_cons by exact Hle. reflexivity. Qed.

End CounterFacts.

Section RunFacts.
Context {num : Type} `{Number num}.
Import Types Calendar Counter.
Variables (year month : Z) (transactions : list (Transaction num)).

(** With the counter inside the safe integers the loop ends, with the value
    that [for_range] gives. *)
Lemma projection_loop_safe fuel day : forall d s,
  - two53 < d -> day < two53 - 1 -> (Z.to_nat (day - d + 1) <= fuel)%nat ->
  Run.projection_loop fuel year month transactions day d s
  = Some (for_range d day
            (fun s d => forEach (SimulationEngine.projection_callback d
                                   (JSDate.getDay (JSDate.make year month d)))
                          transactions s) s).
Proof.
  induction fuel as [| fuel IH]; intros d s Hlo Hhi Hfuel.
  - cbn [Run.projection_loop].
    destruct (Z.leb_spec d day) as [Hle | Hgt]; [lia |].
    rewrite for_range_nil by lia. reflexivity.
  - cbn [Run.projection_loop].
    destruct (Z.leb_spec d day) as [Hle | Hgt].
    + rewrite succ_safe by lia. rewrite IH by lia.
      rewrite (for_range_cons d day) by exact Hle. reflexivity.
    + rewrite for_range_nil by lia. reflexivity.
Qed.

Lemma projectedDelta_safe fuel latestDay day :
  isSafeInteger latestDay = true -> day < two53 - 1 ->
  (Z.to_nat (day + two53) <= fuel)%nat ->
  Run.projectedDelta fuel year month transactions latestDay day
  = Some (SimulationEngine.projectedDelta year month transactions latestDay day).
Proof.
  intros Hsafe Hday Hfuel. unfold isSafeInteger in Hsafe.
  apply andb_prop in Hsafe as [Hlo Hhi].
  apply Z.ltb_lt in Hlo. apply Z.ltb_lt in Hhi.
  unfold Run.projectedDelta.
  destruct (Z.eq_dec latestDay (two53 - 1)) as [-> | Hne].
  - (* the counter starts at 2^53, above every day *)
    assert (Hs : succ (two53 - 1) = two53) by (vm_compute; reflexivity).
    rewrite Hs. unfold SimulationEngine.projectedDelta.
    rewrite for_range_nil by lia.
    destruct fuel; cbn [Run.projection_loop];
      destruct (Z.leb_spec two53 day); try lia; reflexivity.
  - rewrite succ_safe by lia.
    rewrite projection_loop_safe by lia. reflexivity.
Qed.

Lemma safe_days_In (actualEntries : list (ActualEntry num)) e :
  safe_days actualEntries -> In e actualEntries -> isSafeInteger (Types.day e) = true.
Proof.
  unfold safe_days. rewrite forallb_forall. intros Hall Hin. apply Hall, Hin.
Qed.

Lemma actualValue_of_safe fuel (actualEntries : list (ActualEntry num)) day :
  safe_days actualEntries -> day < two53 - 1 ->
  (Z.to_nat (day + two53) <= fuel)%nat ->
  Run.actualValue_of fuel year month transactions actualEntries
    (latest_entry actualEntries) day
  = Some (SimulationEngine.actualValue_of year month transactions actualEntries
            (latest_entry actualEntries) day).
Proof.
  intros Hsafe Hday Hfuel.
  unfold Run.actualValue_of, SimulationEngine.actualValue_of. cbv zeta.
  destruct (find _ actualEntries); [reflexivity |].
  destruct (latest_entry actualEntries) as [l |] eqn:Hl; [| reflexivity].
  destruct (day >? Types.day l); [| reflexivity].
  rewrite projectedDelta_safe; [reflexivity | | exact Hday | exact Hfuel].
  apply (safe_days_In actualEntries); [exact Hsafe |].
  apply latest_entry_In. exact Hl.
Qed.

Lemma day_loop_safe fuel (actualEntries : list (ActualEntry num)) rates :
  safe_days actualEntries ->
  forall days st,
    (forall day, In day days ->
       day < two53 - 1 /\ (Z.to_nat (day + two53) <= fuel)%nat) ->
    fold_left (Run.day_body fuel year month transactions actualEntries
                 (latest_entry actualEntries) rates) days (Some st)
    = Some (fold_left (SimulationEngine.day_body year month transactions actualEntries
                         (latest_entry actualEntries) rates) days st).
Proof.
  intros Hsafe days. induction days as [| day days IH]; intros st Hdays.
  - reflexivity.
  - cbn [fold_left]. destruct (Hdays day (or_introl eq_refl)) as [Hday Hfuel].
    unfold Run.day_body at 2. cbv zeta.
    rewrite actualValue_of_safe by assumption.
    rewrite IH by (intros day' Hin; apply Hdays; right; exact Hin).
    reflexivity.
Qed.

Lemma day_loop_stopped fuel (actualEntries : list (ActualEntry num)) latestActual rates days :
  fold_left (Run.day_body fuel year month transactions actualEntries latestActual rates)
    days None = None.
Proof. induction days as [| day days IH]; [reflexivity | exact IH]. Qed.

End RunFacts.

Section ReturnFacts.
Context {num : Type} `{Number num}.
Import Types Calendar Counter.

(** When every observed day is a safe integer the call returns, and what it
    returns is what [SimulationEngine.calculateDailySimulation] gives. *)
Lemma calculateDailySimulation_returns ib year month
  (transactions : list (Transaction num)) (actualEntries : list (ActualEntry num)) :
  safe_days actualEntries ->
  returns ib year month transactions actualEntries
    (SimulationEngine.calculateDailySimulation ib year month transactions actualEntries).
Proof.
  intros Hsafe. exists (Z.to_nat (31 + two53)). intros fuel Hfuel.
  unfold Run.calculateDailySimulation, SimulationEngine.calculateDailySimulation.
  cbv zeta. rewrite latestActual_of_reading. cbn [bind].
  destruct (JSDate.getDate _) as [n |] eqn:Hn; [| reflexivity].
  apply getDate_range in Hn. unfold for_range.
  rewrite day_loop_safe; [reflexivity | exact Hsafe |].
  intros day Hin. apply in_range in Hin.
  assert (two53 = 9007199254740992) by reflexivity. lia.
Qed.

(** In a valid month, with safe observed days, the points returned are those
    of the calendar days. *)
Lemma returns_points ib year month
  (transactions : list (Transaction num)) (actualEntries : list (ActualEntry num)) :
  valid_year_month year month -> safe_days actualEntries ->
  returns ib year month transactions actualEntries
    (Ok (map (point_of year month transactions ib actualEntries)
           (range 1 (days_in_month year month)))).
Proof.
  intros V Hsafe.
  rewrite <- (calculateDailySimulation_valid year month transactions ib actualEntries V).
  apply calculateDailySimulation_returns. exact Hsafe.
Qed.

Lemma returns_point ib year month
  (transactions : list (Transaction num)) (actualEntries : list (ActualEntry num)) d :
  valid_year_month year month -> 1 <= d <= days_in_month year month ->
  safe_days actualEntries ->
  exists pts,
    returns ib year month transactions actualEntries (Ok pts)
    /\ nth_error pts (Z.to_nat (d - 1))
       = Some (point_of year month transactions ib actualEntries d).
Proof.
  intros V Hd Hsafe. eexists. split; [apply returns_points; assumption |].
  apply nth_error_points, Hd.
Qed.

Lemma stored_as_round2 : stored_as round2.
Proof.
  intros ib year month transactions actualEntries d V Hd Hsafe.
  destruct (returns_point ib year month transactions actualEntries d V Hd Hsafe)
    as (pts & Hpts & Hp).
  exists pts, (point_of year month transactions ib actualEntries d).
  repeat split; assumption.
Qed.

Lemma returns_unique ib year month (transactions : list (Transaction num))
  (actualEntries : list (ActualEntry num)) r r' :
  returns ib year month transactions actualEntries r ->
  returns ib year month transactions actualEntries r' -> r = r'.
Proof.
  intros [f Hf] [f' Hf'].
  specialize (Hf (Nat.max f f') (Nat.le_max_l _ _)).
  specialize (Hf' (Nat.max f f') (Nat.le_max_r _ _)).
  congruence.
Qed.

Lemma never_returns_not_returns ib year month (transactions : list (Transaction num))
  (actualEntries : list (ActualEntry num)) r :
  never_returns ib year month transactions actualEntries ->
  ~ returns ib year month transactions actualEntries r.
Proof. intros Hn [f Hf]. specialize (Hf f (Nat.le_refl f)). rewrite Hn in Hf. discriminate. Qed.

(** The loop that starts at [-10^17] stays there. *)
Lemma projection_loop_stuck fuel year month (transactions : list (Transaction num)) day s :
  - 10 ^ 17 <= day ->
  Run.projection_loop fuel year month transactions day (- 10 ^ 17) s = None.
Proof.
  intros Hday. revert s. induction fuel as [| fuel IH]; intros s.
  - cbn [Run.projection_loop]. destruct (Z.leb_spec (- 10 ^ 17) day); [reflexivity | lia].
  - cbn [Run.projection_loop]. destruct (Z.leb_spec (- 10 ^ 17) day); [| lia].
    rewrite succ_stuck. apply IH.
Qed.

(** An entry dated [-10^17]: the projection of day 1 never ends. *)
Lemma calculateDailySimulation_stuck ib year month
  (transactions : list (Transaction num)) (v : num) :
  valid_year_month year month ->
  never_returns ib year month transactions [mkActualEntry (- 10 ^ 17) v].
Proof.
  intros V fuel. unfold Run.calculateDailySimulation. cbv zeta.
  rewrite latestActual_of_reading. cbn [latest_entry].
  rewrite getDate_day0_next by exact V.
  pose proof (days_in_month_range year month).
  rewrite for_range_cons by lia.
  unfold Run.day_body at 2. cbv zeta.
  unfold Run.actualValue_of. cbn [find day].
  change (- 10 ^ 17 =? 1) with false. cbv iota.
  change (1 >? - 10 ^ 17) with true. cbv iota.
  unfold Run.projectedDelta. rewrite succ_stuck.
  rewrite projection_loop_stuck by lia.
  unfold for_range. rewrite day_loop_stopped. reflexivity.
Qed.

End ReturnFacts.

Section RealityFacts.
Context {num : Type} `{Number num}.
Import Types Calendar.
Variables (year month : Z) (transactions : list (Transaction num)).

Lemma rawActual_observed (actualEntries : list (ActualEntry num)) d e :
  first_on actualEntries d = Some e ->
  rawActual year month transactions actualEntries d = Some (value e).
Proof. intros Hf. unfold rawActual. rewrite Hf. reflexivity. Qed.

Lemma rawActual_projected (actualEntries : list (ActualEntry num)) d l :
  latest_entry actualEntries = Some l -> day l < d ->
  rawActual year month transactions actualEntries d
  = Some (projected_from year month transactions l d).
Proof.
  intros Hl Hd. unfold rawActual.
  rewrite (first_on_after_latest actualEntries l d Hl Hd), Hl.
  destruct (Z.ltb_spec (day l) d); [reflexivity | lia].
Qed.

Lemma rawActual_before (actualEntries : list (ActualEntry num)) d l :
  first_on actualEntries d = None ->
  latest_entry actualEntries = Some l -> d <= day l ->
  rawActual year month transactions actualEntries d = None.
Proof.
  intros Hf Hl Hd. unfold rawActual. rewrite Hf, Hl.
  destruct (Z.ltb_spec (day l) d); [lia | reflexivity].
Qed.

Lemma rawActual_no_entries d : rawActual year month transactions [] d = None.
Proof. reflexivity. Qed.

End RealityFacts.

(* ===================================================================== *)
(** ** Properties of the specification *)
(* ===================================================================== *)

Section LengthInvariantAsWritten.
Import Types Calendar Exact.

(** C2, as written, fails: with an observed entry dated -10^17 the
    projection of day 1 starts its counter at -10^17 + 1, which is -10^17
    again in doubles, and [d++] never moves it: the call does not return. *)
Lemma length_invariant_any_entries_fails : ~ @length_invariant_any_entries Qc _.
Proof.
  assert (V : valid_year_month 2024 0) by (apply valid_2024; lia).
  intros Hc.
  destruct (Hc (milli 0) 2024 0 [] [mkActualEntry (- 10 ^ 17) (milli 0)] V)
    as (pts & Hpts & _).
  revert Hpts. apply never_returns_not_returns.
  apply calculateDailySimulation_stuck. exact V.
Qed.

End LengthInvariantAsWritten.

Section LengthInvariant.
Context {num : Type} `{Number num}.
Import Types Calendar.

(** C2, amended.  For every initial balance, valid year and month, rule list
    (the empty one included) and observed-entry list whose days are safe
    integers, [calculateDailySimulation] returns, throws nothing, and gives
    one point per calendar day of the month, leap years counted: 29 points
    for February 2024, 28 for February 2025. *)
Theorem calculateDailySimulation_length
  (initialBalance : num) (year month : Z)
  (transactions : list (Transaction num)) (actualEntries : list (ActualEntry num)) :
  valid_year_month year month ->
  safe_days actualEntries ->
  (exists pts,
      returns initialBalance year month transactions actualEntries (Ok pts)
      /\ Z.of_nat (List.length pts) = days_in_month year month)
  /\ (exists pts,
      returns initialBalance 2024 1 transactions actualEntries (Ok pts)
      /\ List.length pts = 29%nat)
  /\ (exists pts,
      returns initialBalance 2025 1 transactions actualEntries (Ok pts)
      /\ List.length pts = 28%nat).
Proof.
  intros V Hsafe.
  assert (V24 : valid_year_month 2024 1) by (unfold valid_year_month; lia).
  assert (V25 : valid_year_month 2025 1) by (unfold valid_year_month; lia).
  split; [| split].
  - eexists. split; [apply returns_points; assumption |].
    rewrite length_map, length_range.
    pose proof (days_in_month_range year month). lia.
  - eexists. split; [apply returns_points; assumption |].
    rewrite length_map, length_range. reflexivity.
  - eexists. split; [apply returns_points; assumption |].
    rewrite length_map, length_range. reflexivity.
Qed.

End LengthInvariant.

(** February 2024 with the balance logged on days 3 and 17. *)
Lemma calculateDailySimulation_length_witness :
  Calendar.valid_year_month 2024 1
  /\ safe_days [Types.mkActualEntry 3 (Exact.milli 2400000);
                Types.mkActualEntry 17 (Exact.milli 1930500)]
  /\ exists pts,
      returns (Exact.milli 2500000) 2024 1 ([] : list (Types.Transaction Qc))
        [Types.mkActualEntry 3 (Exact.milli 2400000);
         Types.mkActualEntry 17 (Exact.milli 1930500)] (Ok pts)
      /\ Z.of_nat (List.length pts) = Calendar.days_in_month 2024 1.
Proof.
  assert (V : Calendar.valid_year_month 2024 1) by (unfold Calendar.valid_year_month; lia).
  split; [exact V | split; [reflexivity |]].
  exact (proj1 (calculateDailySimulation_length (Exact.milli 2500000) 2024 1 []
                  [Types.mkActualEntry 3 (Exact.milli 2400000);
                   Types.mkActualEntry 17 (Exact.milli 1930500)] V eq_refl)).
Defined.

Section Unification.
Context {num : Type} `{Number num}.
Import Types.

(** C8.  With an empty observed-entry list the engine returns the very
    sequence of the engine without reconciliation: the same date,
    dayNumber, balance, dailyDelta, cumulativeIncome and
    cumulativeExpenses, and no actualBalance on any point. *)
Theorem calculateDailySimulation_no_entries
  (initialBalance : num) (year month : Z) (transactions : list (Transaction num)) :
  SimulationEngine.calculateDailySimulation initialBalance year month transactions []
  = Ok (Part002.calculateDailySimulation initialBalance year month transactions)
  /\ Forall (fun p => actualBalance p = None)
       (Part002.calculateDailySimulation initialBalance year month transactions).
Proof.
  rewrite calculateDailySimulation_reading, calculateDailySimulation_reading_002.
  split; [reflexivity |].
  destruct (JSDate.getDate _); [| constructor].
  apply Forall_forall. intros p Hp. apply in_map_iff in Hp.
  destruct Hp as (d & <- & _). reflexivity.
Qed.

End Unification.

Section ZeroRules.
Import Types Calendar Exact.

(** C7, as written, fails: with no rules and initial balance 0.125 the
    stored balance of day 1 is 0.13. *)
Lemma zero_rule_identity_unrounded_fails : ~ @zero_rule_identity_unrounded Qc _.
Proof.
  intros Hc.
  destruct (Hc (milli 125) 2024 0 [] (valid_2024 0 ltac:(lia))) as (pts & Hpts & Hall).
  rewrite calculateDailySimulation_valid in Hpts by (apply valid_2024; lia).
  injection Hpts as <-.
  rewrite Forall_forall in Hall.
  destruct (Hall (point_of 2024 0 [] (milli 125) [] 1)) as [Hb _].
  { left. reflexivity. }
  revert Hb. apply Qc_neq. vm_compute. reflexivity.
Qed.

End ZeroRules.

Section ZeroRulesAmended.
Context {num : Type} `{ZeroLaws num}.
Import Types Calendar.

(** C7, amended.  For every initial balance, year, month and observed
    entries, with an empty rule list every point returned has balance equal
    to the initial balance rounded to 2 decimal places, and dailyDelta equal
    to 0. *)
Theorem zero_rule_identity
  (initialBalance : num) (year month : Z) (actualEntries : list (ActualEntry num)) :
  exists pts,
    SimulationEngine.calculateDailySimulation initialBalance year month [] actualEntries
    = Ok pts
    /\ Forall (fun p => balance p = round2 initialBalance
                        /\ dailyDelta p = num_of_Z 0) pts.
Proof.
  eexists. split; [apply calculateDailySimulation_reading |].
  destruct (JSDate.getDate _) as [n |]; [| constructor].
  apply Forall_forall. intros p Hp. apply in_map_iff in Hp.
  destruct Hp as (d & <- & _). cbn [balance dailyDelta point_of].
  rewrite rawBalance_no_rules. split; [reflexivity | apply round2_0].
Qed.

End ZeroRulesAmended.

Lemma zero_rule_identity_witness :
  exists pts,
    SimulationEngine.calculateDailySimulation (Exact.milli 125) 2024 0 [] [] = Ok pts
    /\ Forall (fun p => Types.balance p = round2 (Exact.milli 125)
                        /\ Types.dailyDelta p = num_of_Z 0) pts.
Proof. exact (zero_rule_identity (Exact.milli 125) 2024 0 []). Defined.

Section DailyDelta.
Import Types Calendar Exact Examples.

(** C1, as written, fails: one Weekly+Smooth income of 1 contributes 1/7
    every day, and the stored dailyDelta is 0.14. *)
Lemma daily_delta_unrounded_fails : ~ @daily_delta_unrounded Qc _.
Proof.
  intros Hc.
  destruct (Hc (milli 0) 2024 0 [smooth_income_1] [] 1 (valid_2024 0 ltac:(lia))
              ltac:(cbn; lia))
    as (pts & p & Hpts & Hp & Hd).
  pose proof (point_of_result _ _ _ _ _ 1 pts p (valid_2024 0 ltac:(lia))
                ltac:(cbn; lia) Hpts Hp) as ->. revert Hd. apply Qc_neq. vm_compute. reflexivity.
Qed.

End DailyDelta.

Section DailyDeltaAmended.
Context {num : Type} `{Number num}.
Import Types Calendar.

(** C1, amended.  For every day d from 1 to daysInMonth, the dailyDelta
    stored in the d-th point is the 2-decimal rounding of the sum, in rule
    order, of the signed contributions of the rules that fire on day d, and
    the stored cumulativeIncome and cumulativeExpenses are the 2-decimal
    roundings of the running totals of the magnitudes of the firings through
    day d, those of Income rules on one side and those of Expense and Saving
    rules on the other.  A Once rule fires iff dayOfMonth = d (never, when
    dayOfMonth is beyond the month), a Weekly+Smooth rule every day with
    magnitude amount / 7, a Weekly+LumpSum rule iff the weekday of
    (year, month, d) is its dayOfWeek (Monday when absent); the contribution
    is +magnitude for Income and -magnitude otherwise. *)
Theorem daily_delta_rounded
  (initialBalance : num) (year month : Z) (transactions : list (Transaction num))
  (actualEntries : list (ActualEntry num)) (d : Z) :
  valid_year_month year month -> 1 <= d <= days_in_month year month ->
  (exists pts p,
      SimulationEngine.calculateDailySimulation initialBalance year month
        transactions actualEntries = Ok pts
      /\ nth_error pts (Z.to_nat (d - 1)) = Some p
      /\ dayNumber p = d
      /\ dailyDelta p = round2 (rawDelta year month transactions d)
      /\ Types.cumulativeIncome p
         = round2 (rawCumulativeIncome year month transactions d)
      /\ Types.cumulativeExpenses p
         = round2 (rawCumulativeExpenses year month transactions d))
  /\ (forall t : Transaction num,
        (frequency t = ONCE ->
         (fires year month t d = true <-> dayOfMonth t = d)
         /\ (days_in_month year month < dayOfMonth t -> fires year month t d = false)
         /\ magnitude t = amount t)
        /\ (frequency t = WEEKLY -> weeklyBehavior t = Some SMOOTH ->
            fires year month t d = true
            /\ magnitude t = div (amount t) (num_of_Z 7))
        /\ (frequency t = WEEKLY -> weeklyBehavior t = Some LUMP_SUM ->
            (fires year month t d = true
             <-> weekday year month d = dayOfWeek_or_1 t)
            /\ magnitude t = amount t)
        /\ (type t = INCOME -> contribution t = magnitude t)
        /\ (type t <> INCOME -> contribution t = neg (magnitude t))).
Proof.
  intros V Hd. split.
  - destruct (calculateDailySimulation_point initialBalance year month transactions
                actualEntries d V Hd) as (pts & Hpts & Hp).
    exists pts, (point_of year month transactions initialBalance actualEntries d).
    repeat split; assumption.
  - intros t. unfold fires, magnitude, contribution.
    split; [| split; [| split; [| split]]].
    + intros Ho. rewrite Ho. cbn [is_WEEKLY andb]. split; [| split].
      * apply Z.eqb_eq.
      * intros Hlate. apply Z.eqb_neq. lia.
      * reflexivity.
    + intros Hw Hs. rewrite Hw, Hs. split; reflexivity.
    + intros Hw Hl. rewrite Hw, Hl. cbn [is_SMOOTH is_WEEKLY andb].
      rewrite dow_eq_in_month by assumption. split; [apply Z.eqb_eq | reflexivity].
    + intros ->. reflexivity.
    + intros Hk. destruct (type t); [contradiction | reflexivity | reflexivity].
Qed.

End DailyDeltaAmended.

Lemma daily_delta_rounded_witness :
  Calendar.valid_year_month 2024 0 /\ 1 <= 1 <= Calendar.days_in_month 2024 0
  /\ exists pts p,
      SimulationEngine.calculateDailySimulation (Exact.milli 0) 2024 0
        [Examples.smooth_income_1] [] = Ok pts
      /\ nth_error pts (Z.to_nat (1 - 1)) = Some p
      /\ Types.dayNumber p = 1
      /\ Types.dailyDelta p = round2 (rawDelta 2024 0 [Examples.smooth_income_1] 1)
      /\ Types.cumulativeIncome p
         = round2 (rawCumulativeIncome 2024 0 [Examples.smooth_income_1] 1)
      /\ Types.cumulativeExpenses p
         = round2 (rawCumulativeExpenses 2024 0 [Examples.smooth_income_1] 1).
Proof.
  assert (V : Calendar.valid_year_month 2024 0) by (unfold Calendar.valid_year_month; lia).
  assert (Hd : 1 <= 1 <= Calendar.days_in_month 2024 0) by (cbn; lia).
  split; [exact V | split; [exact Hd |]].
  exact (proj1 (daily_delta_rounded (Exact.milli 0) 2024 0 [Examples.smooth_income_1] [] 1 V Hd)).
Defined.

Section Rounding.
Import Types Calendar Exact Examples.

(** C6, as written, fails: a Once expense of 0.375 on day 1 gives the daily
    delta -0.375, stored as -0.37; rounding half away from zero and banker's
    rounding both give -0.38. *)
Lemma rounds_half_away_or_half_even_fails : ~ rounds_half_away_or_half_even.
Proof.
  assert (V : valid_year_month 2024 0) by (apply valid_2024; lia).
  assert (Hd : 1 <= 1 <= days_in_month 2024 0) by (cbn; lia).
  intros [Hc | Hc];
    destruct (Hc (milli 0) 2024 0 [once_expense_0375] [] 1 V Hd)
      as (pts & p & Hpts & Hp & _ & Hdelta & _);
    pose proof (point_of_result _ _ _ _ _ 1 pts p V Hd Hpts Hp) as ->;
    revert Hdelta; apply Qc_neq; vm_compute; reflexivity.
Qed.

(** [Math.round] in exact arithmetic is the floor of x + 1/2. *)
Lemma Qc_round_bounds (x : Qc) :
  (Qc_of_Z (Qfloor (x + Q2Qc (1 # 2))%Qc) <= x + Q2Qc (1 # 2))%Qc
  /\ (x + Q2Qc (1 # 2) < Qc_of_Z (Qfloor (x + Q2Qc (1 # 2))%Qc + 1))%Qc.
Proof.
  unfold Qcle, Qclt, Qc_of_Z. cbn [this Q2Qc]. rewrite !Qred_correct. split.
  - apply Qfloor_le.
  - apply Qlt_floor.
Qed.

(** C6, amended.  The four fields balance, dailyDelta, cumulativeIncome and
    cumulativeExpenses of every stored point are [Math.round(x * 100) / 100]
    of the running quantity x, in whichever arithmetic the numbers live and
    for negative values too.  In exact arithmetic this is the nearest
    hundredth with a tie going up (towards plus infinity): the stored value
    is k / 100 for the integer k with k <= 100 x + 1/2 < k + 1, so -0.375 is
    stored as -0.37 and 0.375 as 0.38.  In IEEE doubles [x * 100] is rounded
    before [Math.round] sees it: -0.375 is stored as -0.37 as well, but the
    double 0.015, which lies below the tie, is stored as 0.02, and the
    double 1.005 as 1. *)
Theorem stored_round_half_up :
  (forall (num : Type) (N : Number num), @stored_as num N round2)
  /\ (forall x : Qc,
        exists k : Z,
          round2 x = (Qc_of_Z k / Qc_of_Z 100)%Qc
          /\ (Qc_of_Z k <= x * Qc_of_Z 100 + Q2Qc (1 # 2))%Qc
          /\ (x * Qc_of_Z 100 + Q2Qc (1 # 2) < Qc_of_Z (k + 1))%Qc)
  /\ round2 (- milli 375)%Qc = (- milli 370)%Qc
  /\ round2 (milli 375) = milli 380
  /\ Binary64.same (round2 (Binary64.milli (-375))) (Binary64.milli (-370)) = true
  /\ Binary64.same (round2 (Binary64.milli 15)) (Binary64.milli 20) = true
  /\ Binary64.same (round2 (Binary64.milli 1005)) (Binary64.milli 1000) = true.
Proof.
  split; [intros num N; apply stored_as_round2 |].
  split; [| split; [| split; [| split; [| split]]]].
  - intros x. exists (Qfloor (x * Qc_of_Z 100 + Q2Qc (1 # 2))%Qc).
    split; [reflexivity | apply Qc_round_bounds].
  - apply Qc_is_canon. reflexivity.
  - apply Qc_is_canon. reflexivity.
  - vm_compute. reflexivity.
  - vm_compute. reflexivity.
  - vm_compute. reflexivity.
Qed.

(** The rounding on a day with a negative tie. *)
Lemma stored_round_half_up_witness :
  valid_year_month 2024 0 /\ 1 <= 1 <= days_in_month 2024 0
  /\ safe_days [entry_10_1000]
  /\ exists pts p,
      returns (milli 0) 2024 0 [once_expense_0375] [entry_10_1000] (Ok pts)
      /\ nth_error pts (Z.to_nat (1 - 1)) = Some p
      /\ balance p = round2 (rawBalance 2024 0 [once_expense_0375] (milli 0) 1)
      /\ dailyDelta p = round2 (rawDelta 2024 0 [once_expense_0375] 1)
      /\ Types.cumulativeIncome p
         = round2 (rawCumulativeIncome 2024 0 [once_expense_0375] 1)
      /\ Types.cumulativeExpenses p
         = round2 (rawCumulativeExpenses 2024 0 [once_expense_0375] 1).
Proof.
  assert (V : valid_year_month 2024 0) by (unfold valid_year_month; lia).
  assert (Hd : 1 <= 1 <= days_in_month 2024 0) by (cbn; lia).
  split; [exact V | split; [exact Hd | split; [reflexivity |]]].
  exact (proj1 stored_round_half_up Qc _ (milli 0) 2024 0 [once_expense_0375]
           [entry_10_1000] 1 V Hd eq_refl).
Defined.

End Rounding.

Section MondayDefault.
Context {num : Type} `{Number num}.
Import Types Calendar.

Lemma for_range_ext {S : Type} lo hi (f g : S -> Z -> S) s :
  (forall s k, f s k = g s k) -> for_range lo hi f s = for_range lo hi g s.
Proof.
  intros Hfg. unfold for_range. revert s.
  induction (range lo hi) as [| k ks IH]; intros s; [reflexivity |].
  cbn [fold_left]. rewrite Hfg. apply IH.
Qed.

Lemma monday_by_default_parts year month (t : Transaction num) d :
  fires year month (monday_by_default t) d = fires year month t d
  /\ magnitude (monday_by_default t) = magnitude t
  /\ contribution (monday_by_default t) = contribution t
  /\ type (monday_by_default t) = type t.
Proof.
  unfold monday_by_default, fires, contribution, magnitude, dayOfWeek_or_1.
  destruct (dayOfWeek t) eqn:E; [rewrite ?E; repeat split; reflexivity |].
  cbn. rewrite ?E. repeat split; reflexivity.
Qed.

Lemma steps_monday_by_default year month (l : list (Transaction num)) d s :
  delta_step year month (map monday_by_default l) d s = delta_step year month l d s
  /\ income_step year month (map monday_by_default l) d s = income_step year month l d s
  /\ expense_step year month (map monday_by_default l) d s
     = expense_step year month l d s.
Proof.
  unfold delta_step, income_step, expense_step.
  repeat split; revert s; induction l as [| t l IH]; intros s; try reflexivity;
    cbn [map fold_left];
    destruct (monday_by_default_parts year month t d) as (Hf & Hm & Hc & Hk);
    rewrite ?Hf, ?Hm, ?Hc, ?Hk; apply IH.
Qed.

Lemma point_of_monday_by_default year month (l : list (Transaction num)) ib
  (actualEntries : list (ActualEntry num)) d :
  point_of year month (map monday_by_default l) ib actualEntries d
  = point_of year month l ib actualEntries d.
Proof.
  assert (Hdelta : forall k, rawDelta year month (map monday_by_default l) k
                             = rawDelta year month l k).
  { intros k. apply steps_monday_by_default. }
  unfold point_of. f_equal.
  - f_equal. unfold rawBalance. apply for_range_ext. intros s k. rewrite Hdelta. reflexivity.
  - f_equal. unfold rawActual. destruct (first_on actualEntries d); [reflexivity |].
    destruct (latest_entry actualEntries) as [e |]; [| reflexivity].
    destruct (day e <? d); [| reflexivity]. unfold projected_from. do 2 f_equal.
    unfold running_delta. apply for_range_ext. intros s k. apply steps_monday_by_default.
  - f_equal. apply Hdelta.
  - f_equal. unfold rawCumulativeIncome. apply for_range_ext. intros s k.
    apply steps_monday_by_default.
  - f_equal. unfold rawCumulativeExpenses. apply for_range_ext. intros s k.
    apply steps_monday_by_default.
Qed.

Lemma delta_step_app year month (pre post : list (Transaction num)) t k s :
  delta_step year month (pre ++ t :: post) k s
  = delta_step year month post k
      (if fires year month t k
       then add (delta_step year month pre k s) (contribution t)
       else delta_step year month pre k s).
Proof. unfold delta_step. rewrite fold_left_app. reflexivity. Qed.

(** A Weekly+LumpSum rule without dayOfWeek inside a rule list: one pass of
    the rule loop on a day of the month. *)
Lemma delta_step_monday_rule year month (pre post : list (Transaction num)) t k s :
  frequency t = WEEKLY -> weeklyBehavior t = Some LUMP_SUM -> dayOfWeek t = None ->
  valid_year_month year month -> 1 <= k <= days_in_month year month ->
  delta_step year month (pre ++ t :: post) k s
  = with_monday_rule year month pre post
      (if is_INCOME (type t) then amount t else neg (amount t)) k s.
Proof.
  intros Hw Hl Hnone V Hk. rewrite delta_step_app. unfold with_monday_rule.
  unfold fires, contribution, magnitude, dayOfWeek_or_1.
  rewrite Hw, Hl, Hnone. cbn [is_SMOOTH is_WEEKLY andb].
  rewrite dow_eq_in_month by assumption. reflexivity.
Qed.

Lemma projection_loop_monday_by_default fuel year month (l : list (Transaction num)) day :
  forall d s,
    Run.projection_loop fuel year month (map monday_by_default l) day d s
    = Run.projection_loop fuel year month l day d s.
Proof.
  induction fuel as [| fuel IH]; intros d s; cbn [Run.projection_loop]; [reflexivity |].
  destruct (d <=? day); [| reflexivity].
  unfold forEach. rewrite !forEach_projection_callback.
  rewrite (proj1 (steps_monday_by_default year month l d s)). apply IH.
Qed.

Lemma run_monday_by_default fuel ib year month (l : list (Transaction num))
  (actualEntries : list (ActualEntry num)) :
  Run.calculateDailySimulation fuel ib year month (map monday_by_default l) actualEntries
  = Run.calculateDailySimulation fuel ib year month l actualEntries.
Proof.
  unfold Run.calculateDailySimulation. cbv zeta.
  destruct (SimulationEngine.latestActual_of actualEntries) as [latest |]; [| reflexivity].
  destruct (JSDate.getDate _) as [n |]; [| reflexivity].
  f_equal. apply for_range_ext. intros running k.
  unfold Run.day_body. destruct running as [st |]; [| reflexivity]. cbv zeta.
  rewrite !apply_rules_reading.
  cbn [acc_dailyDelta acc_cumulativeIncome acc_cumulativeExpenses].
  unfold rawDelta.
  destruct (steps_monday_by_default year month l k (num_of_Z 0)) as (-> & _ & _).
  destruct (steps_monday_by_default year month l k (l_cumulativeIncome st))
    as (_ & -> & _).
  destruct (steps_monday_by_default year month l k (l_cumulativeExpenses st))
    as (_ & _ & ->).
  unfold Run.actualValue_of, Run.projectedDelta. cbv zeta.
  destruct (find _ actualEntries); [reflexivity |].
  destruct latest as [latest |]; [| reflexivity].
  destruct (k >? day latest); [| reflexivity].
  rewrite projection_loop_monday_by_default. reflexivity.
Qed.

(** C9.  A Weekly+LumpSum rule without dayOfWeek behaves as if dayOfWeek
    were 1 (Monday).  Writing 1 in changes no run of the engine, whatever
    the observed entries, and not the result of the engine without
    reconciliation.  Wherever the rule stands in the rule list, the
    dailyDelta that both engines store for a day of the month is the
    rounding of the day's running total in which the rule adds its signed
    amount exactly when the weekday of the day is Monday; and the
    actualBalance projected past the anchor is the rounding of the anchor's
    value plus the running total in which the rule adds its signed amount on
    exactly the Mondays after the anchor.  The rule loop of the planned
    trajectory (the same in both engines) and the rule loop of the
    projection accrue it exactly when the weekday is 1, and on the days of a
    valid month it fires exactly on the Mondays. *)
Theorem lump_sum_defaults_to_monday
  (initialBalance : num) (year month : Z) (transactions : list (Transaction num))
  (actualEntries : list (ActualEntry num)) (t : Transaction num) (d : Z) :
  frequency t = WEEKLY -> weeklyBehavior t = Some LUMP_SUM -> dayOfWeek t = None ->
  valid_year_month year month -> 1 <= d <= days_in_month year month ->
  (forall fuel,
      Run.calculateDailySimulation fuel initialBalance year month
        (map monday_by_default transactions) actualEntries
      = Run.calculateDailySimulation fuel initialBalance year month
          transactions actualEntries)
  /\ Part002.calculateDailySimulation initialBalance year month
       (map monday_by_default transactions)
     = Part002.calculateDailySimulation initialBalance year month transactions
  /\ (forall pre post entries,
        safe_days entries ->
        exists pts p q,
          returns initialBalance year month (pre ++ t :: post) entries (Ok pts)
          /\ nth_error pts (Z.to_nat (d - 1)) = Some p
          /\ nth_error (Part002.calculateDailySimulation initialBalance year month
                          (pre ++ t :: post)) (Z.to_nat (d - 1)) = Some q
          /\ dailyDelta p
             = round2 (with_monday_rule year month pre post
                         (if is_INCOME (type t) then amount t else neg (amount t))
                         d (num_of_Z 0))
          /\ dailyDelta q = dailyDelta p)
  /\ (forall pre post entries l,
        safe_days entries -> latest_entry entries = Some l -> 1 <= day l < d ->
        exists pts p,
          returns initialBalance year month (pre ++ t :: post) entries (Ok pts)
          /\ nth_error pts (Z.to_nat (d - 1)) = Some p
          /\ actualBalance p
             = Some (round2
                       (add (value l)
                          (for_range (day l + 1) d
                             (fun s k =>
                                with_monday_rule year month pre post
                                  (if is_INCOME (type t) then amount t
                                   else neg (amount t)) k s)
                             (num_of_Z 0)))))
  /\ (forall rates a idx,
        rule_callback rates d (JSDate.getDay (JSDate.make year month d)) a t idx
        = if weekday year month d =? 1
          then accrue (is_INCOME (type t))
                 (if is_INCOME (type t) then amount t else neg (amount t))
                 (amount t) a
          else a)
  /\ (forall s idx,
        SimulationEngine.projection_callback d
          (JSDate.getDay (JSDate.make year month d)) s t idx
        = if weekday year month d =? 1
          then add s (if is_INCOME (type t) then amount t else neg (amount t))
          else s)
  /\ (fires year month t d = true <-> weekday year month d = 1).
Proof.
  intros Hw Hl Hnone V Hd. split; [| split; [| split; [| split; [| split; [| split]]]]].
  - intros fuel. apply run_monday_by_default.
  - rewrite !calculateDailySimulation_reading_002.
    destruct (JSDate.getDate _); [| reflexivity].
    apply map_ext. intros k. apply point_of_monday_by_default.
  - intros pre post entries Hsafe.
    destruct (returns_point initialBalance year month (pre ++ t :: post) entries d
                V Hd Hsafe) as (pts & Hpts & Hp).
    exists pts, (point_of year month (pre ++ t :: post) initialBalance entries d),
      (point_of year month (pre ++ t :: post) initialBalance [] d).
    split; [exact Hpts | split; [exact Hp | split; [| split]]].
    + rewrite calculateDailySimulation_reading_002, getDate_day0_next by exact V.
      apply nth_error_points, Hd.
    + cbn [dailyDelta point_of]. unfold rawDelta.
      rewrite delta_step_monday_rule by assumption. reflexivity.
    + reflexivity.
  - intros pre post entries l Hsafe Hlatest Hday.
    destruct (returns_point initialBalance year month (pre ++ t :: post) entries d
                V Hd Hsafe) as (pts & Hpts & Hp).
    exists pts, (point_of year month (pre ++ t :: post) initialBalance entries d).
    split; [exact Hpts | split; [exact Hp |]].
    cbn [actualBalance point_of].
    rewrite (rawActual_projected _ _ _ _ d l Hlatest) by lia.
    unfold projected_from, running_delta. cbn [option_map]. do 3 f_equal.
    apply for_range_ext_in. intros s k Hk.
    apply delta_step_monday_rule; try assumption. lia.
  - intros rates a idx. unfold rule_callback, dayOfWeek_or_1.
    rewrite Hw, Hl, Hnone. cbn [is_SMOOTH].
    rewrite dow_eq_in_month by assumption. reflexivity.
  - intros s idx. unfold SimulationEngine.projection_callback, dayOfWeek_or_1.
    rewrite Hw, Hl, Hnone. cbn [is_ONCE is_WEEKLY is_SMOOTH andb].
    rewrite dow_eq_in_month by assumption. reflexivity.
  - unfold fires, dayOfWeek_or_1. rewrite Hw, Hl, Hnone. cbn [is_SMOOTH].
    rewrite dow_eq_in_month by assumption. apply Z.eqb_eq.
Qed.

End MondayDefault.

(** February 2024, anchored at 1000 on day 10: the 12th is a Monday, the
    rule without dayOfWeek fires on it, and 50 reaches both the dailyDelta
    and the projected actualBalance of that day. *)
Lemma lump_sum_defaults_to_monday_witness :
  Calendar.weekday 2024 1 12 = 1
  /\ fires 2024 1 Examples.lump_income_50 12 = true
  /\ (exists pts p,
        returns (Exact.milli 0) 2024 1 [Examples.lump_income_50]
          [Examples.entry_10_1000] (Ok pts)
        /\ nth_error pts (Z.to_nat (12 - 1)) = Some p
        /\ Types.dailyDelta p = Exact.milli 50000)
  /\ (exists pts p,
        returns (Exact.milli 0) 2024 1 [Examples.lump_income_50]
          [Examples.entry_10_1000] (Ok pts)
        /\ nth_error pts (Z.to_nat (12 - 1)) = Some p
        /\ Types.actualBalance p = Some (Exact.milli 1050000)).
Proof.
  assert (V : Calendar.valid_year_month 2024 1) by (unfold Calendar.valid_year_month; lia).
  assert (Hd : 1 <= 12 <= Calendar.days_in_month 2024 1) by (cbn; lia).
  pose proof (lump_sum_defaults_to_monday (Exact.milli 0) 2024 1
                [Examples.lump_income_50] [Examples.entry_10_1000]
                Examples.lump_income_50 12 eq_refl eq_refl eq_refl V Hd)
    as (_ & _ & Hplanned & Hprojected & _ & _ & Hfires).
  split; [reflexivity | split; [apply Hfires; reflexivity | split]].
  - destruct (Hplanned [] [] [Examples.entry_10_1000] eq_refl)
      as (pts & p & _ & Hpts & Hp & _ & Hdelta & _).
    exists pts, p. split; [exact Hpts | split; [exact Hp |]].
    rewrite Hdelta. apply Qc_is_canon. reflexivity.
  - destruct (Hprojected [] [] [Examples.entry_10_1000] Examples.entry_10_1000
                eq_refl eq_refl ltac:(cbn; lia))
      as (pts & p & Hpts & Hp & Hactual).
    exists pts, p. split; [exact Hpts | split; [exact Hp |]].
    rewrite Hactual. f_equal. apply Qc_is_canon. reflexivity.
Defined.

Section ProjectionFacts.
Context {num : Type} `{NumberLaws num}.
Import Types Calendar.
Variables (year month : Z) (transactions : list (Transaction num)).

Lemma projected_from_anchor (l : ActualEntry num) :
  projected_from year month transactions l (day l) = value l.
Proof.
  unfold projected_from. rewrite running_delta_nil by lia. apply add_0_r.
Qed.

Lemma projected_from_succ (l : ActualEntry num) d :
  day l < d ->
  projected_from year month transactions l d
  = add (projected_from year month transactions l (d - 1))
        (rawDelta year month transactions d).
Proof.
  intros Hd. unfold projected_from.
  replace d with (d - 1 + 1) at 1 by lia.
  rewrite running_delta_succ by lia.
  replace (d - 1 + 1) with d by lia. apply add_assoc.
Qed.

Lemma projected_from_sum (l : ActualEntry num) d :
  projected_from year month transactions l d
  = add (value l) (sum_deltas year month transactions (day l) d).
Proof. unfold projected_from. rewrite running_delta_sum. reflexivity. Qed.

End ProjectionFacts.

Section AnchorContract.
Import Types Calendar Exact Examples.

(** C3, as written, fails: anchored at 1000 on day 10 with a Weekly+Smooth
    income of 1, the stored actualBalance is 1000.14 on day 11 and 1000.29 on
    day 12; the difference 0.15 is neither the stored dailyDelta 0.14 nor the
    unrounded delta 1/7. *)
Lemma anchor_contract_unrounded_fails : ~ anchor_contract_unrounded.
Proof.
  assert (V : valid_year_month 2024 0) by (apply valid_2024; lia).
  intros Hc.
  destruct (Hc (milli 0) 2024 0 [smooth_income_1] [entry_10_1000] entry_10_1000
              V eq_refl ltac:(cbn; lia))
    as (pts & Hpts & _ & Hdiff).
  destruct (Hdiff 12 ltac:(cbn; lia)) as (p & q & a & b & Hp & Hq & Ha & Hb & Hor).
  pose proof (point_of_result _ _ _ _ _ 12 pts p V ltac:(cbn; lia) Hpts Hp) as ->.
  pose proof (point_of_result _ _ _ _ _ 11 pts q V ltac:(cbn; lia) Hpts Hq) as ->.
  vm_compute in Ha, Hb. injection Ha as <-. injection Hb as <-.
  destruct Hor as [E | E]; revert E; apply Qc_neq; vm_compute; reflexivity.
Qed.

End AnchorContract.

Section AnchorContractAmended.
Context {num : Type} `{NumberLaws num}.
Import Types Calendar.

(** C3, amended.  Let latest be the observed entry with the maximum day,
    the only entry on that day, lying in the month; it is the entry the
    engine projects from.  The point of day latest.day has actualBalance
    equal to latest.value rounded to 2 decimal places.  For every later day d
    of the month the points of days d and d-1 both have an actualBalance, and
    these are the 2-decimal roundings of unrounded values a(d) and a(d-1)
    with a(d) = a(d-1) + delta(d) and a(latest.day) = latest.value, where
    delta(d) is the unrounded delta of the planned rule evaluation, whose
    rounding is the stored dailyDelta of day d. *)
Theorem anchor_contract
  (initialBalance : num) (year month : Z) (transactions : list (Transaction num))
  (actualEntries : list (ActualEntry num)) (latest : ActualEntry num) :
  valid_year_month year month ->
  In latest actualEntries ->
  (forall e, In e actualEntries -> day e <= day latest) ->
  (forall e, In e actualEntries -> day e = day latest -> e = latest) ->
  1 <= day latest <= days_in_month year month ->
  SimulationEngine.latestActual_of actualEntries = Ok (Some latest)
  /\ exists pts,
    SimulationEngine.calculateDailySimulation initialBalance year month
      transactions actualEntries = Ok pts
    /\ (exists p,
          nth_error pts (Z.to_nat (day latest - 1)) = Some p
          /\ actualBalance p = Some (round2 (value latest)))
    /\ projected_from year month transactions latest (day latest) = value latest
    /\ (forall d, day latest < d <= days_in_month year month ->
          exists p q,
            nth_error pts (Z.to_nat (d - 1)) = Some p
            /\ nth_error pts (Z.to_nat (d - 1 - 1)) = Some q
            /\ actualBalance p
               = Some (round2 (projected_from year month transactions latest d))
            /\ actualBalance q
               = Some (round2 (projected_from year month transactions latest (d - 1)))
            /\ dailyDelta p = round2 (rawDelta year month transactions d)
            /\ projected_from year month transactions latest d
               = add (projected_from year month transactions latest (d - 1))
                     (rawDelta year month transactions d)).
Proof.
  intros V Hmem Hmax Huniq Hin.
  destruct (latest_entry_unique actualEntries latest Hmem Hmax Huniq) as [Hl Hfirst].
  split; [rewrite latestActual_of_reading, Hl; reflexivity |].
  eexists. split; [apply calculateDailySimulation_valid, V |].
  split; [| split].
  - eexists. split; [apply nth_error_points, Hin |].
    cbn [actualBalance point_of].
    rewrite (rawActual_observed _ _ _ _ _ latest Hfirst). reflexivity.
  - apply projected_from_anchor.
  - intros d Hd. do 2 eexists.
    split; [apply nth_error_points; lia |].
    split; [apply nth_error_points; lia |].
    cbn [actualBalance dailyDelta point_of].
    rewrite (rawActual_projected _ _ _ _ d latest Hl) by lia.
    split; [reflexivity |]. split; [| split; [reflexivity |]].
    + destruct (Z.eq_dec (d - 1) (day latest)) as [E | E].
      * rewrite E, (rawActual_observed _ _ _ _ _ latest Hfirst), projected_from_anchor.
        reflexivity.
      * rewrite (rawActual_projected _ _ _ _ (d - 1) latest Hl) by lia. reflexivity.
    + apply projected_from_succ. lia.
Qed.

End AnchorContractAmended.

(** January 2024, anchored at 1000 on day 10: the stored values of days 10,
    11 and 12. *)
Lemma anchor_contract_witness :
  Calendar.valid_year_month 2024 0
  /\ 1 <= Types.day Examples.entry_10_1000 <= Calendar.days_in_month 2024 0
  /\ exists pts p p' q',
      SimulationEngine.calculateDailySimulation (Exact.milli 0) 2024 0
        [Examples.smooth_income_1] [Examples.entry_10_1000] = Ok pts
      /\ nth_error pts (Z.to_nat (Types.day Examples.entry_10_1000 - 1)) = Some p
      /\ Types.actualBalance p = Some (round2 (Types.value Examples.entry_10_1000))
      /\ nth_error pts (Z.to_nat (12 - 1)) = Some p'
      /\ nth_error pts (Z.to_nat (12 - 1 - 1)) = Some q'
      /\ Types.actualBalance p'
         = Some (round2 (projected_from 2024 0 [Examples.smooth_income_1]
                           Examples.entry_10_1000 12))
      /\ Types.actualBalance q'
         = Some (round2 (projected_from 2024 0 [Examples.smooth_income_1]
                           Examples.entry_10_1000 (12 - 1))).
Proof.
  assert (V : Calendar.valid_year_month 2024 0) by (unfold Calendar.valid_year_month; lia).
  assert (Hin : 1 <= Types.day Examples.entry_10_1000 <= Calendar.days_in_month 2024 0)
    by (cbn; lia).
  destruct (anchor_contract (Exact.milli 0) 2024 0 [Examples.smooth_income_1]
              [Examples.entry_10_1000] Examples.entry_10_1000 V
              (or_introl eq_refl)
              ltac:(intros e [<- | []]; lia)
              ltac:(intros e [<- | []] _; reflexivity)
              Hin)
    as (_ & pts & Hpts & (p & Hp & Ha) & _ & Hlater).
  destruct (Hlater 12 ltac:(cbn; lia)) as (p' & q' & Hp' & Hq' & Ha' & Hb' & _).
  split; [exact V | split; [exact Hin |]].
  exists pts, p, p', q'. repeat split; assumption.
Defined.

Section RealityPolicy.
Import Types Calendar Exact Examples.

(** C4, as written, fails: anchored at 1000 on day 10 with a Weekly+Smooth
    income of 1, the stored actualBalance of day 11 is 1000.14, not
    1000 + 1/7. *)
Lemma reality_policy_unrounded_fails : ~ @reality_policy_unrounded Qc _.
Proof.
  assert (V : valid_year_month 2024 0) by (apply valid_2024; lia).
  assert (Hd : 1 <= 11 <= days_in_month 2024 0) by (cbn; lia).
  intros Hc.
  destruct (Hc (milli 0) 2024 0 [smooth_income_1] [entry_10_1000] 11 V Hd)
    as (pts & p & Hpts & Hp & _ & Hproj & _).
  pose proof (point_of_result _ _ _ _ _ 11 pts p V Hd Hpts Hp) as ->.
  destruct (Hproj eq_refl entry_10_1000 eq_refl) as [Hlater _].
  specialize (Hlater ltac:(cbn; lia)).
  vm_compute in Hlater. injection Hlater as E. discriminate E.
Qed.

End RealityPolicy.

Section RealityPolicyAmended.
Context {num : Type} `{Number num}.
Import Types Calendar.

(** C4, amended.  For every observed-entry list whose days are safe integers
    and every day d of the month the call returns, and: if an observed entry
    with day = d exists, the point's actualBalance is the value, rounded to
    2 decimal places, of the first such entry in list order; otherwise, if
    the latest entry exists and d > latest.day, it is the 2-decimal rounding
    of latest.value plus the projected delta, one running total that starts
    at 0 and takes, day after day for latest.day < k <= d and rule after
    rule, the signed contribution of each rule firing on day k; in exact
    arithmetic that is latest.value plus the sum of the unrounded
    rule-derived daily deltas of those days; otherwise (d < latest.day) it
    is absent; and with no observed entries it is absent on every day. *)
Theorem reality_policy
  (initialBalance : num) (year month : Z) (transactions : list (Transaction num))
  (actualEntries : list (ActualEntry num)) (d : Z) :
  valid_year_month year month -> 1 <= d <= days_in_month year month ->
  safe_days actualEntries ->
  SimulationEngine.latestActual_of actualEntries = Ok (latest_entry actualEntries)
  /\ exists pts p,
    returns initialBalance year month transactions actualEntries (Ok pts)
    /\ nth_error pts (Z.to_nat (d - 1)) = Some p
    /\ (forall e, In e actualEntries -> day e = d ->
          exists e', first_on actualEntries d = Some e' /\ day e' = d
                     /\ actualBalance p = Some (round2 (value e')))
    /\ (forall e, first_on actualEntries d = Some e ->
                  actualBalance p = Some (round2 (value e)))
    /\ (first_on actualEntries d = None ->
        forall l, latest_entry actualEntries = Some l ->
          (day l < d ->
           actualBalance p
           = Some (round2 (add (value l)
                             (running_delta year month transactions (day l) d)))
           /\ (NumberLaws num ->
               actualBalance p
               = Some (round2 (add (value l)
                                 (sum_deltas year month transactions (day l) d)))))
          /\ (d < day l -> actualBalance p = None)
          /\ d <> day l)
    /\ (actualEntries = [] -> actualBalance p = None).
Proof.
  intros V Hd Hsafe. split; [apply latestActual_of_reading |].
  destruct (returns_point initialBalance year month transactions
              actualEntries d V Hd Hsafe) as (pts & Hpts & Hp).
  exists pts, (point_of year month transactions initialBalance actualEntries d).
  split; [exact Hpts | split; [exact Hp |]].
  cbn [actualBalance point_of].
  assert (Hobs : forall e, first_on actualEntries d = Some e ->
                   option_map round2 (rawActual year month transactions actualEntries d)
                   = Some (round2 (value e))).
  { intros e He. rewrite (rawActual_observed _ _ _ _ _ e He). reflexivity. }
  split; [| split; [exact Hobs | split]].
  - intros e Hin He. destruct (first_on actualEntries d) as [e' |] eqn:Hf.
    + exists e'. split; [reflexivity |].
      split; [apply (first_on_some _ _ _ Hf) | apply Hobs; reflexivity].
    + exfalso. unfold first_on in Hf.
      apply (find_none _ _ Hf) in Hin. apply Z.eqb_neq in Hin. contradiction.
  - intros Hf l Hl. split; [| split].
    + intros Hlt. rewrite (rawActual_projected _ _ _ _ d l Hl Hlt).
      unfold projected_from. split; [reflexivity |].
      intros L. rewrite (@running_delta_sum num _ L). reflexivity.
    + intros Hlt. rewrite (rawActual_before _ _ _ _ d l Hf Hl) by lia. reflexivity.
    + intros ->. apply latest_entry_In in Hl. unfold first_on in Hf.
      apply (find_none _ _ Hf) in Hl. apply Z.eqb_neq in Hl. contradiction.
  - intros ->. reflexivity.
Qed.

End RealityPolicyAmended.

(** January 2024, anchored at 1000 on day 10: the projection of day 11. *)
Lemma reality_policy_witness :
  Calendar.valid_year_month 2024 0 /\ 1 <= 11 <= Calendar.days_in_month 2024 0
  /\ safe_days [Examples.entry_10_1000]
  /\ exists pts p,
      returns (Exact.milli 0) 2024 0 [Examples.smooth_income_1]
        [Examples.entry_10_1000] (Ok pts)
      /\ nth_error pts (Z.to_nat (11 - 1)) = Some p
      /\ Types.actualBalance p
         = Some (round2 (add (Types.value Examples.entry_10_1000)
                           (running_delta 2024 0 [Examples.smooth_income_1] 10 11)))
      /\ Types.actualBalance p
         = Some (round2 (add (Types.value Examples.entry_10_1000)
                           (sum_deltas 2024 0 [Examples.smooth_income_1] 10 11))).
Proof.
  assert (V : Calendar.valid_year_month 2024 0) by (unfold Calendar.valid_year_month; lia).
  assert (Hd : 1 <= 11 <= Calendar.days_in_month 2024 0) by (cbn; lia).
  destruct (reality_policy (Exact.milli 0) 2024 0 [Examples.smooth_income_1]
              [Examples.entry_10_1000] 11 V Hd eq_refl)
    as (_ & pts & p & Hpts & Hp & _ & _ & Hproj & _).
  split; [exact V | split; [exact Hd | split; [reflexivity |]]].
  exists pts, p. split; [exact Hpts | split; [exact Hp |]].
  destruct (Hproj eq_refl Examples.entry_10_1000 eq_refl) as (Hlater & _).
  destruct (Hlater ltac:(cbn; lia)) as (Hrun & Hsum).
  split; [exact Hrun | exact (Hsum QcLaws)].
Defined.

Section DuplicateResolution.
Import Types Calendar Exact Examples.

(** C10, as written, fails: with the entries (day 1, 0.125) and (day 1, 5),
    in that order, the actualBalance stored for day 1 is 0.13, not the value
    0.125 of the first entry. *)
Lemma duplicate_resolution_unrounded_fails : ~ @duplicate_resolution_unrounded Qc _.
Proof.
  assert (V : valid_year_month 2024 0) by (apply valid_2024; lia).
  assert (Hd : 1 <= 1 <= days_in_month 2024 0) by (cbn; lia).
  intros [Hc _].
  destruct (Hc (milli 0) 2024 0 [] [] [entry_1_5] entry_1_0125 1 V Hd eq_refl
              ltac:(intros x [])
              ltac:(exists entry_1_5; split; [left; reflexivity | reflexivity]))
    as (pts & p & Hpts & Hp & Ha).
  pose proof (point_of_result _ _ _ _ _ 1 pts p V Hd Hpts Hp) as ->.
  vm_compute in Ha. injection Ha as E. discriminate E.
Qed.

End DuplicateResolution.

Section DuplicateResolutionAmended.
Context {num : Type} `{Number num}.
Import Types Calendar.

(** C10, amended.  When several observed entries share a day d, the engine
    resolves them deterministically and asymmetrically: the actualBalance
    stored for day d is the value, rounded to 2 decimal places, of the first
    entry in list order with day = d; the anchor of the projection for the
    days after the maximum observed day is the last entry in list order among
    those with the maximum day, the stored actualBalance being the 2-decimal
    rounding of its value plus the contributions of the days after it; and
    the same input gives the same output. *)
Theorem duplicate_resolution
  (initialBalance : num) (year month : Z) (transactions : list (Transaction num))
  (pre post : list (ActualEntry num)) (e : ActualEntry num) (d : Z) :
  valid_year_month year month -> 1 <= d <= days_in_month year month ->
  exists pts p,
    SimulationEngine.calculateDailySimulation initialBalance year month
      transactions (pre ++ e :: post) = Ok pts
    /\ (forall pts',
          SimulationEngine.calculateDailySimulation initialBalance year month
            transactions (pre ++ e :: post) = Ok pts' -> pts' = pts)
    /\ nth_error pts (Z.to_nat (d - 1)) = Some p
    /\ (day e = d -> (forall x, In x pre -> day x <> d) ->
        actualBalance p = Some (round2 (value e)))
    /\ ((forall x, In x pre -> day x <= day e) ->
        (forall x, In x post -> day x < day e) ->
        SimulationEngine.latestActual_of (pre ++ e :: post) = Ok (Some e)
        /\ (day e < d ->
            actualBalance p
            = Some (round2 (projected_from year month transactions e d)))).
Proof.
  intros V Hd.
  destruct (calculateDailySimulation_point initialBalance year month transactions
              (pre ++ e :: post) d V Hd) as (pts & Hpts & Hp).
  exists pts, (point_of year month transactions initialBalance (pre ++ e :: post) d).
  split; [exact Hpts |]. split; [| split; [exact Hp |]].
  - intros pts' Hpts'. rewrite Hpts in Hpts'. injection Hpts' as <-. reflexivity.
  - cbn [actualBalance point_of]. split.
    + intros He Hpre.
      rewrite (rawActual_observed _ _ _ _ _ e (first_on_split pre post e d Hpre He)).
      reflexivity.
    + intros Hpre Hpost.
      pose proof (latest_entry_split pre post e Hpre Hpost) as Hl.
      split; [rewrite latestActual_of_reading, Hl; reflexivity |].
      intros Hlt. rewrite (rawActual_projected _ _ _ _ d e Hl Hlt). reflexivity.
Qed.

End DuplicateResolutionAmended.

(** January 2024 with two entries on day 1: the first is stored on day 1,
    the second anchors the projection of day 2. *)
Lemma duplicate_resolution_witness :
  Calendar.valid_year_month 2024 0 /\ 1 <= 2 <= Calendar.days_in_month 2024 0
  /\ exists pts p,
      SimulationEngine.calculateDailySimulation (Exact.milli 0) 2024 0
        [Examples.smooth_income_1] ([Examples.entry_1_0125] ++ Examples.entry_1_5 :: [])
      = Ok pts
      /\ nth_error pts (Z.to_nat (2 - 1)) = Some p
      /\ Types.actualBalance p
         = Some (round2 (projected_from 2024 0 [Examples.smooth_income_1]
                           Examples.entry_1_5 2)).
Proof.
  assert (V : Calendar.valid_year_month 2024 0) by (unfold Calendar.valid_year_month; lia).
  assert (Hd : 1 <= 2 <= Calendar.days_in_month 2024 0) by (cbn; lia).
  destruct (duplicate_resolution (Exact.milli 0) 2024 0 [Examples.smooth_income_1]
              [Examples.entry_1_0125] [] Examples.entry_1_5 2 V Hd)
    as (pts & p & Hpts & _ & Hp & _ & Hanchor).
  split; [exact V | split; [exact Hd |]].
  exists pts, p. split; [exact Hpts | split; [exact Hp |]].
  apply Hanchor.
  - intros x [<- | []]. cbn. lia.
  - intros x [].
  - cbn. lia.
Defined.

(* ===================================================================== *)
(** ** Weekly aggregation *)
(* ===================================================================== *)

Section ChunkFacts.
Context {A : Type}.

Lemma week_count_lt n k : (k < week_count n)%nat <-> (7 * k < n)%nat.
Proof.
  unfold week_count.
  pose proof (Nat.div_mod_eq (n + 6) 7) as E.
  pose proof (Nat.mod_upper_bound (n + 6) 7 ltac:(lia)) as B.
  lia.
Qed.

Lemma week_count_31 : week_count 31 = 5%nat.
Proof. reflexivity. Qed.

Lemma length_chunk (l : list A) k :
  List.length (firstn 7 (skipn (7 * k) l)) = Nat.min 7 (List.length l - 7 * k).
Proof. rewrite length_firstn, length_skipn. reflexivity. Qed.

(** The last element of chunk [k] is the element of index
    min (7k + 6) (n - 1) of the list. *)
Lemma last_of_chunk (l : list A) k :
  (7 * k < List.length l)%nat ->
  nth_error (firstn 7 (skipn (7 * k) l))
    (List.length (firstn 7 (skipn (7 * k) l)) - 1)
  = nth_error l (last_index (List.length l) k).
Proof.
  intros Hk. rewrite length_chunk. unfold last_index.
  rewrite nth_error_firstn.
  destruct (Nat.ltb_spec (Nat.min 7 (List.length l - 7 * k) - 1) 7); [| lia].
  rewrite nth_error_skipn. f_equal. lia.
Qed.

(** The chunks, put end to end, are the list: nothing is dropped, nothing
    added. *)
Lemma concat_chunks (c : nat) (l : list A) :
  (List.length l <= 7 * c)%nat ->
  List.concat (map (fun k => firstn 7 (skipn (7 * k) l)) (seq 0 c)) = l.
Proof.
  revert l. induction c as [| c IH]; intros l Hl.
  - destruct l; [reflexivity | cbn in Hl; lia].
  - rewrite <- (cons_seq c 0), <- (seq_shift c 0). cbn [map List.concat].
    rewrite map_map.
    rewrite Nat.mul_0_r, skipn_O.
    rewrite <- (firstn_skipn 7 l) at 2. f_equal.
    rewrite <- (IH (skipn 7 l)) by (rewrite length_skipn; lia).
    f_equal. apply map_ext. intros k. rewrite skipn_skipn. do 2 f_equal. lia.
Qed.

End ChunkFacts.

Section WeeklyFacts.
Context {num : Type} `{ZeroLaws num}.
Import Types.

(** Adding 0 for the days left out is summing over the days kept. *)
Lemma fold_add_filter {A : Type} (c : A -> bool) (g : A -> num) (l : list A) (s : num) :
  fold_left (fun sum p => add sum (if c p then g p else num_of_Z 0)) l s
  = fold_left add (map g (filter c l)) s.
Proof.
  revert s. induction l as [| p l IH]; intros s; [reflexivity |].
  cbn [fold_left filter]. destruct (c p).
  - cbn [map fold_left]. apply IH.
  - rewrite add_0_r. apply IH.
Qed.

Lemma weekly_point_reading (dailyPoints : list (SimulationPoint num)) k :
  (7 * k < List.length dailyPoints)%nat ->
  exists lastPoint,
    nth_error dailyPoints (last_index (List.length dailyPoints) k) = Some lastPoint
    /\ SimulationEngine.weekly_point dailyPoints (7 * k) (k + 1)
       = Ok (week_reading dailyPoints k lastPoint).
Proof.
  intros Hk. unfold SimulationEngine.weekly_point, slice.
  replace (7 * k + 7 - 7 * k)%nat with 7%nat by lia.
  rewrite last_of_chunk by exact Hk.
  destruct (nth_error dailyPoints (last_index (List.length dailyPoints) k))
    as [lastPoint |] eqn:E.
  - exists lastPoint. split; [reflexivity |].
    unfold week_reading, sum_positive, sum_negative_abs, chunk_at.
    rewrite !fold_add_filter. reflexivity.
  - exfalso. apply nth_error_None in E. unfold last_index in E. lia.
Qed.

Lemma weekly_loop_reading (dailyPoints : list (SimulationPoint num)) c :
  forall k weeklyPoints,
    c = (week_count (List.length dailyPoints) - k)%nat ->
    SimulationEngine.weekly_loop dailyPoints (7 * k) (k + 1) weeklyPoints
    = Ok (weeklyPoints ++ weeks_from dailyPoints k c).
Proof.
  induction c as [| c IH]; intros k acc Hc;
    rewrite SimulationEngine.weekly_loop_equation_1;
    destruct (lt_dec (7 * k) (List.length dailyPoints)) as [Hlt | Hge];
    cbn [SimulationEngine.weekly_loop_unfold_clause_1].
  - exfalso. pose proof (proj2 (week_count_lt _ _) Hlt). lia.
  - unfold weeks_from. cbn [seq flat_map]. rewrite app_nil_r. reflexivity.
  - destruct (weekly_point_reading dailyPoints k Hlt) as (lastPoint & Hlast & Hw).
    rewrite Hw. cbn [SimulationEngine.weekly_loop_unfold_clause_1_clause_1].
    replace (7 * k + 7)%nat with (7 * (k + 1))%nat by lia.
    rewrite IH by lia. unfold weeks_from. cbn [seq flat_map]. rewrite Hlast.
    rewrite <- app_assoc. replace (k + 1)%nat with (Datatypes.S k) by lia. reflexivity.
  - exfalso. apply Hge, week_count_lt. lia.
Qed.

Lemma weeks_from_nth (dailyPoints : list (SimulationPoint num)) c k j :
  (7 * (k + c) < List.length dailyPoints + 7)%nat -> (j < c)%nat ->
  List.length (weeks_from dailyPoints k c) = c
  /\ exists lastPoint,
      nth_error dailyPoints (last_index (List.length dailyPoints) (k + j))
      = Some lastPoint
      /\ nth_error (weeks_from dailyPoints k c) j
         = Some (week_reading dailyPoints (k + j) lastPoint).
Proof.
  revert k j. induction c as [| c IH]; intros k j Hc Hj; [lia |].
  unfold weeks_from. cbn [seq flat_map]. fold (weeks_from dailyPoints (Datatypes.S k) c).
  destruct (nth_error dailyPoints (last_index (List.length dailyPoints) k))
    as [lastPoint |] eqn:E.
  2: { exfalso. apply nth_error_None in E. unfold last_index in E. lia. }
  cbn [app List.length].
  destruct c as [| c'].
  - split; [reflexivity |]. assert (j = 0)%nat as -> by lia.
    rewrite Nat.add_0_r. exists lastPoint. split; [exact E | reflexivity].
  - destruct j as [| j].
    + destruct (IH (Datatypes.S k) 0%nat ltac:(lia) ltac:(lia)) as [Hlen _].
      split; [rewrite Hlen; reflexivity |].
      rewrite Nat.add_0_r. exists lastPoint. split; [exact E | reflexivity].
    + destruct (IH (Datatypes.S k) j ltac:(lia) ltac:(lia)) as [Hlen (lp & Hlp & Hn)].
      split; [rewrite Hlen; reflexivity |].
      replace (k + Datatypes.S j)%nat with (Datatypes.S k + j)%nat by lia.
      exists lp. split; [exact Hlp | exact Hn].
Qed.

Lemma weeks_from_length (dailyPoints : list (SimulationPoint num)) :
  List.length (weeks_from dailyPoints 0 (week_count (List.length dailyPoints)))
  = week_count (List.length dailyPoints).
Proof.
  destruct (week_count (List.length dailyPoints)) as [| c] eqn:Ec; [reflexivity |].
  apply (weeks_from_nth dailyPoints (Datatypes.S c) 0 c); [| lia].
  assert (Hlt : (c < week_count (List.length dailyPoints))%nat) by lia.
  apply (proj1 (week_count_lt _ _)) in Hlt. lia.
Qed.

End WeeklyFacts.

Section Weekly.
Import Types Exact Examples.

(** C5, as written, fails: for the single daily point with dailyDelta 0.125
    the weekly income is 0.13, not the sum 0.125. *)
Lemma weekly_unrounded_fails : ~ @weekly_unrounded Qc _.
Proof.
  intros Hc.
  destruct (Hc [point_0125] ltac:(discriminate)) as (ws & Hws & _ & Hk).
  destruct (Hk 0%nat ltac:(cbn; lia)) as (w & lastPoint & Hw & _ & _ & _ & _ & Hinc & _).
  vm_compute in Hws. injection Hws as <-.
  injection Hw as <-. revert Hinc. apply Qc_neq. vm_compute. reflexivity.
Qed.

End Weekly.

Section WeeklyAmended.
Context {num : Type} `{ZeroLaws num}.
Import Types.

(** C5, amended.  For every daily-point sequence of length n,
    [aggregateToWeekly] throws nothing and returns ceil(n/7) weekly points;
    the chunks of 7 consecutive points starting at index 0, the last one
    holding the remaining 1..7 points, put end to end are the input; the k-th
    weekly point has weekLabel "Week k" (1-based), balance and actualBalance
    of the last daily point of its chunk, income equal to the 2-decimal
    rounding of the sum of dailyDelta over the chunk's days where
    dailyDelta > 0, and expenses equal to the 2-decimal rounding of the sum
    of abs(dailyDelta) over the days where dailyDelta < 0; for 31 daily
    points there are 5 weekly points and the last one's balance is the
    balance of the 31st daily point. *)
Theorem aggregateToWeekly_chunks (dailyPoints : list (SimulationPoint num)) :
  exists ws,
    SimulationEngine.aggregateToWeekly dailyPoints = Ok ws
    /\ List.length ws = week_count (List.length dailyPoints)
    /\ List.concat (map (chunk_at dailyPoints) (seq 0 (week_count (List.length dailyPoints))))
       = dailyPoints
    /\ (forall k, (k < week_count (List.length dailyPoints))%nat ->
          exists w lastPoint,
            nth_error ws k = Some w
            /\ List.length (chunk_at dailyPoints k)
               = Nat.min 7 (List.length dailyPoints - 7 * k)
            /\ (1 <= List.length (chunk_at dailyPoints k) <= 7)%nat
            /\ nth_error (chunk_at dailyPoints k)
                 (List.length (chunk_at dailyPoints k) - 1) = Some lastPoint
            /\ nth_error dailyPoints (last_index (List.length dailyPoints) k)
               = Some lastPoint
            /\ weekLabel w = ("Week " ++ template_of_Z (Z.of_nat (k + 1)))%string
            /\ w_balance w = balance lastPoint
            /\ w_actualBalance w = actualBalance lastPoint
            /\ income w = round2 (sum_positive (chunk_at dailyPoints k))
            /\ expenses w = round2 (sum_negative_abs (chunk_at dailyPoints k)))
    /\ (List.length dailyPoints = 31%nat ->
        List.length ws = 5%nat
        /\ exists w p31,
            nth_error ws 4 = Some w /\ nth_error dailyPoints 30 = Some p31
            /\ w_balance w = balance p31).
Proof.
  set (n := List.length dailyPoints).
  assert (Hall : forall k, (k < week_count n)%nat ->
            exists lastPoint,
              nth_error dailyPoints (last_index n k) = Some lastPoint
              /\ nth_error (weeks_from dailyPoints 0 (week_count n)) k
                 = Some (week_reading dailyPoints k lastPoint)).
  { intros k Hk.
    assert (Hlast : (7 * (week_count n - 1) < n)%nat) by (apply week_count_lt; lia).
    destruct (weeks_from_nth dailyPoints (week_count n) 0 k ltac:(fold n; lia) Hk)
      as [_ Hnth].
    exact Hnth. }
  exists (weeks_from dailyPoints 0 (week_count n)).
  split; [| split; [| split; [| split]]].
  - unfold SimulationEngine.aggregateToWeekly.
    apply (weekly_loop_reading dailyPoints (week_count n) 0 []). fold n. lia.
  - apply weeks_from_length.
  - apply concat_chunks. fold n. unfold week_count.
    pose proof (Nat.div_mod_eq (n + 6) 7). pose proof (Nat.mod_upper_bound (n + 6) 7).
    lia.
  - intros k Hk. destruct (Hall k Hk) as (lastPoint & Hlast & Hw).
    pose proof (proj1 (week_count_lt n k) Hk) as Hlt.
    exists (week_reading dailyPoints k lastPoint), lastPoint.
    split; [exact Hw |]. unfold chunk_at at 1 2 3 4 5.
    rewrite last_of_chunk, length_chunk by exact Hlt. fold n.
    repeat split; try assumption; try reflexivity; lia.
  - intros H31. unfold n in *. rewrite weeks_from_length, H31. split; [reflexivity |].
    destruct (Hall 4%nat ltac:(rewrite H31; cbn; lia)) as (lastPoint & Hlast & Hw).
    rewrite H31 in Hlast, Hw. exists (week_reading dailyPoints 4 lastPoint), lastPoint.
    split; [exact Hw | split; [exact Hlast | reflexivity]].
Qed.

End WeeklyAmended.

(** The weekly points of a single daily point. *)
Lemma aggregateToWeekly_chunks_witness :
  exists ws,
    SimulationEngine.aggregateToWeekly [Examples.point_0125] = Ok ws
    /\ List.length ws = week_count (List.length [Examples.point_0125])
    /\ forall k, (k < week_count (List.length [Examples.point_0125]))%nat ->
         exists w,
           nth_error ws k = Some w
           /\ Types.income w = round2 (sum_positive (chunk_at [Examples.point_0125] k)).
Proof.
  destruct (aggregateToWeekly_chunks [Examples.point_0125])
    as (ws & Hws & Hlen & _ & Hk & _).
  exists ws. split; [exact Hws | split; [exact Hlen |]].
  intros k Hlt. destruct (Hk k Hlt) as (w & lastPoint & Hw & _ & _ & _ & _ & _ & _ & _ & Hinc & _).
  exists w. split; [exact Hw | exact Hinc].
Defined.

(* ===================================================================== *)
(** ** The same runs in IEEE doubles *)
(* ===================================================================== *)

(** The engine on binary64 numbers.  On the inputs of the runs above the
    stored values are those of exact arithmetic; the runs that follow them
    are where doubles part from it. *)
Section Binary64Runs.
Import Types Binary64.

(** A Weekly+Smooth income of 1: the sum of day 1 is 1/7, the stored
    dailyDelta is 0.14. *)
Example binary64_daily_delta :
  let pts := points (SimulationEngine.calculateDailySimulation (milli 0) 2024 0
                       [smooth_income_1] []) in
  List.length pts = 31%nat
  /\ map (fun p => same (dailyDelta p) (milli 140)) (firstn 3 pts) = [true; true; true]
  /\ same (rawDelta 2024 0 [smooth_income_1] 1) (PrimFloat.div 1 7) = true
  /\ same (PrimFloat.div 1 7) (milli 140) = false.
Proof. vm_compute. repeat split. Qed.

(** Anchored at 1000 on day 10: the stored actualBalance is 1000 on day 10,
    1000.14 on day 11 and 1000.29 on day 12; the difference of the last two
    is neither the stored dailyDelta of day 12 nor the unrounded one. *)
Example binary64_anchor :
  let pts := points (SimulationEngine.calculateDailySimulation (milli 0) 2024 0
                       [smooth_income_1] [mkActualEntry 10 (milli 1000000)]) in
  map (fun p => same_opt (actualBalance p) (milli 1000000)) (firstn 1 (skipn 9 pts))
  = [true]
  /\ map (fun p => same_opt (actualBalance p) (milli 1000140)) (firstn 1 (skipn 10 pts))
     = [true]
  /\ map (fun p => same_opt (actualBalance p) (milli 1000290)) (firstn 1 (skipn 11 pts))
     = [true]
  /\ map (fun p => same (dailyDelta p) (milli 140)) (firstn 1 (skipn 11 pts)) = [true]
  /\ same (PrimFloat.sub (milli 1000290) (milli 1000140)) (milli 140) = false
  /\ same (PrimFloat.sub (milli 1000290) (milli 1000140)) (PrimFloat.div 1 7) = false.
Proof. vm_compute. repeat split. Qed.

(** A Once expense of 0.375 on day 1: the daily delta -0.375 is stored as
    -0.37. *)
Example binary64_negative_tie :
  let pts := points (SimulationEngine.calculateDailySimulation (milli 0) 2024 0
                       [once_expense_0375] []) in
  map (fun p => same (dailyDelta p) (milli (-370))) (firstn 1 pts) = [true]
  /\ same (rawDelta 2024 0 [once_expense_0375] 1) (milli (-375)) = true.
Proof. vm_compute. repeat split. Qed.

(** No rules and an initial balance of 0.125: the stored balance is 0.13 on
    every day. *)
Example binary64_zero_rules :
  let pts := points (SimulationEngine.calculateDailySimulation (milli 125) 2024 0
                       [] []) in
  forallb (fun p => same (balance p) (milli 130) && same (dailyDelta p) (milli 0)) pts
  = true
  /\ List.length pts = 31%nat.
Proof. vm_compute. repeat split. Qed.

(** Two entries on day 1, of values 0.125 and 5: day 1 stores 0.13, the
    rounding of the first; day 2 stores 5.14, projected from the second. *)
Example binary64_duplicates :
  let pts := points (SimulationEngine.calculateDailySimulation (milli 0) 2024 0
                       [smooth_income_1]
                       [mkActualEntry 1 (milli 125); mkActualEntry 1 (milli 5000)]) in
  map (fun p => same_opt (actualBalance p) (milli 130)) (firstn 1 pts) = [true]
  /\ map (fun p => same_opt (actualBalance p) (milli 5140)) (firstn 1 (skipn 1 pts))
     = [true].
Proof. vm_compute. repeat split. Qed.

(** One daily point with dailyDelta 0.125: the week's income is 0.13. *)
Example binary64_weekly :
  let ws := points (SimulationEngine.aggregateToWeekly
                      [mkSimulationPoint "1" 1 (milli 125) None (milli 125)
                         (milli 125) (milli 0)]) in
  map (fun w => same (income w) (milli 130) && same (expenses w) (milli 0)) ws = [true].
Proof. vm_compute. repeat split. Qed.

(** The projection keeps one running total.  Anchored at 7.045 on day 10,
    with Once incomes of 9.04 on day 12 and of 13.84 and 0.08 on day 13, the
    actualBalance stored for day 13 is 30, the rounding of the anchor plus
    the running total; the anchor plus the sum of the three daily deltas
    rounds to 30.01. *)
Example binary64_projection_accumulator :
  let rules :=
    [mkTransaction "i1" "a" (milli 9040) INCOME 12 None ONCE None "Other";
     mkTransaction "i2" "b" (milli 13840) INCOME 13 None ONCE None "Other";
     mkTransaction "i3" "c" (milli 80) INCOME 13 None ONCE None "Other"] in
  let anchor := mkActualEntry 10 (milli 7045) in
  let pts := points (SimulationEngine.calculateDailySimulation (milli 0) 2024 0
                       rules [anchor]) in
  map (fun p => same_opt (actualBalance p) (float_of_Z 30)) (firstn 1 (skipn 12 pts))
  = [true]
  /\ same (round2 (add (value anchor) (running_delta 2024 0 rules 10 13)))
       (float_of_Z 30) = true
  /\ same (round2 (add (value anchor) (sum_deltas 2024 0 rules 10 13)))
       (float_of_Z 30) = false
  /\ Run.calculateDailySimulation 21 (milli 0) 2024 0 rules [anchor]
     = Some (SimulationEngine.calculateDailySimulation (milli 0) 2024 0 rules [anchor]).
Proof. vm_compute. repeat split. Qed.

(** [x * 100] is rounded before [Math.round]: the doubles 0.015 and 1.005
    both lie below the tie that their numerals name; the first is stored as
    0.02, the second as 1. *)
Example binary64_near_tie :
  same (round2 (milli 15)) (milli 20) = true
  /\ same (round2 (milli 1005)) (float_of_Z 1) = true
  /\ same (PrimFloat.mul (milli 15) (float_of_Z 100)) (PrimFloat.div 3 2) = true.
Proof. vm_compute. repeat split. Qed.

(** [Math.round] of a value in [-0.5, 0) is -0. *)
Example binary64_round_negative_zero :
  PrimFloat.div 1 (Math_round (PrimFloat.opp (PrimFloat.div 1 4))) = neg_infinity
  /\ PrimFloat.div 1 (Math_round (PrimFloat.div 1 4)) = infinity.
Proof. vm_compute. repeat split. Qed.

(** The loop counter: [d + 1] in doubles is [Counter.succ d], and at -10^17
    it is [d] again. *)
Example binary64_counter :
  same (PrimFloat.add (float_of_Z (- 10 ^ 17)) 1) (float_of_Z (- 10 ^ 17)) = true
  /\ forallb (fun d => same (PrimFloat.add (float_of_Z d) 1)
                         (float_of_Z (Counter.succ d)))
       [- 10 ^ 17; - 2 ^ 60 - 256; - 2 ^ 53 - 4; - 2 ^ 53 - 2; - 2 ^ 53;
        - 2 ^ 53 + 1; -5; 0; 30; 2 ^ 53 - 2; 2 ^ 53 - 1; 2 ^ 53; 2 ^ 53 + 2;
        2 ^ 53 + 4; 2 ^ 60 + 256] = true.
Proof. vm_compute. repeat split. Qed.

End Binary64Runs.

(* ===================================================================== *)
(** ** Further properties of the daily simulator *)
(* ===================================================================== *)

Section PlannedTrajectory.
Context {num : Type} `{Number num}.
Import Types Calendar.

(** X1.  The planned trajectory does not depend on the observed entries: for
    any two entry lists whose days are safe integers the call returns, and
    the two results agree, point by point, on date, dayNumber, balance,
    dailyDelta, cumulativeIncome and cumulativeExpenses, which are the
    fields of the engine without reconciliation. *)
Theorem planned_fields_ignore_entries
  (initialBalance : num) (year month : Z) (transactions : list (Transaction num))
  (entries entries' : list (ActualEntry num)) :
  safe_days entries -> safe_days entries' ->
  exists pts pts',
    returns initialBalance year month transactions entries (Ok pts)
    /\ returns initialBalance year month transactions entries' (Ok pts')
    /\ map planned_fields pts = map planned_fields pts'
    /\ map planned_fields pts
       = map planned_fields
           (Part002.calculateDailySimulation initialBalance year month transactions).
Proof.
  intros Hsafe Hsafe'.
  pose proof (calculateDailySimulation_returns initialBalance year month transactions
                entries Hsafe) as Hr.
  pose proof (calculateDailySimulation_returns initialBalance year month transactions
                entries' Hsafe') as Hr'.
  rewrite calculateDailySimulation_reading in Hr, Hr'.
  do 2 eexists. split; [exact Hr |]. split; [exact Hr' |].
  rewrite calculateDailySimulation_reading_002.
  destruct (JSDate.getDate _); [| split; reflexivity].
  rewrite !map_map. split; apply map_ext; intros d; reflexivity.
Qed.

(** X2.  In a valid month, with observed days that are safe integers, the
    call returns the points of the days 1, 2, ..., daysInMonth in this
    order, each labelled with the decimal numeral of its day. *)
Theorem points_in_day_order
  (initialBalance : num) (year month : Z) (transactions : list (Transaction num))
  (actualEntries : list (ActualEntry num)) :
  valid_year_month year month ->
  safe_days actualEntries ->
  exists pts,
    returns initialBalance year month transactions actualEntries (Ok pts)
    /\ map dayNumber pts = range 1 (days_in_month year month)
    /\ map date pts = map template_of_Z (range 1 (days_in_month year month)).
Proof.
  intros V Hsafe. eexists. split; [apply returns_points; assumption |].
  rewrite !map_map. split; [| reflexivity].
  rewrite <- (map_id (range 1 _)) at 2. apply map_ext. reflexivity.
Qed.

End PlannedTrajectory.

(** February 2024 with and without the balance logged on day 10. *)
Lemma planned_fields_ignore_entries_witness :
  safe_days [Examples.entry_10_1000]
  /\ exists pts pts',
      returns (Exact.milli 0) 2024 1 [Examples.smooth_income_1]
        [Examples.entry_10_1000] (Ok pts)
      /\ returns (Exact.milli 0) 2024 1 [Examples.smooth_income_1] [] (Ok pts')
      /\ map planned_fields pts = map planned_fields pts'.
Proof.
  destruct (planned_fields_ignore_entries (Exact.milli 0) 2024 1
              [Examples.smooth_income_1] [Examples.entry_10_1000] []
              eq_refl eq_refl) as (pts & pts' & Hpts & Hpts' & Hsame & _).
  split; [reflexivity |]. exists pts, pts'.
  split; [exact Hpts | split; [exact Hpts' | exact Hsame]].
Defined.

Lemma points_in_day_order_witness :
  Calendar.valid_year_month 2024 1
  /\ safe_days [Examples.entry_10_1000]
  /\ exists pts,
      returns (Exact.milli 0) 2024 1 [Examples.smooth_income_1]
        [Examples.entry_10_1000] (Ok pts)
      /\ map Types.dayNumber pts = range 1 (Calendar.days_in_month 2024 1).
Proof.
  assert (V : Calendar.valid_year_month 2024 1) by (unfold Calendar.valid_year_month; lia).
  destruct (points_in_day_order (Exact.milli 0) 2024 1 [Examples.smooth_income_1]
              [Examples.entry_10_1000] V eq_refl) as (pts & Hpts & Hdays & _).
  split; [exact V | split; [reflexivity |]].
  exists pts. split; [exact Hpts | exact Hdays].
Defined.

Section DateEdges.
Import JSDate Calendar.

(** A month of a year beyond the range of time values has no valid last
    day. *)
Lemma getDate_out_of_range_year y m :
  0 <= m <= 11 -> y <= -271822 \/ 275761 <= y ->
  getDate (make y (m + 1) 0) = None.
Proof.
  intros Hm Hy. unfold make.
  rewrite face_value_year by lia.
  rewrite MakeDay_day0_next by assumption.
  pose proof (days_in_month_range y m) as Hr.
  pose proof (MakeDay_within_year y m (days_in_month y m) Hm ltac:(lia)) as Hin.
  assert (Hfar : DayFromYear (y + 1) < -100000000 \/ 100000000 < DayFromYear y).
  { unfold DayFromYear. destruct Hy; [left | right]; Z.div_mod_to_equations; lia. }
  unfold TimeClip, MakeDate, msPerDay.
  destruct (Z.leb_spec (Z.abs (MakeDay y m (days_in_month y m) * 86400000))
              8640000000000000); [lia | reflexivity].
Qed.

(** A year 0..99 is read as a year of the 20th century. *)
Lemma make_two_digit_year y m d :
  0 <= y <= 99 -> make y m d = make (1900 + y) m d.
Proof.
  intros Hy. unfold make.
  destruct (Z.leb_spec 0 y), (Z.leb_spec y 99); try lia.
  destruct (Z.leb_spec 0 (1900 + y)), (Z.leb_spec (1900 + y) 99); try lia.
  reflexivity.
Qed.

End DateEdges.

Section ReadingExtensionality.
Context {num : Type} `{Number num}.
Import Types Calendar.

Lemma point_of_same_steps year year' month (l l' : list (Transaction num)) n ib
  (actualEntries : list (ActualEntry num)) d :
  same_steps year year' month l l' n -> d <= n ->
  point_of year month l ib actualEntries d
  = point_of year' month l' ib actualEntries d.
Proof.
  intros Hsame Hd.
  assert (Hdelta : forall k, k <= n -> rawDelta year month l k = rawDelta year' month l' k).
  { intros k Hk. apply Hsame, Hk. }
  unfold point_of. f_equal.
  - f_equal. unfold rawBalance. apply for_range_ext_in. intros s k Hk.
    rewrite Hdelta by lia. reflexivity.
  - f_equal. unfold rawActual. destruct (first_on actualEntries d); [reflexivity |].
    destruct (latest_entry actualEntries) as [e |]; [| reflexivity].
    destruct (day e <? d); [| reflexivity]. unfold projected_from. do 2 f_equal.
    unfold running_delta. apply for_range_ext_in. intros s k Hk. apply Hsame. lia.
  - f_equal. apply Hdelta, Hd.
  - f_equal. unfold rawCumulativeIncome. apply for_range_ext_in. intros s k Hk.
    apply Hsame. lia.
  - f_equal. unfold rawCumulativeExpenses. apply for_range_ext_in. intros s k Hk.
    apply Hsame. lia.
Qed.

Lemma points_same_steps year year' month (l l' : list (Transaction num)) n ib
  (actualEntries : list (ActualEntry num)) :
  same_steps year year' month l l' n ->
  map (point_of year month l ib actualEntries) (range 1 n)
  = map (point_of year' month l' ib actualEntries) (range 1 n).
Proof.
  intros Hsame. apply map_ext_in. intros d Hd. apply in_range in Hd.
  apply (point_of_same_steps _ _ _ _ _ n); [exact Hsame | lia].
Qed.

Lemma same_steps_fires year year' month (l : list (Transaction num)) n :
  (forall (t : Transaction num) d, d <= n ->
     fires year month t d = fires year' month t d) ->
  same_steps year year' month l l n.
Proof.
  intros Hf d s Hd. unfold delta_step, income_step, expense_step.
  repeat split; revert s; induction l as [| t l IH]; intros s; try reflexivity;
    cbn [fold_left]; rewrite (Hf t d Hd); apply IH.
Qed.

End ReadingExtensionality.

Section DateEdgeBehaviour.
Context {num : Type} `{Number num}.
Import Types Calendar.

Lemma aggregateToWeekly_nil :
  SimulationEngine.aggregateToWeekly ([] : list (SimulationPoint num)) = Ok [].
Proof.
  unfold SimulationEngine.aggregateToWeekly.
  rewrite SimulationEngine.weekly_loop_equation_1.
  destruct (lt_dec 0 (List.length ([] : list (SimulationPoint num)))) as [Hlt | Hge];
    [cbn in Hlt; lia | reflexivity].
Qed.

(** X3.  For a year beyond the range of Date (below -271821 or above 275760) the
    month has no valid last day; both engines then return the empty
    sequence, without throwing, and its weekly aggregation is empty. *)
Theorem out_of_range_year_gives_no_points
  (initialBalance : num) (year month : Z) (transactions : list (Transaction num))
  (actualEntries : list (ActualEntry num)) :
  0 <= month <= 11 -> year <= -271822 \/ 275761 <= year ->
  SimulationEngine.calculateDailySimulation initialBalance year month
    transactions actualEntries = Ok []
  /\ Part002.calculateDailySimulation initialBalance year month transactions = []
  /\ (pts <- SimulationEngine.calculateDailySimulation initialBalance year month
               transactions actualEntries ;;
      SimulationEngine.aggregateToWeekly pts) = Ok [].
Proof.
  intros Hm Hy.
  assert (Hcalc : SimulationEngine.calculateDailySimulation initialBalance year month
                    transactions actualEntries = Ok []).
  { rewrite calculateDailySimulation_reading, getDate_out_of_range_year by assumption.
    reflexivity. }
  split; [exact Hcalc | split].
  - rewrite calculateDailySimulation_reading_002, getDate_out_of_range_year by assumption.
    reflexivity.
  - rewrite Hcalc. cbn [bind]. apply aggregateToWeekly_nil.
Qed.

(** X4.  A year from 0 to 99 is simulated as the year 1900 + year: month length
    and weekdays are those of the 20th-century year, in both engines. *)
Theorem two_digit_year_is_20th_century
  (initialBalance : num) (year month : Z) (transactions : list (Transaction num))
  (actualEntries : list (ActualEntry num)) :
  0 <= year <= 99 ->
  SimulationEngine.calculateDailySimulation initialBalance year month
    transactions actualEntries
  = SimulationEngine.calculateDailySimulation initialBalance (1900 + year) month
      transactions actualEntries
  /\ Part002.calculateDailySimulation initialBalance year month transactions
     = Part002.calculateDailySimulation initialBalance (1900 + year) month transactions.
Proof.
  intros Hy.
  assert (Hsame : forall n, same_steps year (1900 + year) month transactions transactions n).
  { intros n. apply same_steps_fires. intros t d _. unfold fires.
    rewrite make_two_digit_year by exact Hy. reflexivity. }
  rewrite !calculateDailySimulation_reading, !calculateDailySimulation_reading_002.
  rewrite (make_two_digit_year year (month + 1) 0 Hy).
  destruct (JSDate.getDate _) as [n |]; [| split; reflexivity].
  split; [f_equal |]; apply points_same_steps, Hsame.
Qed.

(** X5.  An observed entry dated after the last day of the month switches the
    projection off: on every day of the month actualBalance is the rounded
    value of the first entry of that day, and absent when the day has no
    entry. *)
Theorem entry_beyond_month_stops_projection
  (initialBalance : num) (year month : Z) (transactions : list (Transaction num))
  (actualEntries : list (ActualEntry num)) (e : ActualEntry num) :
  valid_year_month year month ->
  In e actualEntries -> days_in_month year month < day e ->
  exists pts,
    SimulationEngine.calculateDailySimulation initialBalance year month
      transactions actualEntries = Ok pts
    /\ forall d, 1 <= d <= days_in_month year month ->
         exists p,
           nth_error pts (Z.to_nat (d - 1)) = Some p
           /\ actualBalance p
              = option_map (fun x => round2 (value x)) (first_on actualEntries d).
Proof.
  intros V Hin Hlate.
  eexists. split; [apply calculateDailySimulation_valid, V |].
  intros d Hd. eexists. split; [apply nth_error_points, Hd |].
  cbn [actualBalance point_of]. unfold rawActual.
  destruct (first_on actualEntries d) as [x |]; [reflexivity |].
  destruct (latest_entry actualEntries) as [l |] eqn:El; [| reflexivity].
  pose proof (latest_entry_max actualEntries l El e Hin).
  destruct (Z.ltb_spec (day l) d); [lia | reflexivity].
Qed.

(** X6.  A Once rule whose dayOfMonth is beyond the last day of the month has no
    effect: removing it from the rule list changes no point, planned or
    projected, in either engine. *)
Theorem late_once_rule_has_no_effect
  (initialBalance : num) (year month : Z)
  (before after : list (Transaction num)) (t : Transaction num)
  (actualEntries : list (ActualEntry num)) :
  valid_year_month year month ->
  frequency t = ONCE -> days_in_month year month < dayOfMonth t ->
  SimulationEngine.calculateDailySimulation initialBalance year month
    (before ++ t :: after) actualEntries
  = SimulationEngine.calculateDailySimulation initialBalance year month
      (before ++ after) actualEntries
  /\ Part002.calculateDailySimulation initialBalance year month (before ++ t :: after)
     = Part002.calculateDailySimulation initialBalance year month (before ++ after).
Proof.
  intros V Ho Hlate.
  assert (Hsame : same_steps year year month (before ++ t :: after) (before ++ after)
                    (days_in_month year month)).
  { intros d s Hd.
    assert (Hf : fires year month t d = false).
    { unfold fires. rewrite Ho. apply Z.eqb_neq. lia. }
    unfold delta_step, income_step, expense_step.
    rewrite !fold_left_app. cbn [fold_left]. rewrite Hf. cbn [andb].
    repeat split; reflexivity. }
  rewrite !calculateDailySimulation_reading, !calculateDailySimulation_reading_002.
  rewrite getDate_day0_next by exact V.
  split; [f_equal |]; apply points_same_steps, Hsame.
Qed.

End DateEdgeBehaviour.

Lemma out_of_range_year_gives_no_points_witness :
  0 <= 0 <= 11 /\ (300000 <= -271822 \/ 275761 <= 300000)
  /\ SimulationEngine.calculateDailySimulation (Exact.milli 2500000) 300000 0
       [Examples.smooth_income_1] [Examples.entry_10_1000] = Ok [].
Proof.
  assert (Hm : 0 <= 0 <= 11) by lia.
  assert (Hy : 300000 <= -271822 \/ 275761 <= 300000) by (right; lia).
  split; [exact Hm | split; [exact Hy |]].
  exact (proj1 (out_of_range_year_gives_no_points (Exact.milli 2500000) 300000 0
                  [Examples.smooth_income_1] [Examples.entry_10_1000] Hm Hy)).
Defined.

Lemma two_digit_year_is_20th_century_witness :
  0 <= 24 <= 99
  /\ SimulationEngine.calculateDailySimulation (Exact.milli 0) 24 1
       [Examples.lump_income_50] []
     = SimulationEngine.calculateDailySimulation (Exact.milli 0) (1900 + 24) 1
         [Examples.lump_income_50] [].
Proof.
  assert (Hy : 0 <= 24 <= 99) by lia.
  split; [exact Hy |].
  exact (proj1 (two_digit_year_is_20th_century (Exact.milli 0) 24 1
                  [Examples.lump_income_50] [] Hy)).
Defined.

Lemma entry_beyond_month_stops_projection_witness :
  Calendar.valid_year_month 2025 1
  /\ Calendar.days_in_month 2025 1 < Types.day (Types.mkActualEntry 30 (Exact.milli 1000))
  /\ exists pts,
      SimulationEngine.calculateDailySimulation (Exact.milli 0) 2025 1
        [Examples.smooth_income_1]
        [Examples.entry_10_1000; Types.mkActualEntry 30 (Exact.milli 1000)] = Ok pts
      /\ forall d, 1 <= d <= Calendar.days_in_month 2025 1 ->
           exists p,
             nth_error pts (Z.to_nat (d - 1)) = Some p
             /\ Types.actualBalance p
                = option_map (fun x => round2 (Types.value x))
                    (first_on [Examples.entry_10_1000;
                               Types.mkActualEntry 30 (Exact.milli 1000)] d).
Proof.
  assert (V : Calendar.valid_year_month 2025 1) by (unfold Calendar.valid_year_month; lia).
  assert (Hlate : Calendar.days_in_month 2025 1
                  < Types.day (Types.mkActualEntry 30 (Exact.milli 1000))) by (cbn; lia).
  split; [exact V | split; [exact Hlate |]].
  exact (entry_beyond_month_stops_projection (Exact.milli 0) 2025 1
           [Examples.smooth_income_1]
           [Examples.entry_10_1000; Types.mkActualEntry 30 (Exact.milli 1000)]
           (Types.mkActualEntry 30 (Exact.milli 1000)) V
           (or_intror (or_introl eq_refl)) Hlate).
Defined.

Lemma late_once_rule_has_no_effect_witness :
  Calendar.valid_year_month 2025 1
  /\ Calendar.days_in_month 2025 1
     < Types.dayOfMonth (Types.mkTransaction "r4" "rent" (Exact.milli 900000)
                           Types.EXPENSE 30 None Types.ONCE None "Housing")
  /\ SimulationEngine.calculateDailySimulation (Exact.milli 0) 2025 1
       ([Examples.smooth_income_1]
        ++ Types.mkTransaction "r4" "rent" (Exact.milli 900000)
             Types.EXPENSE 30 None Types.ONCE None "Housing" :: [])
       [Examples.entry_10_1000]
     = SimulationEngine.calculateDailySimulation (Exact.milli 0) 2025 1
         ([Examples.smooth_income_1] ++ []) [Examples.entry_10_1000].
Proof.
  assert (V : Calendar.valid_year_month 2025 1) by (unfold Calendar.valid_year_month; lia).
  assert (Hlate : Calendar.days_in_month 2025 1
                  < Types.dayOfMonth (Types.mkTransaction "r4" "rent" (Exact.milli 900000)
                                        Types.EXPENSE 30 None Types.ONCE None "Housing"))
    by (cbn; lia).
  split; [exact V | split; [exact Hlate |]].
  exact (proj1 (late_once_rule_has_no_effect (Exact.milli 0) 2025 1
                  [Examples.smooth_income_1] []
                  (Types.mkTransaction "r4" "rent" (Exact.milli 900000)
                     Types.EXPENSE 30 None Types.ONCE None "Housing")
                  [Examples.entry_10_1000] V eq_refl Hlate)).
Defined.

(* ===================================================================== *)
(** ** The simulator in exact arithmetic: rounding error and cents *)
(* ===================================================================== *)

Section ExactRounding.
Import Types Calendar Exact.

Ltac Qc_to_Q :=
  unfold Qcle, Qclt, Qc_of_Z, Qcminus, Qcdiv, Qcplus, Qcopp, Qcmult, Qcinv in *;
  cbn [this Q2Qc] in *;
  repeat match goal with
    | H : context [Qred ?q] |- _ => rewrite (Qred_correct q) in H
    | |- context [Qred ?q] => rewrite (Qred_correct q)
    end.

Lemma round2_unfold (x : Qc) :
  round2 x = (Qc_of_Z (Qfloor (x * Qc_of_Z 100 + Q2Qc (1 # 2))%Qc) / Qc_of_Z 100)%Qc.
Proof. reflexivity. Qed.

Lemma bound_from_floor (x : Qc) (k : Z) :
  (Qc_of_Z k <= x * Qc_of_Z 100 + Q2Qc (1 # 2))%Qc ->
  (x * Qc_of_Z 100 + Q2Qc (1 # 2) < Qc_of_Z (k + 1))%Qc ->
  (Qc_of_Z k / Qc_of_Z 100 - x <= Q2Qc (1 # 200))%Qc
  /\ (x - Qc_of_Z k / Qc_of_Z 100 <= Q2Qc (1 # 200))%Qc.
Proof.
  intros Hlo Hhi. Qc_to_Q.
  rewrite inject_Z_plus in Hhi.
  assert (E : (/ inject_Z 100 == 1 # 100)%Q) by reflexivity. rewrite E.
  assert (E100 : (inject_Z 100 == 100)%Q) by reflexivity. rewrite E100 in *.
  assert (E1 : (inject_Z 1 == 1)%Q) by reflexivity. rewrite E1 in *.
  split; lra.
Qed.

(** Rounding to 2 decimal places moves a value by half a cent at most. *)
Lemma round2_error (x : Qc) :
  (round2 x - x <= Q2Qc (1 # 200))%Qc /\ (x - round2 x <= Q2Qc (1 # 200))%Qc.
Proof.
  rewrite round2_unfold. apply bound_from_floor; apply Qc_round_bounds.
Qed.

(** X7.  In exact arithmetic every stored planned field is within half a cent of
    the unrounded running quantity, on every day: the rounding error does
    not accumulate over the month. *)
Theorem stored_fields_within_half_cent
  (initialBalance : Qc) (year month : Z) (transactions : list (Transaction Qc))
  (actualEntries : list (ActualEntry Qc)) (d : Z) :
  valid_year_month year month -> 1 <= d <= days_in_month year month ->
  exists pts p,
    SimulationEngine.calculateDailySimulation initialBalance year month
      transactions actualEntries = Ok pts
    /\ nth_error pts (Z.to_nat (d - 1)) = Some p
    /\ (balance p - rawBalance year month transactions initialBalance d
        <= Q2Qc (1 # 200))%Qc
    /\ (rawBalance year month transactions initialBalance d - balance p
        <= Q2Qc (1 # 200))%Qc
    /\ (dailyDelta p - rawDelta year month transactions d <= Q2Qc (1 # 200))%Qc
    /\ (rawDelta year month transactions d - dailyDelta p <= Q2Qc (1 # 200))%Qc
    /\ (Types.cumulativeIncome p - rawCumulativeIncome year month transactions d
        <= Q2Qc (1 # 200))%Qc
    /\ (rawCumulativeIncome year month transactions d - Types.cumulativeIncome p
        <= Q2Qc (1 # 200))%Qc
    /\ (Types.cumulativeExpenses p - rawCumulativeExpenses year month transactions d
        <= Q2Qc (1 # 200))%Qc
    /\ (rawCumulativeExpenses year month transactions d - Types.cumulativeExpenses p
        <= Q2Qc (1 # 200))%Qc.
Proof.
  intros V Hd.
  destruct (calculateDailySimulation_point initialBalance year month transactions
              actualEntries d V Hd) as (pts & Hpts & Hp).
  exists pts, (point_of year month transactions initialBalance actualEntries d).
  split; [exact Hpts | split; [exact Hp |]].
  cbn [balance dailyDelta Types.cumulativeIncome Types.cumulativeExpenses point_of].
  repeat split; apply round2_error.
Qed.

(** One day of rules moves the delta by what it adds to the income total
    minus what it adds to the expense total. *)
Lemma steps_identity year month (l : list (Transaction Qc)) d (delta inc exp : Qc) :
  (delta_step year month l d delta + expense_step year month l d exp
   - income_step year month l d inc
   = delta + exp - inc)%Qc.
Proof.
  unfold delta_step, income_step, expense_step.
  revert delta inc exp. induction l as [| t l IH]; intros delta inc exp.
  - reflexivity.
  - cbn [fold_left]. rewrite IH. unfold contribution.
    destruct (fires year month t d), (is_INCOME (type t)); cbn; ring.
Qed.

(** The accounting identity of the unrounded running state. *)
Lemma raw_accounting_identity year month (l : list (Transaction Qc)) ib d :
  (rawBalance year month l ib d + rawCumulativeExpenses year month l d
   = ib + rawCumulativeIncome year month l d)%Qc.
Proof.
  pattern d. apply (upper_bound_ind 1); clear d.
  - intros d Hd. unfold rawBalance, rawCumulativeExpenses, rawCumulativeIncome.
    rewrite !for_range_nil by assumption. cbn. ring.
  - intros d Hd IH.
    rewrite rawBalance_succ, rawCumulativeIncome_succ, rawCumulativeExpenses_succ
      by assumption.
    pose proof (steps_identity year month l (d + 1) (num_of_Z 0)
                  (rawCumulativeIncome year month l d)
                  (rawCumulativeExpenses year month l d)) as Hs.
    fold (rawDelta year month l (d + 1)) in Hs.
    change (@add Qc QcNumber) with Qcplus.
    change (@num_of_Z Qc QcNumber 0) with (Qc_of_Z 0) in Hs.
    replace (rawBalance year month l ib d
             + rawDelta year month l (d + 1)
             + expense_step year month l (d + 1) (rawCumulativeExpenses year month l d))%Qc
      with (rawBalance year month l ib d
            + (rawDelta year month l (d + 1)
               + expense_step year month l (d + 1) (rawCumulativeExpenses year month l d)
               - income_step year month l (d + 1) (rawCumulativeIncome year month l d))
            + income_step year month l (d + 1) (rawCumulativeIncome year month l d))%Qc
      by ring.
    rewrite Hs.
    replace (Qc_of_Z 0) with 0%Qc by (apply Qc_is_canon; reflexivity).
    replace (rawBalance year month l ib d
             + (0 + rawCumulativeExpenses year month l d
                - rawCumulativeIncome year month l d)
             + income_step year month l (d + 1) (rawCumulativeIncome year month l d))%Qc
      with (rawBalance year month l ib d + rawCumulativeExpenses year month l d
            - rawCumulativeIncome year month l d
            + income_step year month l (d + 1) (rawCumulativeIncome year month l d))%Qc
      by ring.
    rewrite IH. ring.
Qed.

(** X8.  In exact arithmetic the day loop keeps the accounting identity
    plannedBalance + cumulativeExpenses = initialBalance + cumulativeIncome,
    and on every stored point balance differs from
    initialBalance + cumulativeIncome - cumulativeExpenses by 1.5 cents at
    most (three roundings of half a cent). *)
Theorem accounting_identity
  (initialBalance : Qc) (year month : Z) (transactions : list (Transaction Qc))
  (actualEntries : list (ActualEntry Qc)) (d : Z) :
  valid_year_month year month -> 1 <= d <= days_in_month year month ->
  (let st := for_range 1 d
               (SimulationEngine.day_body year month transactions actualEntries
                  (latest_entry actualEntries) (smoothRates transactions))
               {| l_plannedBalance := initialBalance;
                  l_cumulativeIncome := num_of_Z 0;
                  l_cumulativeExpenses := num_of_Z 0;
                  l_points := [] |} in
   (l_plannedBalance st + l_cumulativeExpenses st
    = initialBalance + l_cumulativeIncome st)%Qc)
  /\ exists pts p,
      SimulationEngine.calculateDailySimulation initialBalance year month
        transactions actualEntries = Ok pts
      /\ nth_error pts (Z.to_nat (d - 1)) = Some p
      /\ (balance p
          - (initialBalance + Types.cumulativeIncome p - Types.cumulativeExpenses p)
          <= Q2Qc (3 # 200))%Qc
      /\ (initialBalance + Types.cumulativeIncome p - Types.cumulativeExpenses p
          - balance p
          <= Q2Qc (3 # 200))%Qc.
Proof.
  intros V Hd. split.
  - rewrite day_loop_reading.
    cbn [l_plannedBalance l_cumulativeIncome l_cumulativeExpenses].
    apply raw_accounting_identity.
  - destruct (calculateDailySimulation_point initialBalance year month transactions
                actualEntries d V Hd) as (pts & Hpts & Hp).
    exists pts, (point_of year month transactions initialBalance actualEntries d).
    split; [exact Hpts | split; [exact Hp |]].
    cbn [balance Types.cumulativeIncome Types.cumulativeExpenses point_of].
    pose proof (raw_accounting_identity year month transactions initialBalance d) as Hid.
    destruct (round2_error (rawBalance year month transactions initialBalance d))
      as [Hb1 Hb2].
    destruct (round2_error (rawCumulativeIncome year month transactions d)) as [Hi1 Hi2].
    destruct (round2_error (rawCumulativeExpenses year month transactions d)) as [He1 He2].
    set (B := rawBalance year month transactions initialBalance d) in *.
    set (I := rawCumulativeIncome year month transactions d) in *.
    set (E := rawCumulativeExpenses year month transactions d) in *.
    set (b := round2 B) in *. set (i := round2 I) in *. set (e := round2 E) in *.
    apply (f_equal this) in Hid.
    assert (Hid' : (this B + this E == this initialBalance + this I)%Q).
    { revert Hid. unfold Qcplus. cbn [this Q2Qc]. intros Hid.
      rewrite <- (Qred_correct (this B + this E)), <- (Qred_correct (this initialBalance + this I)).
      rewrite Hid. reflexivity. }
    clear Hid. Qc_to_Q. split; lra.
Qed.

End ExactRounding.

Lemma stored_fields_within_half_cent_witness :
  Calendar.valid_year_month 2024 0 /\ 1 <= 31 <= Calendar.days_in_month 2024 0
  /\ exists pts p,
      SimulationEngine.calculateDailySimulation (Exact.milli 125) 2024 0
        [Examples.smooth_income_1] [] = Ok pts
      /\ nth_error pts (Z.to_nat (31 - 1)) = Some p
      /\ (Types.balance p - rawBalance 2024 0 [Examples.smooth_income_1] (Exact.milli 125) 31
          <= Q2Qc (1 # 200))%Qc.
Proof.
  assert (V : Calendar.valid_year_month 2024 0) by (unfold Calendar.valid_year_month; lia).
  assert (Hd : 1 <= 31 <= Calendar.days_in_month 2024 0) by (cbn; lia).
  destruct (stored_fields_within_half_cent (Exact.milli 125) 2024 0
              [Examples.smooth_income_1] [] 31 V Hd)
    as (pts & p & Hpts & Hp & Hb & _).
  split; [exact V | split; [exact Hd |]].
  exists pts, p. split; [exact Hpts | split; [exact Hp | exact Hb]].
Defined.

Lemma accounting_identity_witness :
  Calendar.valid_year_month 2024 0 /\ 1 <= 31 <= Calendar.days_in_month 2024 0
  /\ exists pts p,
      SimulationEngine.calculateDailySimulation (Exact.milli 125) 2024 0
        [Examples.smooth_income_1; Examples.once_expense_0375] [] = Ok pts
      /\ nth_error pts (Z.to_nat (31 - 1)) = Some p
      /\ (Types.balance p
          - (Exact.milli 125 + Types.cumulativeIncome p - Types.cumulativeExpenses p)
          <= Q2Qc (3 # 200))%Qc.
Proof.
  assert (V : Calendar.valid_year_month 2024 0) by (unfold Calendar.valid_year_month; lia).
  assert (Hd : 1 <= 31 <= Calendar.days_in_month 2024 0) by (cbn; lia).
  destruct (accounting_identity (Exact.milli 125) 2024 0
              [Examples.smooth_income_1; Examples.once_expense_0375] [] 31 V Hd)
    as (_ & pts & p & Hpts & Hp & Hb & _).
  split; [exact V | split; [exact Hd |]].
  exists pts, p. split; [exact Hpts | split; [exact Hp | exact Hb]].
Defined.

Section ExactCents.
Import Types Calendar Exact.

Lemma Qc_of_Z_100_neq_0 : Qc_of_Z 100 <> 0%Qc.
Proof. intros E. apply (f_equal this) in E. discriminate E. Qed.

Lemma Qfloor_half k : Qfloor (inject_Z k + (1 # 2)) = k.
Proof.
  unfold Qfloor, Qplus, inject_Z. cbn [Qnum Qden].
  change (Z.pos (1 * 2)) with 2.
  replace (k * 2 + 1 * 1) with (1 + k * 2) by lia.
  rewrite Z.div_add by lia. reflexivity.
Qed.

Lemma Qc_of_Z_add a b : (Qc_of_Z a + Qc_of_Z b = Qc_of_Z (a + b))%Qc.
Proof.
  apply Qc_is_canon. unfold Qc_of_Z, Qcplus. cbn [this Q2Qc].
  rewrite !Qred_correct, inject_Z_plus. reflexivity.
Qed.

Lemma Qc_of_Z_opp a : (- Qc_of_Z a = Qc_of_Z (- a))%Qc.
Proof.
  apply Qc_is_canon. unfold Qc_of_Z, Qcopp. cbn [this Q2Qc].
  rewrite !Qred_correct, inject_Z_opp. reflexivity.
Qed.

(** Rounding to 2 decimal places leaves a whole number of cents as it is. *)
Lemma round2_cents (x : Qc) : is_cents x -> round2 x = x.
Proof.
  intros [k ->]. rewrite round2_unfold.
  replace (Qc_of_Z k / Qc_of_Z 100 * Qc_of_Z 100)%Qc with (Qc_of_Z k)
    by (field; apply Qc_of_Z_100_neq_0).
  do 2 f_equal. unfold Qc_of_Z, Qcplus. cbn [this Q2Qc].
  rewrite !Qred_correct. apply Qfloor_half.
Qed.

Lemma round2_is_cents (x : Qc) : is_cents (round2 x).
Proof. rewrite round2_unfold. eexists. reflexivity. Qed.

Lemma is_cents_0 : is_cents (num_of_Z 0).
Proof. exists 0. apply Qc_is_canon. reflexivity. Qed.

Lemma is_cents_add x y : is_cents x -> is_cents y -> is_cents (add x y).
Proof.
  intros [a ->] [b ->]. exists (a + b). rewrite <- Qc_of_Z_add.
  change (@add Qc QcNumber) with Qcplus. field. apply Qc_of_Z_100_neq_0.
Qed.

Lemma is_cents_abs x : is_cents x -> is_cents (Math_abs x).
Proof.
  intros Hx. change (Math_abs x) with (Qc_abs x). unfold Qc_abs.
  destruct (Qc_ltb x (Qc_of_Z 0)); [| exact Hx].
  destruct Hx as [a ->]. exists (- a). rewrite <- Qc_of_Z_opp.
  field. apply Qc_of_Z_100_neq_0.
Qed.

Lemma is_cents_sum (l : list Qc) (s : Qc) :
  is_cents s -> Forall is_cents l -> is_cents (fold_left add l s).
Proof.
  intros Hs Hl. revert s Hs. induction Hl as [| x l Hx Hl IH]; intros s Hs; [exact Hs |].
  cbn [fold_left]. apply IH, is_cents_add; assumption.
Qed.

Lemma Forall_firstn_skipn {A : Type} (P : A -> Prop) (l : list A) i n :
  Forall P l -> Forall P (firstn n (skipn i l)).
Proof.
  intros Hl.
  rewrite <- (firstn_skipn i l) in Hl. apply Forall_app in Hl. destruct Hl as [_ Hs].
  rewrite <- (firstn_skipn n (skipn i l)) in Hs. apply Forall_app in Hs. apply Hs.
Qed.

(** On daily points whose dailyDelta is a whole number of cents, the weekly
    income and expenses are the sums themselves: the rounding changes
    nothing. *)
Lemma weekly_sums_of_cents (dailyPoints : list (SimulationPoint Qc)) k :
  Forall (fun p => is_cents (dailyDelta p)) dailyPoints ->
  round2 (sum_positive (chunk_at dailyPoints k)) = sum_positive (chunk_at dailyPoints k)
  /\ round2 (sum_negative_abs (chunk_at dailyPoints k))
     = sum_negative_abs (chunk_at dailyPoints k).
Proof.
  intros Hall.
  assert (Hchunk : Forall (fun p => is_cents (dailyDelta p)) (chunk_at dailyPoints k))
    by (apply Forall_firstn_skipn, Hall).
  rewrite Forall_forall in Hchunk.
  split; apply round2_cents, is_cents_sum; try apply is_cents_0;
    apply Forall_forall; intros x Hx; apply in_map_iff in Hx;
    destruct Hx as (p & <- & Hp); apply filter_In in Hp; destruct Hp as [Hp _].
  - apply Hchunk, Hp.
  - apply is_cents_abs, Hchunk, Hp.
Qed.

Lemma aggregateToWeekly_reading (dailyPoints : list (SimulationPoint Qc)) :
  SimulationEngine.aggregateToWeekly dailyPoints
  = Ok (weeks_from dailyPoints 0 (week_count (List.length dailyPoints))).
Proof.
  unfold SimulationEngine.aggregateToWeekly.
  apply (weekly_loop_reading dailyPoints (week_count (List.length dailyPoints)) 0 []).
  lia.
Qed.

(** X9.  In exact arithmetic, aggregating the simulator's own output loses
    nothing to rounding: the income of every week is exactly the sum of the
    stored positive daily deltas of its days, and its expenses exactly the
    sum of the absolute values of the stored negative ones. *)
Theorem weekly_sums_exact_on_simulation
  (initialBalance : Qc) (year month : Z) (transactions : list (Transaction Qc))
  (actualEntries : list (ActualEntry Qc)) :
  valid_year_month year month ->
  exists pts ws,
    SimulationEngine.calculateDailySimulation initialBalance year month
      transactions actualEntries = Ok pts
    /\ SimulationEngine.aggregateToWeekly pts = Ok ws
    /\ List.length ws = week_count (Z.to_nat (days_in_month year month))
    /\ forall k, (k < List.length ws)%nat ->
         exists w,
           nth_error ws k = Some w
           /\ income w = sum_positive (chunk_at pts k)
           /\ expenses w = sum_negative_abs (chunk_at pts k).
Proof.
  intros V.
  set (pts := map (point_of year month transactions initialBalance actualEntries)
                (range 1 (days_in_month year month))).
  assert (Hcents : Forall (fun p => is_cents (dailyDelta p)) pts).
  { apply Forall_forall. intros p Hp. apply in_map_iff in Hp.
    destruct Hp as (d & <- & _). apply round2_is_cents. }
  assert (Hlen : List.length pts = Z.to_nat (days_in_month year month)).
  { unfold pts. rewrite length_map, length_range. f_equal. lia. }
  exists pts, (weeks_from pts 0 (week_count (List.length pts))).
  split; [apply calculateDailySimulation_valid, V |].
  split; [apply aggregateToWeekly_reading |].
  rewrite weeks_from_length. split; [rewrite Hlen; reflexivity |].
  intros k Hk.
  destruct (weeks_from_nth pts (week_count (List.length pts)) 0 k) as [_ (lp & _ & Hw)];
    [| exact Hk |].
  { assert (Hlast : (7 * (week_count (List.length pts) - 1) < List.length pts)%nat)
      by (apply week_count_lt; lia).
    lia. }
  exists (week_reading pts k lp). split; [exact Hw |].
  destruct (weekly_sums_of_cents pts k Hcents) as [Ri Re].
  cbn [income expenses week_reading]. rewrite Ri, Re. split; reflexivity.
Qed.

End ExactCents.

Lemma weekly_sums_exact_on_simulation_witness :
  Calendar.valid_year_month 2024 0
  /\ exists pts ws,
      SimulationEngine.calculateDailySimulation (Exact.milli 125) 2024 0
        [Examples.smooth_income_1; Examples.once_expense_0375] [] = Ok pts
      /\ SimulationEngine.aggregateToWeekly pts = Ok ws
      /\ List.length ws = week_count (Z.to_nat (Calendar.days_in_month 2024 0)).
Proof.
  assert (V : Calendar.valid_year_month 2024 0) by (unfold Calendar.valid_year_month; lia).
  destruct (weekly_sums_exact_on_simulation (Exact.milli 125) 2024 0
              [Examples.smooth_income_1; Examples.once_expense_0375] [] V)
    as (pts & ws & Hpts & Hws & Hlen & _).
  split; [exact V |]. exists pts, ws. split; [exact Hpts | split; [exact Hws | exact Hlen]].
Defined.

(* ===================================================================== *)
(** ** part_002: the weekday counter and the older weekly aggregator *)
(* ===================================================================== *)

Section WeekdayCount.
Import JSDate Calendar.

Lemma weekday_offset y m d :
  0 <= m <= 11 -> weekday y m d = ((MakeDay y m 0 + 4) mod 7 + d) mod 7.
Proof.
  intros Hm. unfold weekday. rewrite !MakeDay_month_index by assumption.
  rewrite Zplus_mod_idemp_l. f_equal. lia.
Qed.

(** In a valid month the counter counts the days whose weekday is
    [dayOfWeek]. *)
Lemma countWeekdayOccurrences_offset y m w :
  valid_year_month y m ->
  Part002.countWeekdayOccurrences y m w
  = count_from_offset ((MakeDay y m 0 + 4) mod 7) (days_in_month y m) w.
Proof.
  intros V. unfold Part002.countWeekdayOccurrences, count_from_offset.
  rewrite getDate_day0_next by exact V.
  apply for_range_ext_in. intros c d Hd.
  rewrite dow_eq_in_month, weekday_offset by (assumption || apply V). reflexivity.
Qed.

Lemma count_from_offset_table :
  forallb (fun r =>
    forallb (fun n =>
      (forallb (fun w => let c := count_from_offset r n w in (4 <=? c) && (c <=? 5))
         [0; 1; 2; 3; 4; 5; 6])
      && (fold_left (fun s w => s + count_from_offset r n w) [0; 1; 2; 3; 4; 5; 6] 0 =? n))
      [28; 29; 30; 31])
    [0; 1; 2; 3; 4; 5; 6] = true.
Proof. vm_compute. reflexivity. Qed.

Lemma count_from_offset_facts r n :
  0 <= r <= 6 -> 28 <= n <= 31 ->
  (forall w, 0 <= w <= 6 -> 4 <= count_from_offset r n w <= 5)
  /\ fold_left (fun s w => s + count_from_offset r n w) [0; 1; 2; 3; 4; 5; 6] 0 = n.
Proof.
  intros Hr Hn. pose proof count_from_offset_table as T.
  rewrite forallb_forall in T.
  assert (Hrin : In r [0; 1; 2; 3; 4; 5; 6]) by (cbn; lia).
  specialize (T r Hrin). rewrite forallb_forall in T.
  assert (Hnin : In n [28; 29; 30; 31]) by (cbn; lia).
  specialize (T n Hnin). apply andb_prop in T. destruct T as [Tw Ts].
  split.
  - intros w Hw. rewrite forallb_forall in Tw.
    assert (Hwin : In w [0; 1; 2; 3; 4; 5; 6]) by (cbn; lia).
    specialize (Tw w Hwin). cbv zeta in Tw. apply andb_prop in Tw. lia.
  - apply Z.eqb_eq, Ts.
Qed.

Lemma count_never (f : Z -> bool) lo hi :
  (forall d, f d = false) ->
  for_range lo hi (fun count d => if f d then count + 1 else count) 0 = 0.
Proof.
  intros Hf. unfold for_range. induction (range lo hi) as [| d ds IH]; [reflexivity |].
  cbn [fold_left]. rewrite Hf. exact IH.
Qed.

Lemma dow_eq_out_of_range t w : ~ (0 <= w <= 6) -> dow_eq (getDay t) w = false.
Proof.
  intros Hw. destruct t as [tv |]; [| reflexivity]. cbn. unfold WeekDay.
  pose proof (Z.mod_pos_bound (Day tv + 4) 7 ltac:(lia)). apply Z.eqb_neq. lia.
Qed.

Lemma count_bounds_valid year month w :
  valid_year_month year month -> 0 <= w <= 6 ->
  4 <= Part002.countWeekdayOccurrences year month w <= 5.
Proof.
  intros V Hw.
  pose proof (Z.mod_pos_bound (MakeDay year month 0 + 4) 7 ltac:(lia)) as Hr.
  pose proof (days_in_month_range year month) as Hn.
  rewrite countWeekdayOccurrences_offset by exact V.
  destruct (count_from_offset_facts ((MakeDay year month 0 + 4) mod 7)
              (days_in_month year month) ltac:(lia) Hn) as [Hb _].
  apply Hb, Hw.
Qed.

Lemma count_zero_no_weekday year month w :
  ~ (0 <= w <= 6) -> Part002.countWeekdayOccurrences year month w = 0.
Proof.
  intros Hw. unfold Part002.countWeekdayOccurrences.
  destruct (getDate _) as [n |]; [| reflexivity].
  apply (count_never (fun d => dow_eq (getDay (make year month d)) w)).
  intros d. apply dow_eq_out_of_range, Hw.
Qed.

(** X10.  In a valid month every weekday 0..6 occurs 4 or 5 times, the seven
    counts add up to the number of days of the month, and a dayOfWeek
    outside 0..6, which is the weekday of no date, is counted 0 times. *)
Theorem countWeekdayOccurrences_range (year month : Z) :
  valid_year_month year month ->
  (forall dayOfWeek, 0 <= dayOfWeek <= 6 ->
     4 <= Part002.countWeekdayOccurrences year month dayOfWeek <= 5)
  /\ fold_left (fun s w => s + Part002.countWeekdayOccurrences year month w)
       [0; 1; 2; 3; 4; 5; 6] 0
     = days_in_month year month
  /\ (forall dayOfWeek, ~ (0 <= dayOfWeek <= 6) ->
      Part002.countWeekdayOccurrences year month dayOfWeek = 0).
Proof.
  intros V.
  pose proof (Z.mod_pos_bound (MakeDay year month 0 + 4) 7 ltac:(lia)) as Hr.
  pose proof (days_in_month_range year month) as Hn.
  destruct (count_from_offset_facts ((MakeDay year month 0 + 4) mod 7)
              (days_in_month year month) ltac:(lia) Hn) as [_ Hs].
  split; [| split].
  - intros w Hwr. apply count_bounds_valid; assumption.
  - rewrite <- Hs. cbn [fold_left].
    rewrite !countWeekdayOccurrences_offset by exact V. reflexivity.
  - intros w Hw. apply count_zero_no_weekday, Hw.
Qed.

End WeekdayCount.

Lemma countWeekdayOccurrences_range_witness :
  Calendar.valid_year_month 2024 1
  /\ 4 <= Part002.countWeekdayOccurrences 2024 1 4 <= 5
  /\ Part002.countWeekdayOccurrences 2024 1 4 = 5
  /\ Part002.countWeekdayOccurrences 2024 1 7 = 0.
Proof.
  assert (V : Calendar.valid_year_month 2024 1) by (unfold Calendar.valid_year_month; lia).
  destruct (countWeekdayOccurrences_range 2024 1 V) as (Hb & _ & Hz).
  split; [exact V |].
  split; [apply Hb; lia | split; [reflexivity | apply Hz; lia]].
Defined.

Section FiringDays.
Context {num : Type} `{Number num}.
Import Types Calendar.

Lemma count_is_length_filter (f : Z -> bool) lo hi :
  for_range lo hi (fun count d => if f d then count + 1 else count) 0
  = Z.of_nat (List.length (filter f (range lo hi))).
Proof.
  unfold for_range.
  assert (G : forall l c, fold_left (fun count d => if f d then count + 1 else count) l c
                          = c + Z.of_nat (List.length (filter f l))).
  { induction l as [| d ds IH]; intros c; cbn [fold_left filter List.length]; [lia |].
    rewrite IH. destruct (f d); cbn [List.length]; lia. }
  apply G.
Qed.

End FiringDays.

Section OlderAggregator.
Context {num : Type} `{Number num}.
Import Types.

(** The two weekly loops run in step when their weekly points correspond. *)
Lemma weekly_loops_related (f : WeeklySimulationPoint num -> WeeklySimulationPoint num)
  (dailyPoints : list (SimulationPoint num)) :
  (forall i k, Part002.weekly_point dailyPoints i k
               = (w <- SimulationEngine.weekly_point dailyPoints i k ;; Ok (f w))) ->
  forall m i k weeklyPoints,
    (List.length dailyPoints - i <= m)%nat ->
    Part002.weekly_loop dailyPoints i k (map f weeklyPoints)
    = (ws <- SimulationEngine.weekly_loop dailyPoints i k weeklyPoints ;; Ok (map f ws)).
Proof.
  intros Hpoint. induction m as [| m IH]; intros i k acc Hm;
    rewrite Part002.weekly_loop_equation_1, SimulationEngine.weekly_loop_equation_1;
    destruct (lt_dec i (List.length dailyPoints)) as [Hlt | Hge];
    cbn [Part002.weekly_loop_unfold_clause_1
         SimulationEngine.weekly_loop_unfold_clause_1]; try reflexivity; try lia.
  rewrite Hpoint.
  destruct (SimulationEngine.weekly_point dailyPoints i k) as [w |];
    cbn [bind Part002.weekly_loop_unfold_clause_1_clause_1
         SimulationEngine.weekly_loop_unfold_clause_1_clause_1]; [| reflexivity].
  replace (map f acc ++ [f w]) with (map f (acc ++ [w])) by (rewrite map_app; reflexivity).
  apply IH. lia.
Qed.

Lemma weekly_point_without_actualBalance (dailyPoints : list (SimulationPoint num)) i k :
  Part002.weekly_point dailyPoints i k
  = (w <- SimulationEngine.weekly_point dailyPoints i k ;; Ok (without_actualBalance w)).
Proof.
  unfold Part002.weekly_point, SimulationEngine.weekly_point.
  destruct (nth_error _ _); reflexivity.
Qed.

Lemma weekly_point_no_actualBalance (dailyPoints : list (SimulationPoint num)) i k :
  Forall (fun p => actualBalance p = None) dailyPoints ->
  Part002.weekly_point dailyPoints i k
  = (w <- SimulationEngine.weekly_point dailyPoints i k ;; Ok ((fun w => w) w)).
Proof.
  intros Hnone. unfold Part002.weekly_point, SimulationEngine.weekly_point.
  destruct (nth_error _ _) as [lastPoint |] eqn:E; [| reflexivity].
  cbn [bind]. do 2 f_equal.
  apply nth_error_In in E. unfold slice in E.
  assert (Hin : In lastPoint dailyPoints).
  { rewrite <- (firstn_skipn i dailyPoints). apply in_or_app. right.
    rewrite <- (firstn_skipn (i + 7 - i) (skipn i dailyPoints)).
    apply in_or_app. left. exact E. }
  rewrite Forall_forall in Hnone. symmetry. apply Hnone, Hin.
Qed.

(** X12.  The older aggregator returns the weekly points of the newer one with
    their actualBalance left out, and throws exactly when it does; on the
    output of the older simulator the whole older pipeline is the newer
    pipeline run without observed entries. *)
Theorem older_aggregateToWeekly_agrees
  (dailyPoints : list (SimulationPoint num))
  (initialBalance : num) (year month : Z) (transactions : list (Transaction num)) :
  Part002.aggregateToWeekly dailyPoints
  = (ws <- SimulationEngine.aggregateToWeekly dailyPoints ;;
     Ok (map without_actualBalance ws))
  /\ Part002.aggregateToWeekly
       (Part002.calculateDailySimulation initialBalance year month transactions)
     = (pts <- SimulationEngine.calculateDailySimulation initialBalance year month
                 transactions [] ;;
        SimulationEngine.aggregateToWeekly pts).
Proof.
  split.
  - unfold Part002.aggregateToWeekly, SimulationEngine.aggregateToWeekly.
    apply (weekly_loops_related without_actualBalance dailyPoints
             (weekly_point_without_actualBalance dailyPoints)
             (List.length dailyPoints) 0%nat 1%nat []).
    lia.
  - rewrite calculateDailySimulation_reading, calculateDailySimulation_reading_002.
    cbn [bind].
    set (pts := match JSDate.getDate _ with Some n => _ | None => [] end).
    assert (Hnone : Forall (fun p => actualBalance p = None) pts).
    { unfold pts. destruct (JSDate.getDate _); [| constructor].
      apply Forall_forall. intros p Hp. apply in_map_iff in Hp.
      destruct Hp as (d & <- & _). reflexivity. }
    unfold Part002.aggregateToWeekly, SimulationEngine.aggregateToWeekly.
    pose proof (weekly_loops_related (fun w => w) pts
                  (fun i k => weekly_point_no_actualBalance pts i k Hnone)
                  (List.length pts) 0%nat 1%nat [] ltac:(lia)) as Hrel.
    cbn [map] in Hrel. rewrite Hrel.
    destruct (SimulationEngine.weekly_loop pts 0 1 []) as [ws |]; [| reflexivity].
    cbn [bind]. rewrite map_id. reflexivity.
Qed.

End OlderAggregator.

(* ===================================================================== *)
(** ** Facts about objects, arrays and keys *)
(* ===================================================================== *)

Section ObjectFacts.
Context {V : Type}.

Lemma get_set_eq (k : string) (v : V) (o : JSObject.t V) :
  JSObject.get k (JSObject.set k v o) = Some v.
Proof.
  induction o as [| [k' v'] o IH]; cbn [JSObject.set JSObject.get].
  - rewrite String.eqb_refl. reflexivity.
  - destruct (String.eqb k' k) eqn:E; cbn [JSObject.get]; rewrite E; [reflexivity | exact IH].
Qed.

Lemma get_set_neq (k k' : string) (v : V) (o : JSObject.t V) :
  k' <> k -> JSObject.get k' (JSObject.set k v o) = JSObject.get k' o.
Proof.
  intros Hk. induction o as [| [k0 v0] o IH]; cbn [JSObject.set JSObject.get].
  - rewrite (proj2 (String.eqb_neq k k')); [reflexivity | congruence].
  - destruct (String.eqb k0 k) eqn:E; cbn [JSObject.get].
    + apply String.eqb_eq in E. subst k0.
      rewrite (proj2 (String.eqb_neq k k')); [reflexivity | congruence].
    + destruct (String.eqb k0 k'); [reflexivity | exact IH].
Qed.

Lemma get_delete_eq (k : string) (o : JSObject.t V) :
  JSObject.get k (JSObject.delete k o) = None.
Proof.
  unfold JSObject.delete.
  induction o as [| [k' v'] o IH]; cbn [filter JSObject.get fst]; [reflexivity |].
  destruct (String.eqb k' k) eqn:E; cbn [negb]; [exact IH |].
  cbn [JSObject.get]. rewrite E. exact IH.
Qed.

Lemma get_delete_neq (k k' : string) (o : JSObject.t V) :
  k' <> k -> JSObject.get k' (JSObject.delete k o) = JSObject.get k' o.
Proof.
  intros Hk. unfold JSObject.delete.
  induction o as [| [k0 v0] o IH]; cbn [filter JSObject.get fst]; [reflexivity |].
  destruct (String.eqb k0 k) eqn:E; cbn [negb JSObject.get].
  - apply String.eqb_eq in E. subst k0.
    rewrite (proj2 (String.eqb_neq k k')); [exact IH | congruence].
  - destruct (String.eqb k0 k'); [reflexivity | exact IH].
Qed.

Lemma get_In_keys (k : string) (o : JSObject.t V) :
  In k (JSObject.keys o) <-> JSObject.get k o <> None.
Proof.
  unfold JSObject.keys.
  induction o as [| [k' v'] o IH]; cbn [map JSObject.get fst In].
  - split; [intros [] | intros Hn; apply Hn; reflexivity].
  - destruct (String.eqb_spec k' k) as [-> | Hne].
    + split; [discriminate | left; reflexivity].
    + rewrite <- IH. split; [intros [Hk | Hk]; [contradiction | exact Hk] | right; assumption].
Qed.

Lemma keys_set (k : string) (v : V) (o : JSObject.t V) :
  JSObject.keys (JSObject.set k v o)
  = if in_dec string_dec k (JSObject.keys o)
    then JSObject.keys o else JSObject.keys o ++ [k].
Proof.
  unfold JSObject.keys.
  induction o as [| [k' v'] o IH]; cbn [JSObject.set map fst].
  - destruct (in_dec string_dec k []) as [[] | _]. reflexivity.
  - destruct (String.eqb_spec k' k) as [-> | Hne]; cbn [map fst].
    + destruct (in_dec string_dec k (k :: map fst o)) as [_ | Hn]; [reflexivity |].
      exfalso. apply Hn. left. reflexivity.
    + rewrite IH.
      destruct (in_dec string_dec k (map fst o)) as [Hi | Hn];
        destruct (in_dec string_dec k (k' :: map fst o)) as [Hi' | Hn']; try reflexivity.
      * exfalso. apply Hn'. right. exact Hi.
      * exfalso. destruct Hi' as [He | Hi']; [congruence | contradiction].
Qed.

Lemma well_formed_set (k : string) (v : V) (o : JSObject.t V) :
  JSObject.well_formed o -> JSObject.well_formed (JSObject.set k v o).
Proof.
  unfold JSObject.well_formed. intros Hwf. rewrite keys_set.
  destruct (in_dec string_dec k (JSObject.keys o)) as [Hi | Hn]; [exact Hwf |].
  apply NoDup_app; [exact Hwf | constructor; [intros [] | constructor] |].
  intros x Hx [<- | []]. contradiction.
Qed.

Lemma well_formed_delete (k : string) (o : JSObject.t V) :
  JSObject.well_formed o -> JSObject.well_formed (JSObject.delete k o).
Proof.
  unfold JSObject.well_formed, JSObject.keys, JSObject.delete.
  induction o as [| [k' v'] o IH]; cbn [filter map fst]; intros Hwf; [constructor |].
  inversion Hwf as [| ? ? Hnin Hrest]; subst.
  destruct (String.eqb k' k); cbn [negb map fst]; [apply IH, Hrest |].
  constructor; [| apply IH, Hrest].
  intros Hin. apply Hnin. apply in_map_iff in Hin. destruct Hin as [[k0 v0] [E Hin]].
  apply filter_In in Hin. apply in_map_iff. exists (k0, v0). split; [exact E | apply Hin].
Qed.

End ObjectFacts.

(** A loop that rewrites the entry of each key of a list of distinct keys
    applies the rewriting once to each of them and leaves the other keys
    alone. *)
Section KeyLoop.
Context {V : Type}.
Variable u : option V -> V.

Lemma key_loop_other (ks : list string) (o : JSObject.t V) (k : string) :
  ~ In k ks ->
  JSObject.get k
    (fold_left (fun o k' => JSObject.set k' (u (JSObject.get k' o)) o) ks o)
  = JSObject.get k o.
Proof.
  revert o. induction ks as [| k0 ks IH]; intros o Hn; cbn [fold_left]; [reflexivity |].
  rewrite IH by (intros Hi; apply Hn; right; exact Hi).
  apply get_set_neq. intros ->. apply Hn. left. reflexivity.
Qed.

Lemma key_loop_member (ks : list string) (o : JSObject.t V) (k : string) :
  NoDup ks -> In k ks ->
  JSObject.get k
    (fold_left (fun o k' => JSObject.set k' (u (JSObject.get k' o)) o) ks o)
  = Some (u (JSObject.get k o)).
Proof.
  revert o. induction ks as [| k0 ks IH]; intros o Hnd Hin; [destruct Hin |].
  inversion Hnd as [| ? ? Hnin Hrest]; subst. cbn [fold_left].
  destruct Hin as [-> | Hin].
  - rewrite key_loop_other by exact Hnin. apply get_set_eq.
  - rewrite IH by assumption. f_equal. f_equal. apply get_set_neq.
    intros ->. contradiction.
Qed.

End KeyLoop.

Lemma filter_filter_neg {A : Type} (f : A -> bool) (l : list A) :
  filter f (filter (fun x => negb (f x)) l) = [].
Proof.
  induction l as [| x l IH]; cbn [filter]; [reflexivity |].
  destruct (f x) eqn:Fx; cbn [negb filter]; [exact IH |].
  rewrite Fx. exact IH.
Qed.

Lemma filter_idem {A : Type} (f : A -> bool) (l : list A) :
  filter f (filter f l) = filter f l.
Proof.
  induction l as [| x l IH]; cbn [filter]; [reflexivity |].
  destruct (f x) eqn:Fx; cbn [filter]; [rewrite Fx, IH; reflexivity | exact IH].
Qed.

Section ArrayFacts.
Context {A : Type}.

Lemma pop_app (l : list A) (x : A) : pop (l ++ [x]) = Some x.
Proof.
  unfold pop. rewrite length_app. cbn [List.length].
  replace (List.length l + 1 - 1)%nat with (List.length l) by lia.
  rewrite nth_error_app2 by lia. rewrite Nat.sub_diag. reflexivity.
Qed.

Lemma pop_nil : pop (@nil A) = None.
Proof. reflexivity. Qed.

Lemma findIndex_none (f : A -> bool) (l : list A) :
  findIndex f l = None -> filter f l = [].
Proof.
  induction l as [| x l IH]; cbn [findIndex filter]; [reflexivity |].
  destruct (f x); [discriminate |].
  destruct (findIndex f l); [discriminate | intros _; apply IH; reflexivity].
Qed.

Lemma findIndex_some (f : A -> bool) (l : list A) (i : nat) :
  findIndex f l = Some i ->
  exists pre x post,
    l = pre ++ x :: post /\ List.length pre = i /\ f x = true
    /\ filter f pre = [].
Proof.
  revert i. induction l as [| x l IH]; intros i; cbn [findIndex]; [discriminate |].
  destruct (f x) eqn:Fx.
  - intros [= <-]. exists [], x, l. repeat split. exact Fx.
  - destruct (findIndex f l) as [j |]; [| discriminate].
    intros [= <-]. destruct (IH j eq_refl) as (pre & y & post & -> & Hl & Fy & Hpre).
    exists (x :: pre), y, post. cbn [app List.length filter]. rewrite Fx.
    repeat split; [congruence | exact Fy | exact Hpre].
Qed.

Lemma assign_at_middle (pre post : list A) (x y : A) :
  assign_at (List.length pre) y (pre ++ x :: post) = pre ++ y :: post.
Proof.
  induction pre as [| a pre IH]; cbn [List.length app assign_at]; [reflexivity |].
  rewrite IH. reflexivity.
Qed.

End ArrayFacts.

(** *** Month keys *)

Section KeyFacts.

Lemma string_of_uint_digits (d : Decimal.uint) :
  ~ In "_"%char (list_ascii_of_string (NilEmpty.string_of_uint d)).
Proof.
  induction d; cbn [NilEmpty.string_of_uint list_ascii_of_string In];
    [intros [] | ..]; (intros [E | Hin]; [discriminate | auto]).
Qed.

Lemma template_of_Z_digits (z : Z) :
  ~ In "_"%char (list_ascii_of_string (template_of_Z z)).
Proof.
  unfold template_of_Z, NilZero.string_of_int.
  assert (Hu : forall d, ~ In "_"%char (list_ascii_of_string (NilZero.string_of_uint d))).
  { intros d. pose proof (string_of_uint_digits d) as Hd.
    destruct d; try exact Hd.
    cbn. intros [E | []]. discriminate. }
  destruct (Z.to_int z) as [d | d]; [apply Hu |].
  cbn [list_ascii_of_string In]. intros [E | Hin]; [discriminate | exact (Hu d Hin)].
Qed.

Lemma template_of_Z_inj (y y' : Z) : template_of_Z y = template_of_Z y' -> y = y'.
Proof.
  unfold template_of_Z. intros E.
  assert (Hn : forall z, Z.to_int z <> Decimal.Pos Decimal.Nil
                         /\ Z.to_int z <> Decimal.Neg Decimal.Nil).
  { intros [| p | p]; cbn [Z.to_int]; split; try discriminate;
      intros [= Hp]; exact (DecimalPos.Unsigned.to_uint_nonnil p Hp). }
  apply (f_equal NilZero.int_of_string) in E.
  rewrite !NilZero.isi in E by apply Hn.
  injection E as E. apply DecimalZ.to_int_inj, E.
Qed.

Lemma append_sep_inj (a a' b b' : string) :
  ~ In "_"%char (list_ascii_of_string a) ->
  ~ In "_"%char (list_ascii_of_string a') ->
  (a ++ String "_" b)%string = (a' ++ String "_" b')%string ->
  a = a' /\ b = b'.
Proof.
  revert a'. induction a as [| c a IH]; intros [| c' a'];
    cbn [append list_ascii_of_string In]; intros Ha Ha' E.
  - injection E as E. split; [reflexivity | exact E].
  - injection E as Ec E. exfalso. apply Ha'. left. symmetry. exact Ec.
  - injection E as Ec E. exfalso. apply Ha. left. exact Ec.
  - injection E as Ec E. subst c'.
    destruct (IH a') as [-> ->]; [tauto | tauto | exact E | split; reflexivity].
Qed.

Lemma monthKey_inj (y m y' m' : Z) :
  App.monthKey y m = App.monthKey y' m' -> y = y' /\ m = m'.
Proof.
  unfold App.monthKey. cbn [append]. intros E.
  apply append_sep_inj in E; try apply template_of_Z_digits.
  destruct E as [Ey Em]. split; apply template_of_Z_inj; assumption.
Qed.

Lemma NoDup_map_inj {A B : Type} (f : A -> B) (l : list A) :
  (forall x y, f x = f y -> x = y) -> NoDup l -> NoDup (map f l).
Proof.
  intros Hf. induction l as [| a l IH]; intros Hnd; cbn [map]; [constructor |].
  inversion Hnd as [| ? ? Hnin Hrest]; subst.
  constructor; [| apply IH, Hrest].
  intros Hin. apply in_map_iff in Hin. destruct Hin as [x [E Hx]].
  apply Hf in E. subst x. contradiction.
Qed.

Lemma NoDup_range (lo hi : Z) : NoDup (range lo hi).
Proof.
  unfold range. apply NoDup_map_inj; [| apply seq_NoDup].
  intros i j E. lia.
Qed.

Lemma In_window_keys (cy sy sm : Z) (k : string) :
  In k (window_keys cy sy sm)
  <-> exists y m, k = App.monthKey y m /\ in_window cy sy sm y m.
Proof.
  unfold window_keys, in_window. rewrite in_flat_map. split.
  - intros [y [Hy Hk]]. apply in_map_iff in Hk. destruct Hk as [m [<- Hm]].
    exists y, m. apply in_range in Hy, Hm. split; [reflexivity | split; assumption].
  - intros [y [m [-> [Hy Hm]]]]. exists y. split; [apply in_range, Hy |].
    apply in_map, in_range, Hm.
Qed.

Lemma NoDup_flat_map {A B : Type} (f : A -> list B) (l : list A) :
  NoDup l -> (forall a, In a l -> NoDup (f a)) ->
  (forall a a' b, In a l -> In a' l -> In b (f a) -> In b (f a') -> a = a') ->
  NoDup (flat_map f l).
Proof.
  induction l as [| a l IH]; intros Hnd Hf Hdisj; cbn [flat_map]; [constructor |].
  inversion Hnd as [| ? ? Hnin Hrest]; subst.
  apply NoDup_app.
  - apply Hf. left. reflexivity.
  - apply IH; [exact Hrest | intros; apply Hf; right; assumption |].
    intros a1 a2 b H1 H2. apply Hdisj; right; assumption.
  - intros b Hb Hb'. apply in_flat_map in Hb'. destruct Hb' as [a' [Ha' Hb']].
    assert (a = a') by (apply (Hdisj a a' b); [left; reflexivity | right; exact Ha' | exact Hb | exact Hb']).
    subst a'. contradiction.
Qed.

Lemma NoDup_window_keys (cy sy sm : Z) : NoDup (window_keys cy sy sm).
Proof.
  unfold window_keys. apply NoDup_flat_map.
  - apply NoDup_range.
  - intros y _. apply NoDup_map_inj; [| apply NoDup_range].
    intros m m' E. apply monthKey_inj in E. apply E.
  - intros y y' k _ _ Hk Hk'.
    apply in_map_iff in Hk, Hk'. destruct Hk as [m [<- _]], Hk' as [m' [E _]].
    apply monthKey_inj in E. symmetry. apply E.
Qed.

End KeyFacts.

(** *** The propagation loop *)

Section PropagationLoop.
Context {num : Type} `{Number num}.
Import Types.

Lemma propagate_month_update (action : App.Action) (tx : Transaction num)
  (nextMap : JSObject.t (list (Transaction num))) (y m : Z) :
  App.propagate_month action tx nextMap y m
  = JSObject.set (App.monthKey y m)
      (update_list action tx (or_empty (JSObject.get (App.monthKey y m) nextMap)))
      nextMap.
Proof.
  unfold App.propagate_month, update_list. cbv zeta.
  destruct (App.is_delete action); [reflexivity |].
  destruct (findIndex _ _); reflexivity.
Qed.

Lemma fold_left_flat_map {A B S : Type} (f : S -> B -> S) (g : A -> list B)
  (l : list A) (s : S) :
  fold_left f (flat_map g l) s = fold_left (fun s a => fold_left f (g a) s) l s.
Proof.
  revert s. induction l as [| a l IH]; intros s; cbn [flat_map fold_left]; [reflexivity |].
  rewrite fold_left_app. apply IH.
Qed.

Lemma fold_left_map {A B S : Type} (f : S -> B -> S) (g : A -> B) (l : list A) (s : S) :
  fold_left f (map g l) s = fold_left (fun s a => f s (g a)) l s.
Proof.
  revert s. induction l as [| a l IH]; intros s; cbn [map fold_left]; [reflexivity | apply IH].
Qed.

Lemma fold_left_ext_all {A S : Type} (f g : S -> A -> S) (l : list A) (s : S) :
  (forall s a, f s a = g s a) -> fold_left f l s = fold_left g l s.
Proof.
  intros E. revert s. induction l as [| a l IH]; intros s; cbn [fold_left]; [reflexivity |].
  rewrite E. apply IH.
Qed.

(** [propagateChanges] is one pass over the keys of the window. *)
Lemma propagateChanges_key_loop (cy sy sm : Z) (action : App.Action)
  (tx : Transaction num) (prev : JSObject.t (list (Transaction num))) :
  App.propagateChanges cy sy sm action tx prev
  = fold_left
      (fun o k => JSObject.set k (update_list action tx (or_empty (JSObject.get k o))) o)
      (window_keys cy sy sm) prev.
Proof.
  unfold App.propagateChanges, window_keys, for_range. cbv zeta.
  rewrite fold_left_flat_map. apply fold_left_ext_all. intros s y.
  rewrite fold_left_map. apply fold_left_ext_all. intros s' m.
  apply propagate_month_update.
Qed.

Lemma propagateChanges_get (cy sy sm : Z) (action : App.Action)
  (tx : Transaction num) (prev : JSObject.t (list (Transaction num))) (k : string) :
  JSObject.get k (App.propagateChanges cy sy sm action tx prev)
  = if in_dec string_dec k (window_keys cy sy sm)
    then Some (update_list action tx (or_empty (JSObject.get k prev)))
    else JSObject.get k prev.
Proof.
  rewrite propagateChanges_key_loop.
  destruct (in_dec string_dec k (window_keys cy sy sm)) as [Hi | Hn].
  - apply (key_loop_member (fun x => update_list action tx (or_empty x)));
      [apply NoDup_window_keys | exact Hi].
  - apply (key_loop_other (fun x => update_list action tx (or_empty x))), Hn.
Qed.

End PropagationLoop.

(** *** What one month's list becomes *)

Section UpdateList.
Context {num : Type}.
Import Types.

Lemma find_append {A : Type} (f : A -> bool) (l l' : list A) :
  find f (l ++ l')
  = match find f l with
    | Some x => Some x
    | None => find f l'
    end.
Proof.
  induction l as [| a l IH]; cbn [app find]; [reflexivity |].
  destruct (f a); [reflexivity | exact IH].
Qed.

Lemma findIndex_middle {A : Type} (f : A -> bool) (pre post : list A) (x : A) :
  filter f pre = [] -> f x = true ->
  findIndex f (pre ++ x :: post) = Some (List.length pre).
Proof.
  intros Hpre Fx. induction pre as [| a pre IH]; cbn [app findIndex List.length].
  - rewrite Fx. reflexivity.
  - cbn [filter] in Hpre. destruct (f a); [discriminate |].
    rewrite IH by exact Hpre. reflexivity.
Qed.

Lemma find_middle {A : Type} (f : A -> bool) (pre post : list A) (x : A) :
  filter f pre = [] -> f x = true -> find f (pre ++ x :: post) = Some x.
Proof.
  intros Hpre Fx. induction pre as [| a pre IH]; cbn [app find].
  - rewrite Fx. reflexivity.
  - cbn [filter] in Hpre. destruct (f a); [discriminate | apply IH, Hpre].
Qed.

Lemma no_match_not_in_ids (i : string) (l : list (Transaction num)) :
  filter (fun item => String.eqb (id item) i) l = [] -> ~ In i (ids l).
Proof.
  unfold ids. induction l as [| a l IH]; cbn [filter map In]; [tauto |].
  destruct (String.eqb_spec (id a) i) as [E | Hne]; [discriminate |].
  intros Hl [E | Hin]; [contradiction | exact (IH Hl Hin)].
Qed.

(** The three cases of [update_list]. *)
Lemma update_list_cases (action : App.Action) (tx : Transaction num)
  (l : list (Transaction num)) :
  (App.is_delete action = true /\ update_list action tx l = others (id tx) l)
  \/ (App.is_delete action = false
      /\ exists pre x post,
           l = pre ++ x :: post /\ id x = id tx
           /\ filter (fun item => String.eqb (id item) (id tx)) pre = []
           /\ update_list action tx l = pre ++ tx :: post)
  \/ (App.is_delete action = false
      /\ filter (fun item => String.eqb (id item) (id tx)) l = []
      /\ update_list action tx l = l ++ [tx]).
Proof.
  unfold update_list. destruct (App.is_delete action); [left; split; reflexivity |].
  right. destruct (findIndex _ l) as [i |] eqn:Ef.
  - left. split; [reflexivity |].
    apply findIndex_some in Ef. destruct Ef as (pre & x & post & -> & <- & Fx & Hpre).
    exists pre, x, post. rewrite assign_at_middle.
    repeat split; [apply String.eqb_eq, Fx | exact Hpre].
  - right. split; [reflexivity |]. split; [apply findIndex_none, Ef | reflexivity].
Qed.

Lemma others_app (i : string) (l l' : list (Transaction num)) :
  others i (l ++ l') = others i l ++ others i l'.
Proof. apply filter_app. Qed.

Lemma others_cons_same (i : string) (x : Transaction num) (l : list (Transaction num)) :
  id x = i -> others i (x :: l) = others i l.
Proof.
  intros E. unfold others. cbn [filter]. rewrite (proj2 (String.eqb_eq _ _) E). reflexivity.
Qed.

Lemma update_list_stores (action : App.Action) (tx : Transaction num)
  (l : list (Transaction num)) :
  App.is_delete action = false ->
  find (fun item => String.eqb (id item) (id tx)) (update_list action tx l) = Some tx
  /\ others (id tx) (update_list action tx l) = others (id tx) l
  /\ List.length (update_list action tx l)
     = (if in_dec string_dec (id tx) (ids l)
        then List.length l else Datatypes.S (List.length l)).
Proof.
  intros Hd.
  destruct (update_list_cases action tx l)
    as [[Hd' _] | [(_ & pre & x & post & -> & Ex & Hpre & ->) | (_ & Hl & ->)]];
    [congruence | |].
  - split; [apply find_middle; [exact Hpre | apply String.eqb_refl] |].
    split.
    + rewrite !others_app, !others_cons_same by (reflexivity || exact Ex). reflexivity.
    + destruct (in_dec string_dec (id tx) (ids (pre ++ x :: post))) as [_ | Hn].
      * rewrite !length_app. reflexivity.
      * exfalso. apply Hn. unfold ids. rewrite map_app. apply in_or_app. right.
        left. exact Ex.
  - split; [| split].
    + rewrite find_append. destruct (find _ l) as [y |] eqn:Ey.
      * apply find_some in Ey. destruct Ey as [Hin Fy].
        assert (Hy : In y (filter (fun item => String.eqb (id item) (id tx)) l))
          by (apply filter_In; split; assumption).
        rewrite Hl in Hy. destruct Hy.
      * cbn [find]. rewrite String.eqb_refl. reflexivity.
    + rewrite others_app, others_cons_same by reflexivity. apply app_nil_r.
    + destruct (in_dec string_dec (id tx) (ids l)) as [Hi | _].
      * exfalso. exact (no_match_not_in_ids _ _ Hl Hi).
      * rewrite length_app. cbn [List.length]. lia.
Qed.

Lemma NoDup_ids_others (i : string) (l : list (Transaction num)) :
  NoDup (ids l) -> NoDup (ids (others i l)).
Proof.
  unfold ids, others. induction l as [| x l IH]; cbn [filter map]; intros Hnd; [constructor |].
  inversion Hnd as [| ? ? Hnin Hrest]; subst.
  destruct (negb _); cbn [map]; [| apply IH, Hrest].
  constructor; [| apply IH, Hrest].
  intros Hin. apply Hnin. apply in_map_iff in Hin. destruct Hin as [e [E Hin]].
  apply filter_In in Hin. apply in_map_iff. exists e. split; [exact E | apply Hin].
Qed.

Lemma update_list_NoDup (action : App.Action) (tx : Transaction num)
  (l : list (Transaction num)) :
  NoDup (ids l) -> NoDup (ids (update_list action tx l)).
Proof.
  intros Hnd.
  destruct (update_list_cases action tx l)
    as [[_ ->] | [(_ & pre & x & post & -> & Ex & Hpre & ->) | (_ & Hl & ->)]].
  - apply NoDup_ids_others, Hnd.
  - unfold ids in *. rewrite map_app in *. cbn [map] in *. rewrite <- Ex. exact Hnd.
  - unfold ids in *. rewrite map_app. cbn [map].
    apply NoDup_app; [exact Hnd | constructor; [intros [] | constructor] |].
    intros i Hi [<- | []]. exact (no_match_not_in_ids _ _ Hl Hi).
Qed.

Lemma update_list_idem (action : App.Action) (tx : Transaction num)
  (l : list (Transaction num)) :
  update_list action tx (update_list action tx l) = update_list action tx l.
Proof.
  destruct (update_list_cases action tx l)
    as [[Hd E] | [(Hd & pre & x & post & -> & Ex & Hpre & E) | (Hd & Hl & E)]];
    rewrite E.
  - unfold update_list. rewrite Hd. apply filter_idem.
  - unfold update_list. rewrite Hd.
    rewrite findIndex_middle by (exact Hpre || apply String.eqb_refl).
    apply assign_at_middle.
  - unfold update_list. rewrite Hd.
    rewrite findIndex_middle by (exact Hl || apply String.eqb_refl).
    apply assign_at_middle.
Qed.

End UpdateList.

(** *** The order of strings *)

Section StringOrder.

Lemma ascii_compare_refl (c : ascii) : Ascii.compare c c = Eq.
Proof. apply N.compare_refl. Qed.

Lemma string_compare_refl (s : string) : String.compare s s = Eq.
Proof.
  induction s as [| c s IH]; cbn [String.compare]; [reflexivity |].
  rewrite ascii_compare_refl. exact IH.
Qed.

Lemma ascii_compare_lt_trans (a b c : ascii) :
  Ascii.compare a b = Lt -> Ascii.compare b c = Lt -> Ascii.compare a c = Lt.
Proof.
  unfold Ascii.compare. rewrite !N.compare_lt_iff. lia.
Qed.

Lemma string_compare_lt_trans (a b c : string) :
  String.compare a b = Lt -> String.compare b c = Lt -> String.compare a c = Lt.
Proof.
  revert b c. induction a as [| x a IH]; intros [| y b] [| z c];
    cbn [String.compare]; try discriminate; try reflexivity.
  destruct (Ascii.compare x y) eqn:Exy; try discriminate;
    destruct (Ascii.compare y z) eqn:Eyz; try discriminate; intros H1 H2.
  - apply Ascii.compare_eq_iff in Exy, Eyz. subst y z.
    rewrite ascii_compare_refl. exact (IH _ _ H1 H2).
  - apply Ascii.compare_eq_iff in Exy. subst y. rewrite Eyz. reflexivity.
  - apply Ascii.compare_eq_iff in Eyz. subst z. rewrite Exy. reflexivity.
  - rewrite (ascii_compare_lt_trans _ _ _ Exy Eyz). reflexivity.
Qed.

Lemma ltb_compare (a b : string) : String.ltb a b = true <-> String.compare a b = Lt.
Proof.
  unfold String.ltb. destruct (String.compare a b); split; congruence.
Qed.

Lemma leb_compare (a b : string) :
  String.leb a b = true <-> a = b \/ String.compare a b = Lt.
Proof.
  unfold String.leb. destruct (String.compare a b) eqn:E.
  - apply String.compare_eq_iff in E. tauto.
  - tauto.
  - split; [discriminate | intros [-> | Hc]; [| discriminate]].
    rewrite string_compare_refl in E. discriminate.
Qed.

Lemma leb_refl (a : string) : String.leb a a = true.
Proof. apply leb_compare. left. reflexivity. Qed.

Lemma leb_trans (a b c : string) :
  String.leb a b = true -> String.leb b c = true -> String.leb a c = true.
Proof.
  rewrite !leb_compare. intros [-> | H1] [-> | H2]; auto.
  right. exact (string_compare_lt_trans _ _ _ H1 H2).
Qed.

Lemma leb_false_leb (a b : string) : String.leb a b = false -> String.leb b a = true.
Proof.
  intros E. destruct (String.leb_total a b) as [Hab | Hba]; [congruence | exact Hba].
Qed.

Lemma ltb_leb (a b : string) : String.ltb a b = true -> String.leb a b = true.
Proof. rewrite ltb_compare, leb_compare. auto. Qed.

Lemma compare_common_prefix (p a b : string) :
  String.compare (p ++ a) (p ++ b) = String.compare a b.
Proof.
  induction p as [| c p IH]; cbn [append String.compare]; [reflexivity |].
  rewrite ascii_compare_refl. exact IH.
Qed.

(** A string that does not start with [p] and then [c] compares alike with
    all the strings that do. *)
Lemma compare_outside_prefix (p : string) (c : ascii) (u a b : string) :
  (forall r, u <> (p ++ String c r)%string) ->
  String.compare u (p ++ String c a) = String.compare u (p ++ String c b).
Proof.
  revert u. induction p as [| x p IH]; intros u Hu.
  - destruct u as [| c' u]; cbn [append String.compare]; [reflexivity |].
    destruct (Ascii.compare c' c) eqn:Ec; try reflexivity.
    apply Ascii.compare_eq_iff in Ec. subst c'.
    exfalso. apply (Hu u). reflexivity.
  - destruct u as [| c' u]; cbn [append String.compare]; [reflexivity |].
    destruct (Ascii.compare c' x) eqn:Ec; try reflexivity.
    apply Ascii.compare_eq_iff in Ec. subst c'.
    apply IH. intros r E. apply (Hu r). cbn [append]. rewrite E. reflexivity.
Qed.

End StringOrder.

(** *** Sorting *)

Section SortFacts.

Lemma In_sort_insert (k x : string) (l : list string) :
  In x (sort_insert k l) <-> x = k \/ In x l.
Proof.
  induction l as [| a l IH]; cbn [sort_insert In]; [intuition congruence |].
  destruct (String.leb k a); cbn [In]; [intuition congruence |].
  rewrite IH. intuition congruence.
Qed.

Lemma In_Array_sort (x : string) (l : list string) : In x (Array_sort l) <-> In x l.
Proof.
  unfold Array_sort. induction l as [| a l IH]; cbn [fold_right In]; [tauto |].
  rewrite In_sort_insert, IH. intuition congruence.
Qed.

Lemma sort_insert_sorted (k : string) (l : list string) :
  StronglySorted (fun a b => String.leb a b = true) l ->
  StronglySorted (fun a b => String.leb a b = true) (sort_insert k l).
Proof.
  induction l as [| a l IH]; intros Hs; cbn [sort_insert].
  - constructor; constructor.
  - inversion Hs as [| ? ? Hl Ha]; subst.
    destruct (String.leb k a) eqn:E.
    + constructor; [exact Hs |]. constructor; [exact E |].
      apply Forall_forall. intros x Hx. rewrite Forall_forall in Ha.
      exact (leb_trans _ _ _ E (Ha x Hx)).
    + constructor; [apply IH, Hl |].
      apply Forall_forall. intros x Hx. apply In_sort_insert in Hx.
      destruct Hx as [-> | Hx]; [apply leb_false_leb, E |].
      rewrite Forall_forall in Ha. apply Ha, Hx.
Qed.

Lemma Array_sort_sorted (l : list string) :
  StronglySorted (fun a b => String.leb a b = true) (Array_sort l).
Proof.
  unfold Array_sort. induction l as [| a l IH]; cbn [fold_right];
    [constructor | apply sort_insert_sorted, IH].
Qed.

Lemma filter_sorted (f : string -> bool) (l : list string) :
  StronglySorted (fun a b => String.leb a b = true) l ->
  StronglySorted (fun a b => String.leb a b = true) (filter f l).
Proof.
  induction l as [| a l IH]; intros Hs; cbn [filter]; [constructor |].
  inversion Hs as [| ? ? Hl Ha]; subst.
  destruct (f a); [| apply IH, Hl].
  constructor; [apply IH, Hl |].
  apply Forall_forall. intros x Hx. apply filter_In in Hx.
  rewrite Forall_forall in Ha. apply Ha, Hx.
Qed.

Lemma pop_In {A : Type} (l : list A) (x : A) : pop l = Some x -> In x l.
Proof. unfold pop. apply nth_error_In. Qed.

Lemma pop_none {A : Type} (l : list A) : pop l = None -> l = [].
Proof.
  unfold pop. intros E. apply nth_error_None in E.
  destruct l; [reflexivity | cbn [List.length] in E; lia].
Qed.

Lemma pop_cons {A : Type} (a b : A) (l : list A) : pop (a :: b :: l) = pop (b :: l).
Proof.
  unfold pop. cbn [List.length]. rewrite !Nat.sub_succ, !Nat.sub_0_r. reflexivity.
Qed.

Lemma pop_sorted_max (l : list string) (x : string) :
  StronglySorted (fun a b => String.leb a b = true) l ->
  pop l = Some x -> forall y, In y l -> String.leb y x = true.
Proof.
  induction l as [| a l IH]; intros Hs Hp y Hy; [destruct Hy |].
  inversion Hs as [| ? ? Hl Ha]; subst.
  destruct l as [| b l].
  - cbn in Hp. injection Hp as <-. destruct Hy as [<- | []]. apply leb_refl.
  - rewrite pop_cons in Hp. destruct Hy as [<- | Hy].
    + rewrite Forall_forall in Ha. apply Ha, pop_In, Hp.
    + exact (IH Hl Hp y Hy).
Qed.

End SortFacts.

(** *** The key a balance is inherited from *)

Section PrevKey.
Context {num : Type} `{Number num}.
Import Types.

Lemma prevKey_inv (tm : JSObject.t (list (Transaction num))) (key k : string) :
  App.prevKey tm key = Some k ->
  In k (JSObject.keys tm) /\ String.ltb k key = true
  /\ forall k', In k' (JSObject.keys tm) -> String.ltb k' key = true ->
                String.leb k' k = true.
Proof.
  unfold App.prevKey. cbv zeta. intros Hp.
  pose proof (pop_In _ _ Hp) as Hin. apply filter_In in Hin.
  destruct Hin as [Hin Hlt]. apply (proj1 (In_Array_sort _ _)) in Hin.
  split; [exact Hin |]. split; [exact Hlt |].
  intros k' Hk' Hlt'.
  apply (pop_sorted_max _ _ (filter_sorted _ _ (Array_sort_sorted _)) Hp).
  apply filter_In. split; [apply In_Array_sort, Hk' | exact Hlt'].
Qed.

Lemma prevKey_some (tm : JSObject.t (list (Transaction num))) (key k : string) :
  In k (JSObject.keys tm) -> String.ltb k key = true ->
  (forall k', In k' (JSObject.keys tm) -> String.ltb k' key = true ->
              String.leb k' k = true) ->
  App.prevKey tm key = Some k.
Proof.
  intros Hin Hlt Hmax.
  destruct (App.prevKey tm key) as [x |] eqn:Ep.
  - apply prevKey_inv in Ep. destruct Ep as (Hx & Hxlt & Hxmax).
    f_equal. apply String.leb_antisym; [apply Hmax | apply Hxmax]; assumption.
  - unfold App.prevKey in Ep. cbv zeta in Ep. apply pop_none in Ep.
    assert (Hk : In k (filter (fun k0 => String.ltb k0 key)
                         (Array_sort (JSObject.keys tm))))
      by (apply filter_In; split; [apply In_Array_sort, Hin | exact Hlt]).
    rewrite Ep in Hk. destruct Hk.
Qed.

Lemma prevKey_none (tm : JSObject.t (list (Transaction num))) (key : string) :
  App.prevKey tm key = None ->
  forall k', In k' (JSObject.keys tm) -> String.ltb k' key = false.
Proof.
  unfold App.prevKey. cbv zeta. intros Ep k' Hk'. apply pop_none in Ep.
  destruct (String.ltb k' key) eqn:E; [| reflexivity].
  assert (Hk : In k' (filter (fun k0 => String.ltb k0 key)
                        (Array_sort (JSObject.keys tm))))
    by (apply filter_In; split; [apply In_Array_sort, Hk' | exact E]).
  rewrite Ep in Hk. destruct Hk.
Qed.

Lemma monthKey_not_empty (y m : Z) : App.monthKey y m <> ""%string.
Proof.
  unfold App.monthKey. intros E.
  destruct (template_of_Z y); cbn [append] in E; discriminate.
Qed.

Lemma template_order (m m' : Z) :
  0 <= m <= 11 -> 0 <= m' <= 11 ->
  String.compare (template_of_Z m) (template_of_Z m')
  = Z.compare (key_rank m) (key_rank m').
Proof.
  intros Hm Hm'.
  assert (Em : m = 0 \/ m = 1 \/ m = 2 \/ m = 3 \/ m = 4 \/ m = 5 \/ m = 6
               \/ m = 7 \/ m = 8 \/ m = 9 \/ m = 10 \/ m = 11) by lia.
  assert (Em' : m' = 0 \/ m' = 1 \/ m' = 2 \/ m' = 3 \/ m' = 4 \/ m' = 5 \/ m' = 6
                \/ m' = 7 \/ m' = 8 \/ m' = 9 \/ m' = 10 \/ m' = 11) by lia.
  clear Hm Hm'.
  repeat (destruct Em as [-> | Em]); try subst m;
    repeat (destruct Em' as [-> | Em']); try subst m'; reflexivity.
Qed.

Lemma monthKey_compare (y m m' : Z) :
  0 <= m <= 11 -> 0 <= m' <= 11 ->
  String.compare (App.monthKey y m) (App.monthKey y m')
  = Z.compare (key_rank m) (key_rank m').
Proof.
  intros Hm Hm'. unfold App.monthKey.
  rewrite !compare_common_prefix. apply template_order; assumption.
Qed.

(** A key of another year does not start with the year and the
    underscore. *)
Lemma other_year_outside_prefix (y y' m' : Z) :
  y' <> y ->
  forall r, App.monthKey y' m' <> (template_of_Z y ++ "_" ++ r)%string.
Proof.
  intros Hy r E. unfold App.monthKey in E. cbn [append] in E.
  apply append_sep_inj in E; try apply template_of_Z_digits.
  destruct E as [E _]. apply template_of_Z_inj in E. contradiction.
Qed.

(** Among keys of months, the key below [(y, m)] that is greatest in string
    order is, when it is in year [y], the one of the greatest rank. *)
Lemma prevKey_by_rank (tm : JSObject.t (list (Transaction num))) (y m q : Z) :
  month_keys_only tm ->
  0 <= m <= 11 -> 0 <= q <= 11 ->
  In (App.monthKey y q) (JSObject.keys tm) ->
  key_rank q < key_rank m ->
  (forall m', 0 <= m' <= 11 -> In (App.monthKey y m') (JSObject.keys tm) ->
              key_rank m' < key_rank m -> key_rank m' <= key_rank q) ->
  App.prevKey tm (App.monthKey y m) = Some (App.monthKey y q).
Proof.
  intros Hkeys Hm Hq Hin Hrank Hmax. apply prevKey_some; [exact Hin | |].
  - apply ltb_compare. rewrite monthKey_compare by assumption.
    apply Z.compare_lt_iff, Hrank.
  - intros k' Hk' Hlt. destruct (Hkeys k' Hk') as (y' & m' & -> & Hm').
    apply ltb_compare in Hlt. apply leb_compare.
    destruct (Z.eq_dec y' y) as [-> | Hy].
    + rewrite monthKey_compare in Hlt by assumption.
      apply Z.compare_lt_iff in Hlt.
      specialize (Hmax m' Hm' Hk' Hlt).
      destruct (Z.eq_dec (key_rank m') (key_rank q)) as [E | Hne].
      * left. f_equal.
        unfold key_rank in E.
        repeat match type of E with
               | context [?a =? ?b] => destruct (Z.eqb_spec a b)
               | context [?a <=? ?b] => destruct (Z.leb_spec a b)
               end; lia.
      * right. rewrite monthKey_compare by assumption.
        apply Z.compare_lt_iff. lia.
    + right. pose proof (other_year_outside_prefix y y' m' Hy) as Ho.
      unfold App.monthKey at 2. unfold App.monthKey at 2 in Hlt.
      cbn [append] in Ho |- *. cbn [append] in Hlt.
      rewrite (compare_outside_prefix _ _ _ _ (template_of_Z m) Ho). exact Hlt.
Qed.

End PrevKey.

(* ===================================================================== *)
(** ** The reality log of the application (part_000) *)
(* ===================================================================== *)

Section RealityLog.
Context {num : Type} `{Number num}.
Import Types Calendar.

Lemma updated_entries (todayDate : Z) (key : string) (v : num)
  (prev : JSObject.t (list (ActualEntry num))) :
  App.currentActuals (App.handleUpdateActual true todayDate key (Some v) prev) key
  = filter (fun e => negb (day e =? todayDate)) (App.currentActuals prev key)
    ++ [mkActualEntry todayDate v].
Proof.
  unfold App.currentActuals, App.handleUpdateActual. cbn [negb].
  rewrite get_set_eq. reflexivity.
Qed.

Lemma handleUpdateActual_other_key (b : bool) (todayDate : Z) (key k : string)
  (val : option num) (prev : JSObject.t (list (ActualEntry num))) :
  k <> key ->
  JSObject.get k (App.handleUpdateActual b todayDate key val prev) = JSObject.get k prev.
Proof.
  intros Hk. unfold App.handleUpdateActual.
  destruct val as [v |]; [| reflexivity].
  destruct b; cbn [negb]; [| reflexivity].
  apply get_set_neq, Hk.
Qed.

(** X13.  Logging today's balance leaves, for the month, exactly one entry of
    today, which carries the logged value and is the last of the list; the
    entries of the other days stay as they were, in their order; the lists
    of the other months are not touched.  Outside the current month, and for
    an input that is not a number, nothing changes. *)
Theorem handleUpdateActual_logs_today (todayDate : Z) (key : string) (v : num)
  (prev : JSObject.t (list (ActualEntry num))) :
  let next := App.handleUpdateActual true todayDate key (Some v) prev in
  filter (fun e => day e =? todayDate) (App.currentActuals next key)
  = [mkActualEntry todayDate v]
  /\ pop (App.currentActuals next key) = Some (mkActualEntry todayDate v)
  /\ filter (fun e => negb (day e =? todayDate)) (App.currentActuals next key)
     = filter (fun e => negb (day e =? todayDate)) (App.currentActuals prev key)
  /\ (forall k, k <> key -> JSObject.get k next = JSObject.get k prev)
  /\ App.handleUpdateActual false todayDate key (Some v) prev = prev
  /\ (forall b, App.handleUpdateActual b todayDate key None prev = prev).
Proof.
  cbv zeta. rewrite updated_entries.
  split; [| split; [| split; [| split; [| split]]]].
  - rewrite filter_app, filter_filter_neg. cbn [filter day app].
    rewrite Z.eqb_refl. reflexivity.
  - apply pop_app.
  - rewrite filter_app, filter_idem. cbn [filter day].
    rewrite Z.eqb_refl. cbn [negb]. apply app_nil_r.
  - intros k Hk. apply handleUpdateActual_other_key, Hk.
  - reflexivity.
  - reflexivity.
Qed.

Lemma NoDup_days_filter (f : ActualEntry num -> bool) (l : list (ActualEntry num)) :
  NoDup (days l) -> NoDup (days (filter f l)).
Proof.
  unfold days. induction l as [| x l IH]; cbn [filter map]; intros Hnd; [constructor |].
  inversion Hnd as [| ? ? Hnin Hrest]; subst.
  destruct (f x); cbn [map]; [| apply IH, Hrest].
  constructor; [| apply IH, Hrest].
  intros Hin. apply Hnin. apply in_map_iff in Hin. destruct Hin as [e [E Hin]].
  apply filter_In in Hin. apply in_map_iff. exists e. split; [exact E | apply Hin].
Qed.

(** X14.  The handlers keep the log at one entry per day: when no list of the log
    has two entries of one day, none has after logging a balance or after
    clearing a month. *)
Theorem reality_log_one_entry_per_day
  (prev : JSObject.t (list (ActualEntry num))) :
  (forall k, NoDup (days (App.currentActuals prev k))) ->
  forall (b : bool) (todayDate : Z) (key : string) (val : option num) (k : string),
    NoDup (days (App.currentActuals (App.handleUpdateActual b todayDate key val prev) k))
    /\ NoDup (days (App.currentActuals (App.handleClearActuals b key prev) k)).
Proof.
  intros Hprev b todayDate key val k. split.
  - destruct val as [v |]; [| apply Hprev].
    destruct b; [| apply Hprev].
    destruct (string_dec k key) as [-> | Hk].
    + rewrite updated_entries. unfold days. rewrite map_app. cbn [map day].
      apply NoDup_app.
      * apply NoDup_days_filter, Hprev.
      * constructor; [intros [] | constructor].
      * intros d Hd [<- | []].
        apply in_map_iff in Hd. destruct Hd as [e [E He]].
        apply filter_In in He. destruct He as [_ He].
        rewrite E, Z.eqb_refl in He. discriminate.
    + unfold App.currentActuals.
      rewrite handleUpdateActual_other_key by exact Hk. apply Hprev.
  - unfold App.handleClearActuals. destruct b; [| apply Hprev].
    unfold App.currentActuals. destruct (string_dec k key) as [-> | Hk].
    + rewrite get_delete_eq. constructor.
    + rewrite get_delete_neq by exact Hk. apply Hprev.
Qed.

Lemma first_on_filter_other (l : list (ActualEntry num)) (t d : Z) :
  d <> t ->
  first_on (filter (fun e => negb (day e =? t)) l) d = first_on l d.
Proof.
  intros Hd. unfold first_on.
  induction l as [| x l IH]; cbn [filter find]; [reflexivity |].
  destruct (Z.eqb_spec (day x) t) as [Ex | Ex]; cbn [negb find].
  - destruct (Z.eqb_spec (day x) d) as [Ed | Ed]; [lia | exact IH].
  - destruct (day x =? d); [reflexivity | exact IH].
Qed.

Lemma first_on_app (l l' : list (ActualEntry num)) (d : Z) :
  first_on (l ++ l') d
  = match first_on l d with
    | Some e => Some e
    | None => first_on l' d
    end.
Proof.
  unfold first_on. induction l as [| x l IH]; cbn [app find]; [reflexivity |].
  destruct (day x =? d); [reflexivity | exact IH].
Qed.

Lemma rawActual_after_logging (year month : Z) (transactions : list (Transaction num))
  (existing : list (ActualEntry num)) (todayDate : Z) (v : num) (d : Z) :
  (forall e, In e existing -> day e <= todayDate) ->
  rawActual year month transactions
    (filter (fun e => negb (day e =? todayDate)) existing ++ [mkActualEntry todayDate v]) d
  = if d <? todayDate then option_map value (first_on existing d)
    else if d =? todayDate then Some v
    else Some (add v (running_delta year month transactions todayDate d)).
Proof.
  intros Hle.
  set (kept := filter (fun e => negb (day e =? todayDate)) existing).
  set (e0 := mkActualEntry todayDate v).
  assert (Hkept : forall x, In x kept -> day x <= day e0 /\ day x <> todayDate).
  { intros x Hx. apply filter_In in Hx. destruct Hx as [Hin Hx]. split.
    - apply Hle, Hin.
    - intros E. rewrite E, Z.eqb_refl in Hx. discriminate. }
  assert (Hlatest : latest_entry (kept ++ [e0]) = Some e0).
  { apply latest_entry_split; [intros x Hx; apply Hkept, Hx | intros x []]. }
  destruct (Z.ltb_spec d todayDate) as [Hlt | Hge].
  - unfold rawActual. rewrite first_on_app.
    unfold kept. rewrite first_on_filter_other by lia. fold kept.
    destruct (first_on existing d) as [e |]; [reflexivity |].
    unfold first_on at 1. cbn [find day e0].
    destruct (Z.eqb_spec todayDate d) as [E | _]; [lia |].
    rewrite Hlatest. cbn [day e0 option_map].
    destruct (Z.ltb_spec todayDate d); [lia | reflexivity].
  - destruct (Z.eqb_spec d todayDate) as [-> | Hne].
    + rewrite rawActual_observed with (e := e0); [reflexivity |].
      apply first_on_split; [intros x Hx; apply Hkept, Hx | reflexivity].
    + rewrite rawActual_projected with (l := e0);
        [reflexivity | exact Hlatest | cbn [day e0]; lia].
Qed.

(** X15.  After today's balance is logged in the current month, where no entry is
    of a later day, the reality column of the month reads: on a day before
    today, the value that was logged on that day, if any, and nothing
    otherwise; today, the value just logged; on every later day, that value
    plus the contributions of the days after today; each rounded to cents. *)
Theorem handleUpdateActual_reality
  (initialBalancesMap : JSObject.t num)
  (transactionsMap : JSObject.t (list (Transaction num)))
  (prev : JSObject.t (list (ActualEntry num)))
  (year month todayDate : Z) (v : num) :
  valid_year_month year month ->
  1 <= todayDate <= days_in_month year month ->
  (forall e, In e (App.currentActuals prev (App.monthKey year month)) ->
             day e <= todayDate) ->
  exists pts,
    App.simulationData initialBalancesMap transactionsMap
      (App.handleUpdateActual true todayDate (App.monthKey year month) (Some v) prev)
      year month = Ok pts
    /\ forall d, 1 <= d <= days_in_month year month ->
       exists p, nth_error pts (Z.to_nat (d - 1)) = Some p
         /\ actualBalance p
            = if d <? todayDate
              then option_map (fun e => round2 (value e))
                     (first_on (App.currentActuals prev (App.monthKey year month)) d)
              else if d =? todayDate then Some (round2 v)
              else Some (round2
                     (add v (running_delta year month
                               (App.transactions transactionsMap (App.monthKey year month))
                               todayDate d))).
Proof.
  intros V Ht Hle. unfold App.simulationData. cbv zeta.
  rewrite updated_entries.
  eexists. split; [apply calculateDailySimulation_valid, V |].
  intros d Hd. eexists. split; [apply nth_error_points, Hd |].
  cbn [point_of actualBalance].
  rewrite rawActual_after_logging by exact Hle.
  destruct (d <? todayDate); [destruct (first_on _ d); reflexivity |].
  destruct (d =? todayDate); reflexivity.
Qed.

(** X16.  The projection card after today's balance is logged in the current
    month, where no entry is of a later day: the reality end balance is the
    logged value when today is the last day of the month, and otherwise the
    logged value plus the contributions of the remaining days; rounded to
    cents. *)
Theorem realityEndBalance_after_logging
  (initialBalancesMap : JSObject.t num)
  (transactionsMap : JSObject.t (list (Transaction num)))
  (prev : JSObject.t (list (ActualEntry num)))
  (year month todayDate : Z) (v : num) :
  valid_year_month year month ->
  1 <= todayDate <= days_in_month year month ->
  (forall e, In e (App.currentActuals prev (App.monthKey year month)) ->
             day e <= todayDate) ->
  exists pts,
    App.simulationData initialBalancesMap transactionsMap
      (App.handleUpdateActual true todayDate (App.monthKey year month) (Some v) prev)
      year month = Ok pts
    /\ App.realityEndBalance
         (App.totals pts (App.transactions transactionsMap (App.monthKey year month)))
       = if todayDate =? days_in_month year month then round2 v
         else round2
                (add v (running_delta year month
                          (App.transactions transactionsMap (App.monthKey year month))
                          todayDate (days_in_month year month))).
Proof.
  intros V Ht Hle. unfold App.simulationData. cbv zeta.
  rewrite updated_entries.
  eexists. split; [apply calculateDailySimulation_valid, V |].
  pose proof (days_in_month_range year month) as Hn.
  unfold App.totals. cbn [App.realityEndBalance].
  rewrite length_map, length_range.
  replace (Z.to_nat (days_in_month year month - 1 + 1) - 1)%nat
    with (Z.to_nat (days_in_month year month - 1)) by lia.
  rewrite nth_error_points by lia.
  cbn [point_of actualBalance].
  rewrite rawActual_after_logging by exact Hle.
  destruct (Z.ltb_spec (days_in_month year month) todayDate) as [Hlt | _]; [lia |].
  rewrite (Z.eqb_sym todayDate).
  destruct (days_in_month year month =? todayDate); reflexivity.
Qed.

(** X17.  Clearing the log of a month removes its list and no other; the reality
    column of the month is then empty.  Without confirmation nothing
    changes. *)
Theorem handleClearActuals_clears
  (initialBalancesMap : JSObject.t num)
  (transactionsMap : JSObject.t (list (Transaction num)))
  (prev : JSObject.t (list (ActualEntry num))) (year month : Z) :
  let next := App.handleClearActuals true (App.monthKey year month) prev in
  App.currentActuals next (App.monthKey year month) = []
  /\ (forall k, k <> App.monthKey year month -> JSObject.get k next = JSObject.get k prev)
  /\ (exists pts,
        App.simulationData initialBalancesMap transactionsMap next year month = Ok pts
        /\ Forall (fun p => actualBalance p = None) pts)
  /\ App.handleClearActuals false (App.monthKey year month) prev = prev.
Proof.
  cbv zeta. unfold App.simulationData, App.handleClearActuals, App.currentActuals.
  rewrite get_delete_eq. cbn [or_empty].
  split; [reflexivity |]. split; [intros k Hk; apply get_delete_neq, Hk |].
  split; [| reflexivity].
  eexists. split; [apply calculateDailySimulation_reading |].
  destruct (JSDate.getDate _); [| constructor].
  apply Forall_map, Forall_forall. intros d _. reflexivity.
Qed.

End RealityLog.

(* ===================================================================== *)
(** ** The month keys and the propagation of rules (part_000) *)
(* ===================================================================== *)

(** X18.  Two months have the same key only when they are the same month of the
    same year. *)
Theorem monthKey_injective (y m y' m' : Z) :
  App.monthKey y m = App.monthKey y' m' <-> y = y' /\ m = m'.
Proof.
  split; [apply monthKey_inj | intros [-> ->]; reflexivity].
Qed.

Section Propagation.
Context {num : Type} `{Number num}.
Import Types.

Lemma window_key_iff (cy sy sm y m : Z) :
  In (App.monthKey y m) (window_keys cy sy sm) <-> in_window cy sy sm y m.
Proof.
  rewrite In_window_keys. split.
  - intros [y' [m' [E Hw]]]. apply monthKey_inj in E. destruct E as [-> ->]. exact Hw.
  - intros Hw. exists y, m. split; [reflexivity | exact Hw].
Qed.

Lemma propagateChanges_in_window (cy sy sm : Z) (action : App.Action)
  (tx : Transaction num) (prev : JSObject.t (list (Transaction num))) (y m : Z) :
  in_window cy sy sm y m ->
  App.transactions (App.propagateChanges cy sy sm action tx prev) (App.monthKey y m)
  = update_list action tx (App.transactions prev (App.monthKey y m)).
Proof.
  intros Hw. unfold App.transactions. rewrite propagateChanges_get.
  destruct (in_dec string_dec _ _) as [_ | Hn]; [reflexivity |].
  exfalso. apply Hn, window_key_iff, Hw.
Qed.

(** X19.  Submitting a rule, new or edited, stores it in every month from the
    selected one to December of the year after the current one: in each of
    these months the rule is then the first one found under its identifier,
    the rules with other identifiers are the same as before in the same
    order, and the list has grown by one exactly when the identifier was not
    in it.  Submitting the same rule again changes nothing. *)
Theorem onSubmit_stores_rule (cy sy sm : Z) (editing : bool) (tx : Transaction num)
  (prev : JSObject.t (list (Transaction num))) (y m : Z) :
  in_window cy sy sm y m ->
  let next := App.onSubmit cy sy sm editing tx prev in
  let before := App.transactions prev (App.monthKey y m) in
  let after := App.transactions next (App.monthKey y m) in
  find (fun item => String.eqb (id item) (id tx)) after = Some tx
  /\ others (id tx) after = others (id tx) before
  /\ List.length after
     = (if in_dec string_dec (id tx) (ids before)
        then List.length before else Datatypes.S (List.length before))
  /\ App.transactions (App.onSubmit cy sy sm editing tx next) (App.monthKey y m) = after.
Proof.
  intros Hw. cbv zeta. unfold App.onSubmit.
  rewrite !propagateChanges_in_window by exact Hw.
  assert (Hd : App.is_delete (if editing then App.ACTION_edit else App.ACTION_add) = false)
    by (destruct editing; reflexivity).
  destruct (update_list_stores _ tx (App.transactions prev (App.monthKey y m)) Hd)
    as (Hf & Ho & Hl).
  repeat split; [exact Hf | exact Ho | exact Hl | apply update_list_idem].
Qed.

(** X20.  Deleting a rule, once confirmed, removes every rule with its identifier
    from every month from the selected one to December of the year after the
    current one, and keeps the other rules of these months in their order;
    without confirmation nothing changes. *)
Theorem handleDelete_removes_rule (cy sy sm : Z) (i : string)
  (prev : JSObject.t (list (Transaction num))) (y m : Z) :
  in_window cy sy sm y m ->
  App.transactions (App.handleDelete cy sy sm true i prev) (App.monthKey y m)
  = others i (App.transactions prev (App.monthKey y m))
  /\ ~ In i (ids (App.transactions (App.handleDelete cy sy sm true i prev)
                    (App.monthKey y m)))
  /\ App.handleDelete cy sy sm false i prev = prev.
Proof.
  intros Hw. unfold App.handleDelete.
  rewrite propagateChanges_in_window by exact Hw.
  unfold update_list. cbn [App.is_delete App.only_id id]. fold (others i (App.transactions prev (App.monthKey y m))).
  split; [reflexivity |]. split; [| reflexivity].
  unfold ids, others. intros Hin. apply in_map_iff in Hin.
  destruct Hin as [x [E Hx]]. apply filter_In in Hx. destruct Hx as [_ Hx].
  rewrite E, String.eqb_refl in Hx. discriminate.
Qed.

(** X21.  Propagation, whatever the action, leaves the months outside its window
    as they are: every month before the selected one and every month after
    December of the year after the current one keeps its list, and a month
    that had no list gets none. *)
Theorem propagateChanges_outside_window (cy sy sm : Z) (action : App.Action)
  (tx : Transaction num) (prev : JSObject.t (list (Transaction num))) (y m : Z) :
  ~ in_window cy sy sm y m ->
  JSObject.get (App.monthKey y m) (App.propagateChanges cy sy sm action tx prev)
  = JSObject.get (App.monthKey y m) prev.
Proof.
  intros Hw. rewrite propagateChanges_get.
  destruct (in_dec string_dec _ _) as [Hi | _]; [| reflexivity].
  exfalso. apply Hw, window_key_iff, Hi.
Qed.

(** X22.  Propagation keeps identifiers unique: when no month lists two rules
    with one identifier, none does afterwards. *)
Theorem propagateChanges_unique_ids (cy sy sm : Z) (action : App.Action)
  (tx : Transaction num) (prev : JSObject.t (list (Transaction num))) :
  (forall k, NoDup (ids (App.transactions prev k))) ->
  forall k, NoDup (ids (App.transactions (App.propagateChanges cy sy sm action tx prev) k)).
Proof.
  intros Hprev k. unfold App.transactions. rewrite propagateChanges_get.
  destruct (in_dec string_dec _ _) as [_ | _]; [| apply Hprev].
  cbn [or_empty]. apply update_list_NoDup, Hprev.
Qed.

End Propagation.

(* ===================================================================== *)
(** ** The initial balance of a month (part_000) *)
(* ===================================================================== *)

Section Inheritance.
Context {num : Type} `{Number num}.
Import Types.

(** X23.  The initial balance of a month is its own entry of the balance map when
    there is one; a balance typed for the month is such an entry, so it is
    read back whatever the rules are (as 0 when the input is 0 or not a
    number).  Otherwise the balance is taken from the entry of the key that
    is, in the order of strings, the greatest key of the rule map below the
    key of the month, and is 0 when that entry is missing, 0 or NaN; it is 0
    when the rule map has no key below the key of the month. *)
Theorem initialBalance_source (initialBalancesMap : JSObject.t num)
  (transactionsMap : JSObject.t (list (Transaction num))) (key : string) :
  (forall b, JSObject.get key initialBalancesMap = Some b ->
             App.initialBalance initialBalancesMap transactionsMap key = b)
  /\ (forall val,
        App.initialBalance (App.setInitialBalance key val initialBalancesMap)
          transactionsMap key = or_0 val)
  /\ (JSObject.get key initialBalancesMap = None ->
      (exists k,
          In k (JSObject.keys transactionsMap)
          /\ String.ltb k key = true
          /\ (forall k', In k' (JSObject.keys transactionsMap) ->
                         String.ltb k' key = true -> String.leb k' k = true)
          /\ App.initialBalance initialBalancesMap transactionsMap key
             = if String.eqb k "" then num_of_Z 0
               else or_0 (JSObject.get k initialBalancesMap))
      \/ ((forall k', In k' (JSObject.keys transactionsMap) ->
                      String.ltb k' key = false)
          /\ App.initialBalance initialBalancesMap transactionsMap key = num_of_Z 0)).
Proof.
  unfold App.initialBalance. split; [| split].
  - intros b ->. reflexivity.
  - intros val. unfold App.setInitialBalance. rewrite get_set_eq. reflexivity.
  - intros ->. destruct (App.prevKey transactionsMap key) as [k |] eqn:Ep.
    + left. exists k. apply prevKey_inv in Ep. destruct Ep as (Hin & Hlt & Hmax).
      repeat split; assumption.
    + right. split; [apply prevKey_none, Ep | reflexivity].
Qed.

(** Within one year the keys of the months are ordered, as strings, by
    0, 1, 10, 11, 2, 3, ..., 9: the keys of November and December come
    before the key of March. *)
Lemma monthKey_string_order (y m m' : Z) :
  0 <= m <= 11 -> 0 <= m' <= 11 ->
  String.ltb (App.monthKey y m) (App.monthKey y m') = (key_rank m <? key_rank m').
Proof.
  intros Hm Hm'. unfold String.ltb. rewrite monthKey_compare by assumption.
  unfold Z.ltb. destruct (key_rank m ?= key_rank m'); reflexivity.
Qed.

(** X24.  When the keys of the rule map are keys of months, a month without its
    own balance inherits, among the months of its year that have rules, from
    the one that comes just before it in the order 0, 1, 10, 11, 2, ..., 9
    of the keys, not in the order of the calendar. *)
Theorem initialBalance_follows_key_order (initialBalancesMap : JSObject.t num)
  (transactionsMap : JSObject.t (list (Transaction num))) (y m q : Z) :
  month_keys_only transactionsMap ->
  0 <= m <= 11 -> 0 <= q <= 11 ->
  JSObject.get (App.monthKey y m) initialBalancesMap = None ->
  In (App.monthKey y q) (JSObject.keys transactionsMap) ->
  key_rank q < key_rank m ->
  (forall m', 0 <= m' <= 11 ->
              In (App.monthKey y m') (JSObject.keys transactionsMap) ->
              key_rank m' < key_rank m -> key_rank m' <= key_rank q) ->
  App.initialBalance initialBalancesMap transactionsMap (App.monthKey y m)
  = or_0 (JSObject.get (App.monthKey y q) initialBalancesMap).
Proof.
  intros Hkeys Hm Hq Hown Hin Hrank Hmax. unfold App.initialBalance.
  rewrite Hown, (prevKey_by_rank _ y m q) by assumption.
  rewrite (proj2 (String.eqb_neq _ _) (monthKey_not_empty y q)). reflexivity.
Qed.

Lemma keys_after_propagation (cy sy sm : Z) (action : App.Action)
  (tx : Transaction num) (prev : JSObject.t (list (Transaction num))) (k : string) :
  In k (JSObject.keys (App.propagateChanges cy sy sm action tx prev))
  <-> In k (window_keys cy sy sm) \/ In k (JSObject.keys prev).
Proof.
  rewrite !get_In_keys, propagateChanges_get.
  destruct (in_dec string_dec k (window_keys cy sy sm)) as [Hi | Hn].
  - split; [left; exact Hi | discriminate].
  - tauto.
Qed.

Lemma month_keys_only_propagation (cy sy sm : Z) (action : App.Action)
  (tx : Transaction num) (prev : JSObject.t (list (Transaction num))) :
  0 <= sm -> month_keys_only prev ->
  month_keys_only (App.propagateChanges cy sy sm action tx prev).
Proof.
  intros Hsm Hprev k Hk. apply keys_after_propagation in Hk.
  destruct Hk as [Hk | Hk]; [| apply Hprev, Hk].
  apply In_window_keys in Hk. destruct Hk as (y & m & -> & Hy & Hmm).
  exists y, m. split; [reflexivity |].
  destruct (y =? sy); lia.
Qed.

(** X25.  Once a rule has been submitted for a year, March of that year, when it
    has no balance of its own, starts from the balance entered for December
    of the same year (0 when there is none): the key of December is then in
    the rule map and is the greatest key below the key of March. *)
Theorem march_inherits_from_december (initialBalancesMap : JSObject.t num)
  (prev : JSObject.t (list (Transaction num)))
  (cy sy sm y : Z) (editing : bool) (tx : Transaction num) :
  month_keys_only prev ->
  0 <= sm <= 11 -> sy <= y <= cy + 1 ->
  JSObject.get (App.monthKey y 2) initialBalancesMap = None ->
  App.initialBalance initialBalancesMap (App.onSubmit cy sy sm editing tx prev)
    (App.monthKey y 2)
  = or_0 (JSObject.get (App.monthKey y 11) initialBalancesMap).
Proof.
  intros Hkeys Hsm Hy Hown. unfold App.onSubmit, App.initialBalance.
  rewrite Hown, (prevKey_by_rank _ y 2 11).
  - rewrite (proj2 (String.eqb_neq _ _) (monthKey_not_empty y 11)). reflexivity.
  - apply month_keys_only_propagation; [lia | exact Hkeys].
  - lia.
  - lia.
  - apply keys_after_propagation. left. apply window_key_iff.
    unfold in_window. split; [exact Hy |]. destruct (y =? sy); lia.
  - reflexivity.
  - intros m' Hm' _ Hr. unfold key_rank in *.
    repeat match goal with
           | H : context [?a =? ?b] |- _ => destruct (Z.eqb_spec a b)
           | H : context [?a <=? ?b] |- _ => destruct (Z.leb_spec a b)
           | |- context [?a =? ?b] => destruct (Z.eqb_spec a b)
           | |- context [?a <=? ?b] => destruct (Z.leb_spec a b)
           end; lia.
Qed.

End Inheritance.

(* ===================================================================== *)
(** ** The properties of the application at sample states *)
(* ===================================================================== *)

Lemma reality_log_one_entry_per_day_witness :
  (forall k, NoDup (days (App.currentActuals AppExamples.log_feb k)))
  /\ NoDup (days (App.currentActuals
                    (App.handleUpdateActual true 10 (App.monthKey 2024 1)
                       (Some (Exact.milli 990000)) AppExamples.log_feb)
                    (App.monthKey 2024 1))).
Proof.
  assert (Hlog : forall k, NoDup (days (App.currentActuals AppExamples.log_feb k))).
  { intros k. unfold App.currentActuals, AppExamples.log_feb. cbn [JSObject.get].
    destruct (String.eqb _ k); cbn [or_empty days map]; repeat constructor.
    intros []. }
  split; [exact Hlog |].
  exact (proj1 (reality_log_one_entry_per_day AppExamples.log_feb Hlog true 10
                  (App.monthKey 2024 1) (Some (Exact.milli 990000))
                  (App.monthKey 2024 1))).
Defined.

Lemma handleUpdateActual_reality_witness :
  Calendar.valid_year_month 2024 1
  /\ 1 <= 12 <= Calendar.days_in_month 2024 1
  /\ exists pts,
      App.simulationData AppExamples.balances_dec AppExamples.rules_feb
        (App.handleUpdateActual true 12 (App.monthKey 2024 1)
           (Some (Exact.milli 990000)) AppExamples.log_feb)
        2024 1 = Ok pts
      /\ forall d, 1 <= d <= Calendar.days_in_month 2024 1 ->
         exists p, nth_error pts (Z.to_nat (d - 1)) = Some p
           /\ Types.actualBalance p
              = if d <? 12
                then option_map (fun e => round2 (Types.value e))
                       (first_on (App.currentActuals AppExamples.log_feb
                                    (App.monthKey 2024 1)) d)
                else if d =? 12 then Some (round2 (Exact.milli 990000))
                else Some (round2
                       (add (Exact.milli 990000)
                          (running_delta 2024 1
                             (App.transactions AppExamples.rules_feb
                                (App.monthKey 2024 1))
                             12 d))).
Proof.
  assert (V : Calendar.valid_year_month 2024 1) by (unfold Calendar.valid_year_month; lia).
  assert (Ht : 1 <= 12 <= Calendar.days_in_month 2024 1) by (cbn; lia).
  assert (Hle : forall e,
             In e (App.currentActuals AppExamples.log_feb (App.monthKey 2024 1)) ->
             Types.day e <= 12).
  { intros e [<- | []]. cbn. lia. }
  split; [exact V | split; [exact Ht |]].
  exact (handleUpdateActual_reality AppExamples.balances_dec AppExamples.rules_feb
           AppExamples.log_feb 2024 1 12 (Exact.milli 990000) V Ht Hle).
Defined.

Lemma realityEndBalance_after_logging_witness :
  Calendar.valid_year_month 2024 1
  /\ 1 <= 12 <= Calendar.days_in_month 2024 1
  /\ exists pts,
      App.simulationData AppExamples.balances_dec AppExamples.rules_feb
        (App.handleUpdateActual true 12 (App.monthKey 2024 1)
           (Some (Exact.milli 990000)) AppExamples.log_feb)
        2024 1 = Ok pts
      /\ App.realityEndBalance
           (App.totals pts (App.transactions AppExamples.rules_feb (App.monthKey 2024 1)))
         = round2
             (add (Exact.milli 990000)
                (running_delta 2024 1
                   (App.transactions AppExamples.rules_feb (App.monthKey 2024 1))
                   12 (Calendar.days_in_month 2024 1))).
Proof.
  assert (V : Calendar.valid_year_month 2024 1) by (unfold Calendar.valid_year_month; lia).
  assert (Ht : 1 <= 12 <= Calendar.days_in_month 2024 1) by (cbn; lia).
  assert (Hle : forall e,
             In e (App.currentActuals AppExamples.log_feb (App.monthKey 2024 1)) ->
             Types.day e <= 12).
  { intros e [<- | []]. cbn. lia. }
  split; [exact V | split; [exact Ht |]].
  exact (realityEndBalance_after_logging AppExamples.balances_dec AppExamples.rules_feb
           AppExamples.log_feb 2024 1 12 (Exact.milli 990000) V Ht Hle).
Defined.

Lemma onSubmit_stores_rule_witness :
  in_window 2024 2024 1 2025 3
  /\ find (fun item => String.eqb (Types.id item) (Types.id AppExamples.rent_950))
       (App.transactions
          (App.onSubmit 2024 2024 1 true AppExamples.rent_950 AppExamples.rules_feb)
          (App.monthKey 2025 3))
     = Some AppExamples.rent_950.
Proof.
  assert (Hw : in_window 2024 2024 1 2025 3) by (unfold in_window; cbn; lia).
  split; [exact Hw |].
  exact (proj1 (onSubmit_stores_rule 2024 2024 1 true AppExamples.rent_950
                  AppExamples.rules_feb 2025 3 Hw)).
Defined.

Lemma handleDelete_removes_rule_witness :
  in_window 2024 2024 1 2024 1
  /\ App.transactions (App.handleDelete 2024 2024 1 true "r1" AppExamples.rules_feb)
       (App.monthKey 2024 1)
     = others "r1" (App.transactions AppExamples.rules_feb (App.monthKey 2024 1)).
Proof.
  assert (Hw : in_window 2024 2024 1 2024 1) by (unfold in_window; cbn; lia).
  split; [exact Hw |].
  exact (proj1 (handleDelete_removes_rule 2024 2024 1 "r1" AppExamples.rules_feb
                  2024 1 Hw)).
Defined.

Lemma propagateChanges_outside_window_witness :
  ~ in_window 2024 2024 2 2024 1
  /\ JSObject.get (App.monthKey 2024 1)
       (App.propagateChanges 2024 2024 2 App.ACTION_delete AppExamples.rent
          AppExamples.rules_feb)
     = JSObject.get (App.monthKey 2024 1) AppExamples.rules_feb.
Proof.
  assert (Hw : ~ in_window 2024 2024 2 2024 1) by (unfold in_window; cbn; lia).
  split; [exact Hw |].
  exact (propagateChanges_outside_window 2024 2024 2 App.ACTION_delete AppExamples.rent
           AppExamples.rules_feb 2024 1 Hw).
Defined.

Lemma propagateChanges_unique_ids_witness :
  (forall k, NoDup (ids (App.transactions AppExamples.rules_feb k)))
  /\ NoDup (ids (App.transactions
                   (App.propagateChanges 2024 2024 1 App.ACTION_edit
                      AppExamples.rent_950 AppExamples.rules_feb)
                   (App.monthKey 2024 1))).
Proof.
  assert (Hr : forall k, NoDup (ids (App.transactions AppExamples.rules_feb k))).
  { intros k. unfold App.transactions, AppExamples.rules_feb. cbn [JSObject.get].
    destruct (String.eqb _ k); cbn [or_empty ids map]; repeat constructor.
    intros []. }
  split; [exact Hr |].
  exact (propagateChanges_unique_ids 2024 2024 1 App.ACTION_edit AppExamples.rent_950
           AppExamples.rules_feb Hr (App.monthKey 2024 1)).
Defined.

Lemma initialBalance_follows_key_order_witness :
  month_keys_only AppExamples.rules_feb_dec
  /\ JSObject.get (App.monthKey 2024 2) AppExamples.balances_dec = None
  /\ In (App.monthKey 2024 11) (JSObject.keys AppExamples.rules_feb_dec)
  /\ key_rank 11 < key_rank 2
  /\ App.initialBalance AppExamples.balances_dec AppExamples.rules_feb_dec
       (App.monthKey 2024 2)
     = or_0 (JSObject.get (App.monthKey 2024 11) AppExamples.balances_dec).
Proof.
  assert (Hk : month_keys_only AppExamples.rules_feb_dec).
  { intros k [<- | [<- | []]]; [exists 2024, 1 | exists 2024, 11];
      (split; [reflexivity | lia]). }
  assert (Hown : JSObject.get (App.monthKey 2024 2) AppExamples.balances_dec = None)
    by reflexivity.
  assert (Hin : In (App.monthKey 2024 11) (JSObject.keys AppExamples.rules_feb_dec))
    by (right; left; reflexivity).
  assert (Hr : key_rank 11 < key_rank 2) by (cbn; lia).
  assert (Hmax : forall m', 0 <= m' <= 11 ->
            In (App.monthKey 2024 m') (JSObject.keys AppExamples.rules_feb_dec) ->
            key_rank m' < key_rank 2 -> key_rank m' <= key_rank 11).
  { intros m' _ _. change (key_rank 2) with 4. change (key_rank 11) with 3. lia. }
  assert (H2 : 0 <= 2 <= 11) by lia.
  assert (H11 : 0 <= 11 <= 11) by lia.
  split; [exact Hk | split; [exact Hown | split; [exact Hin | split; [exact Hr |]]]].
  exact (initialBalance_follows_key_order AppExamples.balances_dec
           AppExamples.rules_feb_dec 2024 2 11 Hk H2 H11 Hown Hin Hr Hmax).
Defined.

Lemma march_inherits_from_december_witness :
  month_keys_only AppExamples.rules_feb
  /\ JSObject.get (App.monthKey 2024 2) AppExamples.balances_dec = None
  /\ App.initialBalance AppExamples.balances_dec
       (App.onSubmit 2024 2024 1 true AppExamples.rent_950 AppExamples.rules_feb)
       (App.monthKey 2024 2)
     = or_0 (JSObject.get (App.monthKey 2024 11) AppExamples.balances_dec).
Proof.
  assert (Hk : month_keys_only AppExamples.rules_feb).
  { intros k [<- | []]. exists 2024, 1. split; [reflexivity | lia]. }
  assert (Hown : JSObject.get (App.monthKey 2024 2) AppExamples.balances_dec = None)
    by reflexivity.
  assert (Hsm : 0 <= 1 <= 11) by lia.
  assert (Hy : 2024 <= 2024 <= 2024 + 1) by lia.
  split; [exact Hk | split; [exact Hown |]].
  exact (march_inherits_from_december AppExamples.balances_dec AppExamples.rules_feb
           2024 2024 1 2024 true AppExamples.rent_950 Hk Hsm Hy Hown).
Defined.

(* ===================================================================== *)
(** ** Sums in exact arithmetic *)
(* ===================================================================== *)

Section ExactSums.
Import Types Calendar Exact.

Lemma Qc_zero : Qc_of_Z 0 = 0%Qc.
Proof. apply Qc_is_canon. reflexivity. Qed.

Lemma Qc_one : Qc_of_Z 1 = 1%Qc.
Proof. apply Qc_is_canon. reflexivity. Qed.

Lemma or_0_some (v : Qc) : or_0 (Some v) = v.
Proof.
  unfold or_0. destruct (ToBoolean v) eqn:E; [reflexivity |].
  unfold ToBoolean in E. apply orb_false_elim in E. destruct E as [Eg El].
  cbn [gtb ltb QcNumber num_of_Z] in Eg, El. unfold Qc_ltb in Eg, El.
  apply negb_false_iff in Eg, El.
  apply Qle_bool_iff in Eg, El. rewrite Qc_zero in *.
  symmetry. apply Qc_is_canon. apply Qle_antisym; assumption.
Qed.

Lemma or_0_none : or_0 (@None Qc) = 0%Qc.
Proof. unfold or_0. apply Qc_zero. Qed.

Lemma total_of_cons {A : Type} (f : A -> Qc) (x : A) (l : list A) :
  total_of f (x :: l) = (f x + total_of f l)%Qc.
Proof. reflexivity. Qed.

Lemma total_of_app {A : Type} (f : A -> Qc) (l l' : list A) :
  total_of f (l ++ l') = (total_of f l + total_of f l')%Qc.
Proof.
  induction l as [| x l IH]; cbn [app]; [cbn; ring |].
  rewrite !total_of_cons, IH. ring.
Qed.

Lemma total_of_ext {A : Type} (f g : A -> Qc) (l : list A) :
  (forall x, In x l -> f x = g x) -> total_of f l = total_of g l.
Proof.
  induction l as [| x l IH]; intros E; [reflexivity |].
  rewrite !total_of_cons, E by (left; reflexivity).
  rewrite IH by (intros y Hy; apply E; right; exact Hy). reflexivity.
Qed.

Lemma total_of_zero {A : Type} (l : list A) : total_of (fun _ => 0%Qc) l = 0%Qc.
Proof. induction l as [| x l IH]; [reflexivity |]. rewrite total_of_cons, IH. ring. Qed.

Lemma total_of_add {A : Type} (f g : A -> Qc) (l : list A) :
  total_of (fun x => (f x + g x)%Qc) l = (total_of f l + total_of g l)%Qc.
Proof.
  induction l as [| x l IH]; [cbn; ring |]. rewrite !total_of_cons, IH. ring.
Qed.

Lemma total_of_filter {A : Type} (p : A -> bool) (f : A -> Qc) (l : list A) :
  total_of f (filter p l) = total_of (fun x => if p x then f x else 0%Qc) l.
Proof.
  induction l as [| x l IH]; [reflexivity |]. cbn [filter]. rewrite total_of_cons.
  destruct (p x); [rewrite total_of_cons, IH; reflexivity | rewrite IH; ring].
Qed.

Lemma total_of_exchange {A B : Type} (F : A -> B -> Qc) (l : list A) (l' : list B) :
  total_of (fun a => total_of (fun b => F a b) l') l
  = total_of (fun b => total_of (fun a => F a b) l) l'.
Proof.
  induction l as [| a l IH].
  - cbn [total_of fold_right]. symmetry. apply total_of_zero.
  - rewrite total_of_cons, IH, <- total_of_add. reflexivity.
Qed.

Lemma total_of_count {A : Type} (p : A -> bool) (c : Qc) (l : list A) :
  total_of (fun x => if p x then c else 0%Qc) l
  = (c * Qc_of_Z (Z.of_nat (List.length (filter p l))))%Qc.
Proof.
  induction l as [| x l IH]; [cbn; rewrite Qc_zero; ring |].
  rewrite total_of_cons, IH. cbn [filter].
  destruct (p x); [| ring].
  cbn [List.length]. rewrite Nat2Z.inj_succ, <- Z.add_1_r, <- Qc_of_Z_add, Qc_one. ring.
Qed.

(** A loop that adds [f x] for each element is the sum. *)
Lemma fold_left_total {A : Type} (f : A -> Qc) (l : list A) (a : Qc) :
  fold_left (fun s x => add s (f x)) l a = (a + total_of f l)%Qc.
Proof.
  revert a. induction l as [| x l IH]; intros a; cbn [fold_left]; [cbn; ring |].
  rewrite IH, total_of_cons. change (@add Qc QcNumber) with Qcplus. ring.
Qed.

Lemma fold_left_cond_total {A : Type} (c : A -> bool) (f : A -> Qc) (l : list A) (a : Qc) :
  fold_left (fun s x => if c x then add s (f x) else s) l a
  = (a + total_of (fun x => if c x then f x else 0%Qc) l)%Qc.
Proof.
  revert a. induction l as [| x l IH]; intros a; cbn [fold_left]; [cbn; ring |].
  rewrite IH, total_of_cons. change (@add Qc QcNumber) with Qcplus.
  destruct (c x); ring.
Qed.

Lemma fold_left_ext_in {A S : Type} (f g : S -> A -> S) (l : list A) (s : S) :
  (forall s a, In a l -> f s a = g s a) -> fold_left f l s = fold_left g l s.
Proof.
  revert s. induction l as [| a l IH]; intros s E; cbn [fold_left]; [reflexivity |].
  rewrite E by (left; reflexivity). apply IH. intros s' a' Ha. apply E. right. exact Ha.
Qed.

(** The month totals, rule by rule. *)
Lemma rawCumulativeIncome_by_rule (year month : Z) (l : list (Transaction Qc)) (n : Z) :
  rawCumulativeIncome year month l n
  = total_of (fun t => if is_INCOME (type t) then month_amount year month n t else 0%Qc) l.
Proof.
  unfold rawCumulativeIncome, for_range, income_step.
  rewrite (fold_left_ext_all _
             (fun s k => add s (total_of (fun t => if fires year month t k && is_INCOME (type t)
                                                   then magnitude t else 0%Qc) l)))
    by (intros s k; apply fold_left_cond_total).
  rewrite fold_left_total.
  change (@num_of_Z Qc QcNumber 0) with (Qc_of_Z 0). rewrite Qc_zero.
  rewrite total_of_exchange.
  replace (0 + total_of (fun b => total_of (fun a => if fires year month b a && is_INCOME (type b)
                                                     then magnitude b else 0) (range 1 n)) l)%Qc
    with (total_of (fun b => total_of (fun a => if fires year month b a && is_INCOME (type b)
                                                then magnitude b else 0) (range 1 n)) l)%Qc
    by ring.
  apply total_of_ext. intros t _. unfold month_amount, firing_days.
  destruct (is_INCOME (type t)).
  - rewrite <- total_of_count. apply total_of_ext. intros d _.
    rewrite andb_true_r. reflexivity.
  - transitivity (total_of (fun _ : Z => 0%Qc) (range 1 n)); [| apply total_of_zero].
    apply total_of_ext. intros d _. rewrite andb_false_r. reflexivity.
Qed.

Lemma rawCumulativeExpenses_by_rule (year month : Z) (l : list (Transaction Qc)) (n : Z) :
  rawCumulativeExpenses year month l n
  = total_of (fun t => if is_INCOME (type t) then 0%Qc else month_amount year month n t) l.
Proof.
  unfold rawCumulativeExpenses, for_range, expense_step.
  rewrite (fold_left_ext_all _
             (fun s k => add s (total_of (fun t => if fires year month t k
                                                      && negb (is_INCOME (type t))
                                                   then magnitude t else 0%Qc) l)))
    by (intros s k; apply fold_left_cond_total).
  rewrite fold_left_total.
  change (@num_of_Z Qc QcNumber 0) with (Qc_of_Z 0). rewrite Qc_zero.
  rewrite total_of_exchange.
  replace (0 + total_of (fun b => total_of (fun a => if fires year month b a
                                                        && negb (is_INCOME (type b))
                                                     then magnitude b else 0) (range 1 n)) l)%Qc
    with (total_of (fun b => total_of (fun a => if fires year month b a
                                                   && negb (is_INCOME (type b))
                                                then magnitude b else 0) (range 1 n)) l)%Qc
    by ring.
  apply total_of_ext. intros t _. unfold month_amount, firing_days.
  destruct (is_INCOME (type t)); cbn [negb].
  - transitivity (total_of (fun _ : Z => 0%Qc) (range 1 n)); [| apply total_of_zero].
    apply total_of_ext. intros d _. rewrite andb_false_r. reflexivity.
  - rewrite <- total_of_count. apply total_of_ext. intros d _.
    rewrite andb_true_r. reflexivity.
Qed.

Lemma signed_total_split (year month n : Z) (l : list (Transaction Qc)) :
  total_of (signed_month_amount year month n) l
  = (total_of (fun t => if is_INCOME (type t) then month_amount year month n t else 0%Qc) l
     - total_of (fun t => if is_INCOME (type t) then 0%Qc else month_amount year month n t) l)%Qc.
Proof.
  induction l as [| t l IH]; [cbn; ring |].
  rewrite !total_of_cons, IH. unfold signed_month_amount.
  destruct (is_INCOME (type t)); ring.
Qed.

Lemma rawBalance_by_rule (year month : Z) (l : list (Transaction Qc)) (ib : Qc) (n : Z) :
  rawBalance year month l ib n
  = (ib + total_of (signed_month_amount year month n) l)%Qc.
Proof.
  pose proof (raw_accounting_identity year month l ib n) as Hid.
  rewrite signed_total_split, <- rawCumulativeIncome_by_rule,
    <- rawCumulativeExpenses_by_rule.
  replace (rawBalance year month l ib n)
    with (rawBalance year month l ib n + rawCumulativeExpenses year month l n
          - rawCumulativeExpenses year month l n)%Qc by ring.
  rewrite Hid. ring.
Qed.

(** The days on which a Once rule fires. *)
Lemma filter_eqb_range (a lo hi : Z) :
  filter (fun d => a =? d) (range lo hi) = if (lo <=? a) && (a <=? hi) then [a] else [].
Proof.
  pattern hi. apply (upper_bound_ind lo); clear hi.
  - intros hi Hlt. rewrite range_nil by assumption.
    destruct (Z.leb_spec lo a), (Z.leb_spec a hi); try reflexivity. lia.
  - intros hi Hle IH. rewrite range_snoc, filter_app, IH by assumption.
    cbn [filter].
    destruct (Z.eqb_spec a (hi + 1)) as [-> | Hne];
      repeat match goal with
             | |- context [?x <=? ?y] => destruct (Z.leb_spec x y)
             end; cbn [andb app]; try reflexivity; lia.
Qed.

Lemma month_amount_once (year month n : Z) (t : Transaction Qc) :
  once_in_month n t -> month_amount year month n t = amount t.
Proof.
  intros [Hf Hd]. unfold month_amount, firing_days, magnitude, fires.
  rewrite Hf. cbn [is_WEEKLY andb].
  rewrite filter_eqb_range.
  destruct (Z.leb_spec 1 (dayOfMonth t)), (Z.leb_spec (dayOfMonth t) n); try lia.
  cbn [andb List.length Z.of_nat]. change (Z.pos (Pos.of_succ_nat 0)) with 1.
  rewrite Qc_one. ring.
Qed.

Lemma month_amount_smooth (year month n : Z) (t : Transaction Qc) :
  frequency t = WEEKLY -> is_SMOOTH (weeklyBehavior t) = true -> 0 <= n ->
  month_amount year month n t = (amount t / Qc_of_Z 7 * Qc_of_Z n)%Qc.
Proof.
  intros Hf Hs Hn.
  assert (E : filter (fires year month t) (range 1 n) = range 1 n).
  { apply forallb_filter_id, forallb_forall. intros d _. unfold fires.
    rewrite Hf, Hs. reflexivity. }
  unfold month_amount, firing_days, magnitude. rewrite E, Hf, Hs. cbn [is_WEEKLY andb].
  rewrite length_range. do 2 f_equal. lia.
Qed.

Lemma month_amount_lump (year month : Z) (t : Transaction Qc) :
  valid_year_month year month ->
  frequency t = WEEKLY -> is_SMOOTH (weeklyBehavior t) = false ->
  month_amount year month (days_in_month year month) t
  = (amount t * Qc_of_Z (Part002.countWeekdayOccurrences year month (dayOfWeek_or_1 t)))%Qc.
Proof.
  intros V Hf Hs. unfold month_amount, magnitude. rewrite Hf, Hs. cbn [is_WEEKLY andb].
  do 2 f_equal.
  unfold Part002.countWeekdayOccurrences, firing_days.
  rewrite getDate_day0_next by exact V.
  rewrite count_is_length_filter. do 2 f_equal.
  apply filter_ext. intros d. unfold fires. rewrite Hf, Hs. reflexivity.
Qed.

End ExactSums.

(* ===================================================================== *)
(** ** Grouping by key, in exact arithmetic *)
(* ===================================================================== *)

Section Grouping.
Import Types Exact.
Context {T : Type}.
Variables (skip : T -> bool) (kf : T -> string) (vf : T -> Qc).

Lemma total_set_add (k : string) (x : Qc) (s : JSObject.t Qc) :
  total_of snd (JSObject.set k (add (or_0 (JSObject.get k s)) x) s)
  = (total_of snd s + x)%Qc.
Proof.
  change (@add Qc QcNumber) with Qcplus.
  induction s as [| [k' v'] s IH]; cbn [JSObject.set JSObject.get].
  - rewrite or_0_none. cbn. ring.
  - destruct (String.eqb k' k) eqn:E.
    + rewrite or_0_some, !total_of_cons. cbn [snd]. ring.
    + rewrite !total_of_cons. cbn [snd].
      set (y := (or_0 (JSObject.get k s) + x)%Qc) in *. rewrite IH. ring.
Qed.

Lemma group_total (l : list T) (idx : nat) (s : JSObject.t Qc) :
  total_of snd (forEach_from (group_step skip kf vf) l idx s)
  = (total_of snd s + total_of vf (filter (fun t => negb (skip t)) l))%Qc.
Proof.
  revert idx s. induction l as [| t l IH]; intros idx s; cbn [forEach_from filter].
  - cbn. ring.
  - rewrite IH. unfold group_step. destruct (skip t); cbn [negb]; [reflexivity |].
    rewrite total_set_add, total_of_cons. ring.
Qed.

Lemma group_well_formed (l : list T) (idx : nat) (s : JSObject.t Qc) :
  JSObject.well_formed s -> JSObject.well_formed (forEach_from (group_step skip kf vf) l idx s).
Proof.
  revert idx s. induction l as [| t l IH]; intros idx s Hs; cbn [forEach_from]; [exact Hs |].
  apply IH. unfold group_step. destruct (skip t); [exact Hs | apply well_formed_set, Hs].
Qed.

Lemma existsb_false_filter {A : Type} (f : A -> bool) (l : list A) :
  existsb f l = false -> filter f l = [].
Proof.
  induction l as [| x l IH]; cbn [existsb filter]; [reflexivity |].
  destruct (f x); [discriminate | exact IH].
Qed.

Lemma group_get (l : list T) (idx : nat) (s : JSObject.t Qc) (c : string) :
  JSObject.get c (forEach_from (group_step skip kf vf) l idx s)
  = if existsb (fun t => negb (skip t) && String.eqb (kf t) c) l
    then Some (or_0 (JSObject.get c s)
               + total_of vf (filter (fun t => negb (skip t) && String.eqb (kf t) c) l))%Qc
    else JSObject.get c s.
Proof.
  revert idx s. induction l as [| t l IH]; intros idx s; cbn [forEach_from existsb filter];
    [reflexivity |].
  rewrite IH. unfold group_step.
  destruct (skip t); cbn [negb andb orb]; [reflexivity |].
  change (@add Qc QcNumber) with Qcplus.
  destruct (String.eqb_spec (kf t) c) as [E | Hne]; cbn [orb].
  - subst c. rewrite get_set_eq, or_0_some, total_of_cons.
    destruct (existsb _ l) eqn:Ex; f_equal; [ring |].
    rewrite (existsb_false_filter _ _ Ex). cbn [total_of fold_right]. ring.
  - rewrite get_set_neq by congruence. reflexivity.
Qed.

End Grouping.

(* ===================================================================== *)
(** ** Totals and allocation against the simulator, in exact arithmetic *)
(* ===================================================================== *)

Section ClosedForm.
Import Types Calendar Exact.

(** X26.  In exact arithmetic the stored fields of day [d] have a closed form,
    rule by rule: the balance is the initial balance plus, for each rule,
    its signed magnitude times the number of days up to [d] on which it
    fires, and the cumulative income and expenses are the same sums over
    the Income rules and over the other rules; each rounded to cents. *)
Theorem planned_fields_closed_form
  (initialBalance : Qc) (year month : Z) (transactions : list (Transaction Qc))
  (actualEntries : list (ActualEntry Qc)) (d : Z) :
  valid_year_month year month -> 1 <= d <= days_in_month year month ->
  exists pts p,
    SimulationEngine.calculateDailySimulation initialBalance year month
      transactions actualEntries = Ok pts
    /\ nth_error pts (Z.to_nat (d - 1)) = Some p
    /\ balance p
       = round2 (initialBalance
                 + total_of (signed_month_amount year month d) transactions)%Qc
    /\ Types.cumulativeIncome p
       = round2 (total_of (fun t => if is_INCOME (type t)
                                    then month_amount year month d t else 0%Qc)
                   transactions)
    /\ Types.cumulativeExpenses p
       = round2 (total_of (fun t => if is_INCOME (type t)
                                    then 0%Qc else month_amount year month d t)
                   transactions).
Proof.
  intros V Hd.
  destruct (calculateDailySimulation_point initialBalance year month transactions
              actualEntries d V Hd) as (pts & Hpts & Hp).
  exists pts, (point_of year month transactions initialBalance actualEntries d).
  split; [exact Hpts | split; [exact Hp |]].
  cbn [balance Types.cumulativeIncome Types.cumulativeExpenses point_of].
  rewrite rawBalance_by_rule, rawCumulativeIncome_by_rule, rawCumulativeExpenses_by_rule.
  repeat split.
Qed.

Lemma sum_amounts_total (keep : Transaction Qc -> bool) (l : list (Transaction Qc)) :
  App.sum_amounts keep l = total_of amount (filter keep l).
Proof.
  unfold App.sum_amounts. rewrite fold_left_total.
  change (@num_of_Z Qc QcNumber 0) with (Qc_of_Z 0). rewrite Qc_zero. ring.
Qed.

Lemma signed_total_once (year month n : Z) (l : list (Transaction Qc)) :
  Forall (once_in_month n) l ->
  total_of (signed_month_amount year month n) l
  = (total_of amount (filter (fun t => is_INCOME (type t)) l)
     - total_of amount (filter (fun t => is_EXPENSE (type t)) l)
     - total_of amount (filter (fun t => is_SAVING (type t)) l))%Qc.
Proof.
  induction 1 as [| t l Ht Hl IH]; [cbn; ring |].
  rewrite total_of_cons, IH. unfold signed_month_amount.
  rewrite (month_amount_once year month n t Ht). cbn [filter].
  destruct (type t); cbn [is_INCOME is_EXPENSE is_SAVING]; rewrite ?total_of_cons; ring.
Qed.

Lemma last_point_of_month ib year month (l : list (Transaction Qc))
  (entries : list (ActualEntry Qc)) :
  let n := days_in_month year month in
  let pts := map (point_of year month l ib entries) (range 1 n) in
  List.length pts = Z.to_nat n
  /\ nth_error pts (List.length pts - 1) = Some (point_of year month l ib entries n).
Proof.
  cbv zeta. pose proof (days_in_month_range year month) as Hn.
  rewrite length_map, length_range. split; [f_equal; lia |].
  replace (Z.to_nat (days_in_month year month - 1 + 1) - 1)%nat
    with (Z.to_nat (days_in_month year month - 1)) by lia.
  apply nth_error_points. lia.
Qed.

(** X27.  For a month whose rules are all Once rules dated inside the month, the
    planned end balance that the dashboard shows is, in exact arithmetic,
    the initial balance of the month plus the surplus (income minus expenses
    minus savings), rounded to cents; [daysInMonth] is the length of the
    month and [dailyFlex] is the surplus divided by it. *)
Theorem totals_of_once_rules
  (initialBalancesMap : JSObject.t Qc)
  (transactionsMap : JSObject.t (list (Transaction Qc)))
  (actualEntries : JSObject.t (list (ActualEntry Qc))) (year month : Z) :
  valid_year_month year month ->
  Forall (once_in_month (days_in_month year month))
    (App.transactions transactionsMap (App.monthKey year month)) ->
  exists pts,
    App.simulationData initialBalancesMap transactionsMap actualEntries year month
    = Ok pts
    /\ App.plannedEndBalance
         (App.totals pts (App.transactions transactionsMap (App.monthKey year month)))
       = round2
           (App.initialBalance initialBalancesMap transactionsMap
              (App.monthKey year month)
            + App.surplus
                (App.totals pts
                   (App.transactions transactionsMap (App.monthKey year month))))%Qc
    /\ App.daysInMonth
         (App.totals pts (App.transactions transactionsMap (App.monthKey year month)))
       = Z.to_nat (days_in_month year month)
    /\ App.dailyFlex
         (App.totals pts (App.transactions transactionsMap (App.monthKey year month)))
       = (App.surplus
            (App.totals pts
               (App.transactions transactionsMap (App.monthKey year month)))
          / Qc_of_Z (days_in_month year month))%Qc.
Proof.
  intros V Honce. unfold App.simulationData. cbv zeta.
  set (l := App.transactions transactionsMap (App.monthKey year month)) in *.
  set (ib := App.initialBalance initialBalancesMap transactionsMap (App.monthKey year month)).
  set (entries := App.currentActuals actualEntries (App.monthKey year month)).
  eexists. split; [apply calculateDailySimulation_valid, V |].
  destruct (last_point_of_month ib year month l entries) as [Hlen Hlast].
  cbv zeta in Hlen, Hlast.
  pose proof (days_in_month_range year month) as Hn.
  unfold App.totals.
  cbn [App.plannedEndBalance App.surplus App.daysInMonth App.dailyFlex].
  rewrite Hlast, Hlen. cbn [option_map]. rewrite or_0_some.
  split; [| split; [reflexivity |]].
  - cbn [balance point_of]. f_equal.
    rewrite rawBalance_by_rule, (signed_total_once _ _ _ _ Honce), !sum_amounts_total.
    unfold subtract. change (@add Qc QcNumber) with Qcplus.
    change (@neg Qc QcNumber) with Qcopp. ring.
  - destruct (Nat.eqb_spec (Z.to_nat (days_in_month year month)) 0) as [E | _]; [lia |].
    rewrite Z2Nat.id by lia. reflexivity.
Qed.

End ClosedForm.

Section Allocation.
Import Types Calendar Exact.

Lemma actualMonthlyAmount_month_amount (year month : Z) (t : Transaction Qc) :
  valid_year_month year month ->
  counted_alike (days_in_month year month) t ->
  OldApp.actualMonthlyAmount year month (Z.to_nat (days_in_month year month)) t
  = month_amount year month (days_in_month year month) t.
Proof.
  intros V Hc. pose proof (days_in_month_range year month) as Hn.
  unfold counted_alike in Hc. unfold OldApp.actualMonthlyAmount.
  destruct (frequency t) eqn:Hf.
  - symmetry. apply month_amount_once. split; assumption.
  - destruct (is_SMOOTH (weeklyBehavior t)) eqn:Hs.
    + rewrite month_amount_smooth by (assumption || lia).
      rewrite Z2Nat.id by lia. reflexivity.
    + destruct Hc as [Hc | Hc]; [discriminate |].
      rewrite month_amount_lump by assumption.
      unfold OldApp.dayOfWeek_or_0, dayOfWeek_or_1.
      destruct (dayOfWeek t); [reflexivity | contradiction].
Qed.

(** X28.  In the older application, when every rule that is not an Income is a
    Once rule dated inside the month, a Smooth rule, or a Weekly rule with a
    day of the week, and is filed under a key that names no property
    inherited from [Object.prototype], the total of the allocation chart is,
    in exact arithmetic, the sum of what these rules move in the month, and
    the expense total of the dashboard is that total rounded to cents. *)
Theorem allocation_matches_expenses
  (initialBalance : Qc) (year month : Z) (transactions : list (Transaction Qc)) :
  valid_year_month year month ->
  (forall t, In t transactions -> is_INCOME (type t) = false ->
             counted_alike (days_in_month year month) t) ->
  plain_keys OldApp.split_key transactions ->
  let pts := OldApp.simulationData initialBalance year month transactions in
  let totalAllocation := snd (OldApp.categoryAnalysis pts year month transactions) in
  totalAllocation
  = total_of (fun t => if is_INCOME (type t) then 0%Qc
                       else month_amount year month (days_in_month year month) t)
      transactions
  /\ snd (OldApp.totals pts) = round2 totalAllocation.
Proof.
  intros V Hc _. cbv zeta. unfold OldApp.simulationData.
  rewrite calculateDailySimulation_reading_002, getDate_day0_next by exact V.
  destruct (last_point_of_month initialBalance year month transactions [])
    as [Hlen Hlast]. cbv zeta in Hlen, Hlast.
  assert (Htotal : snd (OldApp.categoryAnalysis
                          (map (point_of year month transactions initialBalance [])
                             (range 1 (days_in_month year month)))
                          year month transactions)
                   = total_of (fun t => if is_INCOME (type t) then 0%Qc
                                        else month_amount year month
                                               (days_in_month year month) t)
                       transactions).
  { unfold OldApp.categoryAnalysis, Object_entries. cbv zeta. cbn [snd].
    rewrite Hlen.
    rewrite fold_left_map.
    rewrite (fold_left_total snd).
    change (@num_of_Z Qc QcNumber 0) with (Qc_of_Z 0). rewrite Qc_zero.
    unfold forEach.
    change (forEach_from _ transactions 0%nat [])
      with (forEach_from
              (group_step (fun t => is_INCOME (type t)) OldApp.split_key
                 (OldApp.actualMonthlyAmount year month
                    (Z.to_nat (days_in_month year month))))
              transactions 0%nat []).
    rewrite group_total, total_of_filter.
    cbn [total_of fold_right].
    replace (0 + (0 + total_of
                        (fun x => if negb (is_INCOME (type x))
                                  then OldApp.actualMonthlyAmount year month
                                         (Z.to_nat (days_in_month year month)) x
                                  else 0) transactions))%Qc
      with (total_of
              (fun x => if negb (is_INCOME (type x))
                        then OldApp.actualMonthlyAmount year month
                               (Z.to_nat (days_in_month year month)) x
                        else 0%Qc) transactions) by ring.
    apply total_of_ext. intros t Ht.
    destruct (is_INCOME (type t)) eqn:Hi; cbn [negb]; [reflexivity |].
    apply actualMonthlyAmount_month_amount; [exact V | apply Hc; assumption]. }
  split; [exact Htotal |].
  rewrite Htotal. unfold OldApp.totals. cbv zeta. cbn [snd].
  rewrite Hlast. cbn [option_map]. rewrite or_0_some.
  cbn [Types.cumulativeExpenses point_of].
  rewrite rawCumulativeExpenses_by_rule. reflexivity.
Qed.

(** X29.  The allocation of the application groups by category and loses
    nothing, in exact arithmetic, when no rule other than an Income has a
    category that names a property inherited from [Object.prototype]:
    [data] has one entry for each category that a rule other than an Income
    has, its value is the sum of the amounts of these rules, and [total] is
    the sum of the amounts of all the rules that are not Incomes. *)
Theorem categoryAnalysis_groups_by_category (transactions : list (Transaction Qc)) :
  plain_keys category transactions ->
  let data := fst (App.categoryAnalysis transactions) in
  let total := snd (App.categoryAnalysis transactions) in
  total = App.sum_amounts (fun t => negb (is_INCOME (type t))) transactions
  /\ NoDup (map fst data)
  /\ (forall c, In c (map fst data) -> plain_key c = true)
  /\ forall c,
       JSObject.get c data
       = if existsb (fun t => negb (is_INCOME (type t)) && String.eqb (category t) c)
              transactions
         then Some (App.sum_amounts
                      (fun t => negb (is_INCOME (type t)) && String.eqb (category t) c)
                      transactions)
         else None.
Proof.
  intros Hplain.
  assert (Hget : forall c,
             JSObject.get c (fst (App.categoryAnalysis transactions))
             = if existsb (fun t => negb (is_INCOME (type t))
                                    && String.eqb (category t) c) transactions
               then Some (App.sum_amounts
                            (fun t => negb (is_INCOME (type t))
                                      && String.eqb (category t) c) transactions)
               else None).
  { intros c. unfold App.categoryAnalysis, Object_entries, forEach. cbv zeta. cbn [fst].
    change (forEach_from _ transactions 0%nat [])
      with (forEach_from (group_step (fun t => is_INCOME (type t)) category amount)
              transactions 0%nat []).
    rewrite group_get. cbn [JSObject.get].
    destruct (existsb _ transactions); [| reflexivity].
    rewrite or_0_none, sum_amounts_total. f_equal. ring. }
  cbv zeta. split; [| split; [| split; [| exact Hget]]].
  - unfold App.categoryAnalysis, Object_entries, forEach. cbv zeta. cbn [fst snd].
    change (forEach_from _ transactions 0%nat [])
      with (forEach_from (group_step (fun t => is_INCOME (type t)) category amount)
              transactions 0%nat []).
    rewrite (fold_left_total snd), group_total, sum_amounts_total.
    change (@num_of_Z Qc QcNumber 0) with (Qc_of_Z 0). rewrite Qc_zero.
    cbn [total_of fold_right]. ring.
  - unfold App.categoryAnalysis, Object_entries, forEach. cbv zeta. cbn [fst].
    change (forEach_from _ transactions 0%nat [])
      with (forEach_from (group_step (fun t => is_INCOME (type t)) category amount)
              transactions 0%nat []).
    apply (group_well_formed (fun t => is_INCOME (type t)) category amount).
    constructor.
  - intros c Hin.
    destruct (JSObject.get c (fst (App.categoryAnalysis transactions))) as [v |] eqn:Hv.
    + rewrite Hget in Hv.
      destruct (existsb _ transactions) eqn:Hex; [| discriminate].
      apply existsb_exists in Hex. destruct Hex as (t & Ht & Hc).
      apply andb_prop in Hc as [Hi Hc]. apply String.eqb_eq in Hc. subst c.
      apply Hplain; [exact Ht |]. destruct (is_INCOME (type t)); [discriminate | reflexivity].
    + exfalso. revert Hin Hv. generalize (fst (App.categoryAnalysis transactions)).
      intros o. induction o as [| [k v] o IH]; cbn [map fst In JSObject.get].
      * intros [].
      * intros [-> | Hin]; [rewrite String.eqb_refl; discriminate |].
        destruct (String.eqb k c); [discriminate | apply IH, Hin].
Qed.

End Allocation.

Section OlderRuleList.
Context {num : Type} `{Number num}.
Import Types.

(** X30.  In the older application an edit replaces every rule that has the
    identifier of the submitted one and keeps the identifiers, the order
    and the other rules; an edit under an identifier that no rule has
    changes nothing; a new rule goes last; a confirmed delete removes the
    rules with the identifier and keeps the others in their order. *)
Theorem older_rule_list_updates (t : Transaction num) (i : string)
  (prev : list (Transaction num)) :
  ids (OldApp.onSubmit true t prev) = ids prev
  /\ others (id t) (OldApp.onSubmit true t prev) = others (id t) prev
  /\ (forall item, In item (OldApp.onSubmit true t prev) ->
                   id item = id t -> item = t)
  /\ (~ In (id t) (ids prev) -> OldApp.onSubmit true t prev = prev)
  /\ OldApp.onSubmit false t prev = prev ++ [t]
  /\ OldApp.handleDelete true i prev = others i prev
  /\ OldApp.handleDelete false i prev = prev.
Proof.
  unfold OldApp.onSubmit, OldApp.handleDelete, ids, others.
  split; [| split; [| split; [| split; [| repeat split]]]].
  - rewrite map_map. apply map_ext. intros item.
    destruct (String.eqb_spec (id item) (id t)) as [E | _]; [symmetry; exact E | reflexivity].
  - induction prev as [| x prev IH]; cbn [map filter]; [reflexivity |].
    destruct (String.eqb_spec (id x) (id t)) as [E | Hne].
    + rewrite String.eqb_refl. cbn [negb]. exact IH.
    + rewrite (proj2 (String.eqb_neq _ _) Hne). cbn [negb]. rewrite IH. reflexivity.
  - intros item Hin E. apply in_map_iff in Hin. destruct Hin as [x [Hx _]].
    destruct (String.eqb_spec (id x) (id t)) as [_ | Hne]; [symmetry; exact Hx |].
    subst item. contradiction.
  - intros Hn. rewrite <- (map_id prev) at 2. apply map_ext_in. intros x Hx.
    destruct (String.eqb_spec (id x) (id t)) as [E | _]; [| reflexivity].
    exfalso. apply Hn. rewrite <- E. apply in_map, Hx.
Qed.

End OlderRuleList.

Lemma planned_fields_closed_form_witness :
  Calendar.valid_year_month 2024 1
  /\ 1 <= 10 <= Calendar.days_in_month 2024 1
  /\ exists pts p,
      SimulationEngine.calculateDailySimulation (Exact.milli 2500000) 2024 1
        [Examples.smooth_income_1; AppExamples.rent] [] = Ok pts
      /\ nth_error pts (Z.to_nat (10 - 1)) = Some p
      /\ Types.balance p
         = round2 (Exact.milli 2500000
                   + total_of (signed_month_amount 2024 1 10)
                       [Examples.smooth_income_1; AppExamples.rent])%Qc.
Proof.
  assert (V : Calendar.valid_year_month 2024 1) by (unfold Calendar.valid_year_month; lia).
  assert (Hd : 1 <= 10 <= Calendar.days_in_month 2024 1) by (cbn; lia).
  split; [exact V | split; [exact Hd |]].
  destruct (planned_fields_closed_form (Exact.milli 2500000) 2024 1
              [Examples.smooth_income_1; AppExamples.rent] [] 10 V Hd)
    as (pts & p & Hpts & Hp & Hb & _).
  exists pts, p. split; [exact Hpts | split; [exact Hp | exact Hb]].
Defined.

Lemma totals_of_once_rules_witness :
  Calendar.valid_year_month 2024 1
  /\ Forall (once_in_month (Calendar.days_in_month 2024 1))
       (App.transactions AppExamples.rules_feb (App.monthKey 2024 1))
  /\ exists pts,
      App.simulationData AppExamples.balances_dec AppExamples.rules_feb
        AppExamples.log_feb 2024 1 = Ok pts
      /\ App.daysInMonth
           (App.totals pts (App.transactions AppExamples.rules_feb (App.monthKey 2024 1)))
         = 29%nat.
Proof.
  assert (V : Calendar.valid_year_month 2024 1) by (unfold Calendar.valid_year_month; lia).
  assert (Honce : Forall (once_in_month (Calendar.days_in_month 2024 1))
                    (App.transactions AppExamples.rules_feb (App.monthKey 2024 1))).
  { constructor; [| constructor]. split; [reflexivity | cbn; lia]. }
  split; [exact V | split; [exact Honce |]].
  destruct (totals_of_once_rules AppExamples.balances_dec AppExamples.rules_feb
              AppExamples.log_feb 2024 1 V Honce) as (pts & Hpts & _ & Hdays & _).
  exists pts. split; [exact Hpts | exact Hdays].
Defined.

Lemma allocation_matches_expenses_witness :
  Calendar.valid_year_month 2024 1
  /\ plain_keys OldApp.split_key [Examples.smooth_income_1; AppExamples.rent]
  /\ snd (OldApp.totals
            (OldApp.simulationData (Exact.milli 2500000) 2024 1
               [Examples.smooth_income_1; AppExamples.rent]))
     = round2 (snd (OldApp.categoryAnalysis
                      (OldApp.simulationData (Exact.milli 2500000) 2024 1
                         [Examples.smooth_income_1; AppExamples.rent])
                      2024 1 [Examples.smooth_income_1; AppExamples.rent])).
Proof.
  assert (V : Calendar.valid_year_month 2024 1) by (unfold Calendar.valid_year_month; lia).
  assert (Hc : forall t, In t [Examples.smooth_income_1; AppExamples.rent] ->
                 Types.is_INCOME (Types.type t) = false ->
                 counted_alike (Calendar.days_in_month 2024 1) t).
  { intros t [<- | [<- | []]] Hi; [discriminate Hi |].
    unfold counted_alike. cbn. lia. }
  assert (Hk : plain_keys OldApp.split_key [Examples.smooth_income_1; AppExamples.rent]).
  { intros t [<- | [<- | []]] Hi; [discriminate Hi | reflexivity]. }
  split; [exact V | split; [exact Hk |]].
  exact (proj2 (allocation_matches_expenses (Exact.milli 2500000) 2024 1
                  [Examples.smooth_income_1; AppExamples.rent] V Hc Hk)).
Defined.

(** A salary and a rent: the allocation has the one entry Housing, 900. *)
Lemma categoryAnalysis_groups_by_category_witness :
  plain_keys Types.category [Examples.smooth_income_1; AppExamples.rent]
  /\ snd (App.categoryAnalysis [Examples.smooth_income_1; AppExamples.rent])
     = App.sum_amounts (fun t => negb (Types.is_INCOME (Types.type t)))
         [Examples.smooth_income_1; AppExamples.rent]
  /\ JSObject.get "Housing" (fst (App.categoryAnalysis
                                    [Examples.smooth_income_1; AppExamples.rent]))
     = Some (App.sum_amounts
               (fun t => negb (Types.is_INCOME (Types.type t))
                         && String.eqb (Types.category t) "Housing")
               [Examples.smooth_income_1; AppExamples.rent]).
Proof.
  assert (Hk : plain_keys Types.category [Examples.smooth_income_1; AppExamples.rent]).
  { intros t [<- | [<- | []]] Hi; [discriminate Hi | reflexivity]. }
  destruct (categoryAnalysis_groups_by_category
              [Examples.smooth_income_1; AppExamples.rent] Hk)
    as (Htotal & _ & _ & Hget).
  split; [exact Hk | split; [exact Htotal | exact (Hget "Housing"%string)]].
Defined.

(* ===================================================================== *)
(** ** The weekday counter against the engines, in exact arithmetic *)
(* ===================================================================== *)

Section CountedDays.
Import Types Calendar Exact.

(** X11.  The engines and the weekday counter agree, in exact arithmetic.  In a
    valid month, with observed days that are safe integers, a Weekly rule
    that is not Smooth, wherever it stands in the rule list, has moved by
    the last day of the month its amount times
    countWeekdayOccurrences(year, month, dayOfWeek ?? 1): that is its share
    of the cumulativeIncome (for an Income), of the cumulativeExpenses (for
    the others) and of the balance that the last point stores, in both
    engines; the count is 4 or 5 when that weekday is in 0..6 and 0 when it
    is not. *)
Theorem lump_sum_fires_on_counted_days
  (initialBalance : Qc) (year month : Z) (pre post : list (Transaction Qc))
  (t : Transaction Qc) (entries : list (ActualEntry Qc)) :
  valid_year_month year month ->
  frequency t = WEEKLY -> is_SMOOTH (weeklyBehavior t) = false ->
  safe_days entries ->
  let n := days_in_month year month in
  let count := Part002.countWeekdayOccurrences year month (dayOfWeek_or_1 t) in
  let moved := (amount t * Qc_of_Z count)%Qc in
  let incomes :=
    total_of (fun r => if is_INCOME (type r) then month_amount year month n r else 0%Qc) in
  let expenses :=
    total_of (fun r => if is_INCOME (type r) then 0%Qc else month_amount year month n r) in
  (0 <= dayOfWeek_or_1 t <= 6 -> 4 <= count <= 5)
  /\ (~ (0 <= dayOfWeek_or_1 t <= 6) -> count = 0)
  /\ exists pts p q,
       returns initialBalance year month (pre ++ t :: post) entries (Ok pts)
       /\ nth_error pts (Z.to_nat (n - 1)) = Some p
       /\ nth_error (Part002.calculateDailySimulation initialBalance year month
                       (pre ++ t :: post)) (Z.to_nat (n - 1)) = Some q
       /\ Types.cumulativeIncome p
          = round2 (incomes pre + (if is_INCOME (type t) then moved else 0)
                    + incomes post)%Qc
       /\ Types.cumulativeExpenses p
          = round2 (expenses pre + (if is_INCOME (type t) then 0 else moved)
                    + expenses post)%Qc
       /\ balance p
          = round2 (initialBalance
                    + (incomes pre + (if is_INCOME (type t) then moved else 0)
                       + incomes post)
                    - (expenses pre + (if is_INCOME (type t) then 0 else moved)
                       + expenses post))%Qc
       /\ planned_fields q = planned_fields p.
Proof.
  intros V Hw Hs Hsafe. cbv zeta.
  pose proof (days_in_month_range year month) as Hn.
  assert (Hd : 1 <= days_in_month year month <= days_in_month year month) by lia.
  split; [apply count_bounds_valid, V | split; [apply count_zero_no_weekday |]].
  destruct (returns_point initialBalance year month (pre ++ t :: post) entries
              (days_in_month year month) V Hd Hsafe) as (pts & Hpts & Hp).
  exists pts,
    (point_of year month (pre ++ t :: post) initialBalance entries
       (days_in_month year month)),
    (point_of year month (pre ++ t :: post) initialBalance []
       (days_in_month year month)).
  split; [exact Hpts | split; [exact Hp | split]].
  - rewrite calculateDailySimulation_reading_002, getDate_day0_next by exact V.
    apply nth_error_points, Hd.
  - cbn [balance Types.cumulativeIncome Types.cumulativeExpenses point_of].
    rewrite rawBalance_by_rule, rawCumulativeIncome_by_rule,
      rawCumulativeExpenses_by_rule, signed_total_split.
    rewrite !total_of_app, !total_of_cons.
    rewrite (month_amount_lump year month t V Hw Hs).
    repeat split; f_equal; ring.
Qed.

End CountedDays.

(** February 2024 has four Mondays: a pay of 50 on Mondays has brought in
    200 by the 29th. *)
Lemma lump_sum_fires_on_counted_days_witness :
  Calendar.valid_year_month 2024 1
  /\ safe_days [Examples.entry_10_1000]
  /\ Part002.countWeekdayOccurrences 2024 1 (dayOfWeek_or_1 Examples.lump_income_50) = 4
  /\ exists pts p,
       returns (Exact.milli 0) 2024 1 [Examples.lump_income_50]
         [Examples.entry_10_1000] (Ok pts)
       /\ nth_error pts (Z.to_nat (Calendar.days_in_month 2024 1 - 1)) = Some p
       /\ Types.cumulativeIncome p = Exact.milli 200000.
Proof.
  assert (V : Calendar.valid_year_month 2024 1) by (unfold Calendar.valid_year_month; lia).
  destruct (lump_sum_fires_on_counted_days (Exact.milli 0) 2024 1 [] []
              Examples.lump_income_50 [Examples.entry_10_1000] V eq_refl eq_refl eq_refl)
    as (_ & _ & pts & p & _ & Hpts & Hp & _ & Hincome & _).
  split; [exact V | split; [reflexivity | split; [reflexivity |]]].
  exists pts, p. split; [exact Hpts | split; [exact Hp |]].
  rewrite Hincome. apply Qc_is_canon. reflexivity.
Defined.
